(** * Gabar AI / Athena intake workflow: a shallow embedding

    The JavaScript handlers of the repository are embedded as Rocq
    functions over an explicit world (Firestore collections and
    Pub/Sub topics).

    Conventions.
    - Strings are [string]; a time value is a number of milliseconds since
      the epoch in [Z]; a Firestore collection keyed by document id is a
      [gmap string _]; an append-only collection and a topic are lists.
    - A value read from a request body or from the answer of a service is
      a [JS.value]: [undefined] (the key is missing), [null] or a value.
      Firestore refuses the first and stores the second.  Where the code
      does not tell them apart (truthiness, [||]), and in stored documents
      and parsed messages, where a missing field and [null] read alike, an
      optional value is an [option].
    - A handler is a function from what it receives (request or message,
      the reading of the clock, the answer of a remote service) and the
      world to its result and the new world.  A thrown error is the
      [Threw] outcome; [try]/[catch] is a match on the outcome.
    - Calls to Firestore and Pub/Sub succeed, except where Firestore's own
      rules make them fail: [update] of a document that does not exist, a
      document id that is not a non-empty string, a field that is
      [undefined].  The Secret Manager delivers its secrets.
    - One run of a handler reads the clock once.
    - String functions are read on ASCII strings. *)

From Stdlib Require Import ZArith Ascii String List Bool Lia.
From stdpp Require Import base option gmap strings list fin_maps pretty.

Local Open Scope string_scope.

(** ** JavaScript string helpers *)

Module JS.

(** [/\d/] on one code unit. *)
Definition is_digit (c : ascii) : bool :=
  ((48 <=? N_of_ascii c) && (N_of_ascii c <=? 57))%N.

(** [s.replace(/\D/g, '')] *)
Fixpoint strip_non_digits (s : string) : string :=
  match s with
  | EmptyString => EmptyString
  | String c r =>
      if is_digit c then String c (strip_non_digits r) else strip_non_digits r
  end.

(** [s.startsWith(p)] *)
Definition startsWith (s p : string) : bool := String.prefix p s.

(** [s.substring(n)] *)
Definition substring_from (n : nat) (s : string) : string :=
  String.substring n (String.length s - n) s.

(** [a <= c && c <= b] on one-character strings: comparison of code units;
    an index out of range yields [undefined], which compares false. *)
Definition char_between (lo hi : ascii) (c : option ascii) : bool :=
  match c with
  | Some c => ((N_of_ascii lo <=? N_of_ascii c) && (N_of_ascii c <=? N_of_ascii hi))%N
  | None => false
  end.

(** A value read from a JSON document: a key the document does not carry
    reads [undefined], and [null] is a value of its own. *)
Inductive value (A : Type) : Type :=
| Undefined
| Null
| Val (a : A).
Arguments Undefined {A}.
Arguments Null {A}.
Arguments Val {A} a.

(** The value where [undefined] and [null] read alike. *)
Definition nullable {A : Type} (v : value A) : option A :=
  match v with
  | Val a => Some a
  | _ => None
  end.

(** [v !== undefined] *)
Definition defined {A : Type} (v : value A) : bool :=
  match v with
  | Undefined => false
  | _ => true
  end.

(** [obj[key]] on a JSON object whose values are strings or [null]. *)
Definition read (obj : gmap string (option string)) (key : string)
    : value string :=
  match obj !! key with
  | Some (Some s) => Val s
  | Some None => Null
  | None => Undefined
  end.

(** A value inside a template literal. *)
Definition template (v : value string) : string :=
  match v with
  | Undefined => "undefined"
  | Null => "null"
  | Val s => s
  end.

(** Truthiness of an optional string: [undefined], [null] and [''] are falsy. *)
Definition truthy (v : option string) : bool :=
  match v with
  | Some s => negb (String.eqb s "")
  | None => false
  end.

(** [a || b] on optional strings. *)
Definition or_else (a b : option string) : option string :=
  if truthy a then a else b.

(** [a || ''] *)
Definition or_empty (a : option string) : string :=
  match a with
  | Some s => s
  | None => ""
  end.

(** ASCII white space, as removed by [trim]. *)
Definition is_space (c : ascii) : bool :=
  let n := N_of_ascii c in
  ((n =? 32) || ((9 <=? n) && (n <=? 13)))%N.

Fixpoint trim_start (s : string) : string :=
  match s with
  | String c r => if is_space c then trim_start r else s
  | EmptyString => EmptyString
  end.

(** [s.trim()], read on ASCII strings. *)
Definition trim (s : string) : string :=
  String.rev (trim_start (String.rev (trim_start s))).

Definition lower_char (c : ascii) : ascii :=
  let n := N_of_ascii c in
  if ((65 <=? n) && (n <=? 90))%N then ascii_of_N (n + 32) else c.

(** [s.toLowerCase()], read on ASCII strings. *)
Fixpoint toLowerCase (s : string) : string :=
  match s with
  | String c r => String (lower_char c) (toLowerCase r)
  | EmptyString => EmptyString
  end.

(** [s.includes(sub)] *)
Definition includes (s sub : string) : bool :=
  match String.index 0 sub s with
  | Some _ => true
  | None => false
  end.

(** [s.match(/\d{1,2}/)]: the leftmost digit, with the digit after it if
    there is one. *)
Fixpoint match_digits_1_2 (s : string) : option string :=
  match s with
  | EmptyString => None
  | String c r =>
      if is_digit c then
        match r with
        | String c' _ =>
            if is_digit c' then Some (String c (String c' EmptyString))
            else Some (String c EmptyString)
        | EmptyString => Some (String c EmptyString)
        end
      else match_digits_1_2 r
  end.

(** [s.match(/\d{4}/)]: the leftmost run of four digits. *)
Fixpoint match_digits_4 (s : string) : option string :=
  match s with
  | EmptyString => None
  | String c r =>
      match r with
      | String c1 (String c2 (String c3 _)) =>
          if is_digit c && is_digit c1 && is_digit c2 && is_digit c3
          then Some (String c (String c1 (String c2 (String c3 EmptyString))))
          else match_digits_4 r
      | _ => None
      end
  end.

(** [s.match(/(\d{5})/)] *)
Fixpoint match_digits_5 (s : string) : option string :=
  match s with
  | EmptyString => None
  | String c r =>
      match r with
      | String c1 (String c2 (String c3 (String c4 _))) =>
          if is_digit c && is_digit c1 && is_digit c2 && is_digit c3
             && is_digit c4
          then Some (String c (String c1 (String c2 (String c3
                       (String c4 EmptyString)))))
          else match_digits_5 r
      | _ => None
      end
  end.

Definition digit_value (c : ascii) : Z := Z.of_N (N_of_ascii c) - 48.

Fixpoint to_number_acc (acc : Z) (s : string) : Z :=
  match s with
  | EmptyString => acc
  | String c r => to_number_acc (10 * acc + digit_value c) r
  end.

(** [ToNumber] on a string of decimal digits. *)
Definition to_number (s : string) : Z := to_number_acc 0 s.

(** [s.split(sep)] for a one-character separator. *)
Fixpoint split (sep : ascii) (s : string) : list string :=
  match s with
  | EmptyString => [EmptyString]
  | String c r =>
      if Ascii.eqb c sep then EmptyString :: split sep r
      else match split sep r with
           | p :: ps => String c p :: ps
           | [] => [String c EmptyString]
           end
  end.

Definition digit_char (k : Z) : ascii :=
  match k with
  | 0 => "0" | 1 => "1" | 2 => "2" | 3 => "3" | 4 => "4"
  | 5 => "5" | 6 => "6" | 7 => "7" | 8 => "8" | _ => "9"
  end%Z%char.

(** Decimal rendering of [n] on exactly [w] digits (zero padded). *)
Fixpoint pad (w : nat) (n : Z) : string :=
  match w with
  | O => EmptyString
  | S w' => pad w' (n / 10) +:+ String (digit_char (n mod 10)) EmptyString
  end.

End JS.

(** ** Phone normalisation *)

(** src/functions/patient-creator/index.js, [cleanPhone] *)
Definition cleanPhone (phone : option string) : string :=
  if negb (JS.truthy phone) then "" else
  let cleaned := JS.strip_non_digits (JS.or_empty phone) in
  let cleaned :=
    if (String.length cleaned =? 11)%nat && JS.startsWith cleaned "1"
    then JS.substring_from 1 cleaned else cleaned in
  if (String.length cleaned =? 10)%nat
     && JS.char_between "2" "9" (String.get 0 cleaned)
     && JS.char_between "2" "9" (String.get 3 cleaned)
  then cleaned else "".

(** src/functions/bland-webhook/index.js, [parsePhoneNumber]; on strings
    [String(phone)] is the identity. *)
Definition parsePhoneNumber (phone : option string) : string :=
  if negb (JS.truthy phone) then "" else
  let cleaned := JS.strip_non_digits (JS.or_empty phone) in
  let cleaned :=
    if (String.length cleaned =? 11)%nat && JS.startsWith cleaned "1"
    then JS.substring_from 1 cleaned else cleaned in
  if (String.length cleaned =? 10)%nat
     && JS.char_between "2" "9" (String.get 0 cleaned)
     && JS.char_between "2" "9" (String.get 3 cleaned)
  then cleaned else "".

(** The NANP digit-position rule on a 10-digit form. *)
Definition nanp_ok (t : string) : bool :=
  (String.length t =? 10)%nat
  && JS.char_between "2" "9" (String.get 0 t)
  && JS.char_between "2" "9" (String.get 3 t).

(** The 10-digit form of a digit string: a leading 1 of an 11-digit string
    is dropped. *)
Definition ten_digit_form (d : string) : string :=
  if (String.length d =? 11)%nat && JS.startsWith d "1"
  then JS.substring_from 1 d else d.

(** ** The JavaScript [Date] object

    Time values are milliseconds since 1970-01-01T00:00:00Z; an invalid
    date ([NaN]) is [None]. *)

Module JSDate.

Local Open Scope Z_scope.

Definition msPerDay : Z := 86400000.

(** ECMA-262 [TimeClip]. *)
Definition TimeClip (t : Z) : option Z :=
  if Z.abs t <=? 8640000000000000 then Some t else None.

(** Day number of the civil date [y]-[m]-[d] of the proleptic Gregorian
    calendar ([m] from 1), relative to 1970-01-01. *)
Definition days_from_civil (y m d : Z) : Z :=
  let y' := if m <=? 2 then y - 1 else y in
  let era := y' / 400 in
  let yoe := y' - era * 400 in
  let mp := if 2 <? m then m - 3 else m + 9 in
  let doy := (153 * mp + 2) / 5 + d - 1 in
  let doe := yoe * 365 + yoe / 4 - yoe / 100 + doy in
  era * 146097 + doe - 719468.

(** Civil date of a day number: the inverse of [days_from_civil]. *)
Definition civil_from_days (z : Z) : Z * Z * Z :=
  let z' := z + 719468 in
  let era := z' / 146097 in
  let doe := z' - era * 146097 in
  let yoe := (doe - doe / 1460 + doe / 36524 - doe / 146096) / 365 in
  let doy := doe - (365 * yoe + yoe / 4 - yoe / 100) in
  let mp := (5 * doy + 2) / 153 in
  let d := doy - (153 * mp + 2) / 5 + 1 in
  let m := if mp <? 10 then mp + 3 else mp - 9 in
  let y := yoe + era * 400 in
  (if m <=? 2 then y + 1 else y, m, d).

Definition is_leap (y : Z) : bool :=
  ((y mod 4 =? 0) && negb (y mod 100 =? 0)) || (y mod 400 =? 0).

Definition days_in_month (y m : Z) : Z :=
  match m with
  | 2 => if is_leap y then 29 else 28
  | 4 | 6 | 9 | 11 => 30
  | _ => 31
  end.

Definition valid_date (y m d : Z) : bool :=
  (1 <=? m) && (m <=? 12) && (1 <=? d) && (d <=? days_in_month y m).

(** The host: its offset from UTC (milliseconds, positive east of
    Greenwich) at a given local time, and the engine's parser behind
    [new Date(string)], which ECMA-262 leaves to the implementation for
    everything but the ISO forms. *)
Record Runtime := {
  LocalTZA : Z -> Z;
  Date_parse : string -> option Z
}.

Section WithRuntime.
Context (rt : Runtime).

(** ECMA-262 [UTC(t)]: local time to UTC. *)
Definition UTC (t : Z) : Z := t - LocalTZA rt t.

(** [new Date(year, monthIndex, day)]: local midnight of that day;
    years 0..99 stand for 1900..1999 and month and day overflow as
    [MakeDay] has them. *)
Definition new_Date_ymd (year monthIndex day : Z) : option Z :=
  let yr := if (0 <=? year) && (year <=? 99) then 1900 + year else year in
  let ym := yr + monthIndex / 12 in
  let mn := monthIndex mod 12 in
  let dayno := days_from_civil ym (mn + 1) 1 + day - 1 in
  TimeClip (UTC (dayno * msPerDay)).

(** [new Date(string)] *)
Definition new_Date_string (s : string) : option Z :=
  match Date_parse rt s with
  | Some t => TimeClip t
  | None => None
  end.

End WithRuntime.

Definition render_year (y : Z) : string :=
  if (0 <=? y) && (y <=? 9999) then JS.pad 4 y
  else if y <? 0 then "-" +:+ JS.pad 6 (- y)
  else "+" +:+ JS.pad 6 y.

(** [date.toISOString()] of a valid date. *)
Definition toISOString (t : Z) : string :=
  let '(y, m, d) := civil_from_days (t / msPerDay) in
  let r := t mod msPerDay in
  render_year y +:+ "-" +:+ JS.pad 2 m +:+ "-" +:+ JS.pad 2 d +:+ "T"
  +:+ JS.pad 2 (r / 3600000) +:+ ":" +:+ JS.pad 2 (r / 60000 mod 60) +:+ ":"
  +:+ JS.pad 2 (r / 1000 mod 60) +:+ "." +:+ JS.pad 3 (r mod 1000) +:+ "Z".

End JSDate.

(** ** Date normalisation *)

Definition monthNames : list string :=
  ["january"; "february"; "march"; "april"; "may"; "june"; "july";
   "august"; "september"; "october"; "november"; "december"].

(** The [for] loop of [parseDate] from index [i] on: the first month name
    contained in [lowerStr] for which a day and a year are found builds the
    date and ends the loop; [date] keeps its value otherwise. *)
Fixpoint month_loop (rt : JSDate.Runtime) (lowerStr : string)
    (names : list string) (i : Z) (date : option Z) : option Z :=
  match names with
  | [] => date
  | name :: rest =>
      if JS.includes lowerStr name then
        match JS.match_digits_1_2 lowerStr, JS.match_digits_4 lowerStr with
        | Some dayMatch, Some yearMatch =>
            JSDate.new_Date_ymd rt (JS.to_number yearMatch) i
              (JS.to_number dayMatch)
        | _, _ => month_loop rt lowerStr rest (i + 1)%Z date
        end
      else month_loop rt lowerStr rest (i + 1)%Z date
  end.

(** src/functions/bland-webhook/index.js, [parseDate]; [None] is [null]. *)
Definition parseDate (rt : JSDate.Runtime) (dateInput : option string)
    : option string :=
  if negb (JS.truthy dateInput) then None else
  let dateStr := JS.trim (JS.or_empty dateInput) in
  let date := JSDate.new_Date_string rt dateStr in
  let date :=
    match date with
    | None => month_loop rt (JS.toLowerCase dateStr) monthNames 0%Z date
    | Some _ => date
    end in
  match date with
  | Some t => head (JS.split "T" (JSDate.toISOString t))
  | None => None
  end.

(** src/functions/patient-creator/index.js, [formatDateForAthena] *)
Definition formatDateForAthena (isoDate : option string) : string :=
  if negb (JS.truthy isoDate) then "" else
  let iso := JS.or_empty isoDate in
  match JS.split "-" iso with
  | [p0; p1; p2] => p1 +:+ "/" +:+ p2 +:+ "/" +:+ p0
  | _ => iso
  end.


(** ** Documents, messages and the world *)

(** The payload of an intake document and of a create-patient message; an
    absent field ([undefined] or [null]) is [None]. *)
Module PD.
Record t := mk {
  id : option string;
  firstName : option string;
  lastName : option string;
  dateOfBirth : option string;
  phone : option string;
  email : option string;
  sex : option string;
  houseNumber : option string;
  street : option string;
  city : option string;
  state : option string;
  zip : option string;
  appointmentId : option string;
  appointmentTypeId : option string;
  preferredDate : option string;
  preferredTime : option string;
  reasonForVisit : option string;
  source : option string;
  callId : option string;
  pathwayId : option string;
  timestamp : option string
}.

Definition with_id (i : option string) (p : t) : t :=
  mk i (firstName p) (lastName p) (dateOfBirth p) (phone p) (email p) (sex p)
     (houseNumber p) (street p) (city p) (state p) (zip p) (appointmentId p)
     (appointmentTypeId p) (preferredDate p) (preferredTime p)
     (reasonForVisit p) (source p) (callId p) (pathwayId p) (timestamp p).
End PD.

(** A document of the [patient_intake_queue] collection. *)
Module Intake.
Record t := mk {
  data : PD.t;
  status : string;
  createdAt : option Z;
  retryCount : option Z;
  processingStarted : option Z;
  error : option string;
  errorAt : option Z;
  athenaPatientId : option string;
  completedAt : option Z;
  appointmentBooked : bool;
  appointmentBookedAt : option Z;
  appointmentConfirmation : option string
}.

(** A freshly enqueued document. *)
Definition fresh (d : PD.t) (now : Z) (retry : option Z) : t :=
  mk d "pending" (Some now) retry None None None None None false None None.

(** [update({status: 'processing', processingStarted: new Date()})] *)
Definition claim (now : Z) (r : t) : t :=
  mk (data r) "processing" (createdAt r) (retryCount r) (Some now) (error r)
     (errorAt r) (athenaPatientId r) (completedAt r) (appointmentBooked r)
     (appointmentBookedAt r) (appointmentConfirmation r).

(** [update({status: 'completed', athenaPatientId, completedAt: new Date()})] *)
Definition complete (pid : string) (now : Z) (r : t) : t :=
  mk (data r) "completed" (createdAt r) (retryCount r) (processingStarted r)
     (error r) (errorAt r) (Some pid) (Some now) (appointmentBooked r)
     (appointmentBookedAt r) (appointmentConfirmation r).

(** [update({status: 'error', error: error.message, errorAt: new Date()})] *)
Definition fail (msg : string) (now : Z) (r : t) : t :=
  mk (data r) "error" (createdAt r) (retryCount r) (processingStarted r)
     (Some msg) (Some now) (athenaPatientId r) (completedAt r)
     (appointmentBooked r) (appointmentBookedAt r) (appointmentConfirmation r).

(** [update({status: 'pending', error: null, errorAt: null,
    processingStarted: null})] *)
Definition requeue (r : t) : t :=
  mk (data r) "pending" (createdAt r) (retryCount r) None None None
     (athenaPatientId r) (completedAt r) (appointmentBooked r)
     (appointmentBookedAt r) (appointmentConfirmation r).

(** [update({appointmentBooked: true, appointmentBookedAt: new Date(),
    appointmentConfirmation: response.data})] *)
Definition booked (now : Z) (conf : string) (r : t) : t :=
  mk (data r) (status r) (createdAt r) (retryCount r) (processingStarted r)
     (error r) (errorAt r) (athenaPatientId r) (completedAt r) true
     (Some now) (Some conf).
(** The document with only [completedAt] written. *)
Definition stamp_completedAt (now : Z) (r : t) : t :=
  mk (data r) (status r) (createdAt r) (retryCount r) (processingStarted r)
     (error r) (errorAt r) (athenaPatientId r) (Some now)
     (appointmentBooked r) (appointmentBookedAt r) (appointmentConfirmation r).

(** The document with only [errorAt] written. *)
Definition stamp_errorAt (now : Z) (r : t) : t :=
  mk (data r) (status r) (createdAt r) (retryCount r) (processingStarted r)
     (error r) (Some now) (athenaPatientId r) (completedAt r)
     (appointmentBooked r) (appointmentBookedAt r) (appointmentConfirmation r).
End Intake.

(** The document [api_tokens/athena-current]. *)
Record Credential := {
  token : option string;
  type : string;
  service : string;
  tokenCreatedAt : Z;
  expiresAt : Z;
  expiresIn : Z;
  scope : string;
  environment : string;
  lastRefreshed : Z;
  refreshCount : Z
}.

(** A document of the [patients] collection. *)
Record PatientDoc := {
  patientFields : PD.t;
  patientAthenaId : string;
  athenaCreatedAt : Z;
  patientStatus : string;
  streetAddress : string
}.

(** A document of the [errors] collection. *)
Record ErrorDoc := {
  errType : string;
  errMessage : string;
  errTimestamp : Z
}.

(** The message published to [book-appointment]. *)
Record BookMsg := {
  bookPatientId : string;
  bookAppointmentId : string;
  bookAppointmentTypeId : string;
  originalRecordId : option string
}.

(** The message published to [patient-activity]. *)
Record ActivityMsg := {
  actPatientId : string;
  actLastName : option string;
  activityType : string;
  actStatus : string;
  actSource : option string
}.

(** The message published to [error-notifications]. *)
Record ErrorNote := {
  noteFunction : string;
  noteError : string;
  noteTimestamp : Z
}.

(** The message published to [process-patient-queue]. *)
Record TriggerMsg := {
  trigger : string;
  urgent : bool;
  recordId : option string
}.

(** Firestore collections and Pub/Sub topics.  A topic holds the messages
    published to it, oldest first; delivery does not remove a message
    (at-least-once). *)
Record World := {
  patient_intake_queue : gmap string Intake.t;
  api_tokens : option Credential;
  patients : gmap string PatientDoc;
  errors : list ErrorDoc;
  bland_failed_calls : list (option string * option string * Z);
  bland_incomplete_records : list (option string * list string * Z);
  webhook_errors : list (string * Z);
  token_refresh_log : list (Z * Z * Z);
  appointments : list (string * string * Z);
  topic_create_patient : list PD.t;
  topic_book_appointment : list BookMsg;
  topic_patient_activity : list ActivityMsg;
  topic_error_notifications : list ErrorNote;
  topic_process_patient_queue : list TriggerMsg
}.

Definition empty_world : World :=
  {| patient_intake_queue := ∅; api_tokens := None; patients := ∅;
     errors := []; bland_failed_calls := []; bland_incomplete_records := [];
     webhook_errors := [];
     token_refresh_log := []; appointments := [];
     topic_create_patient := []; topic_book_appointment := [];
     topic_patient_activity := []; topic_error_notifications := [];
     topic_process_patient_queue := [] |}.

Definition set_queue (q : gmap string Intake.t) (w : World) : World :=
  {| patient_intake_queue := q; api_tokens := api_tokens w;
     patients := patients w; errors := errors w;
     bland_failed_calls := bland_failed_calls w;
     bland_incomplete_records := bland_incomplete_records w;
     webhook_errors := webhook_errors w;
     token_refresh_log := token_refresh_log w;
     appointments := appointments w;
     topic_create_patient := topic_create_patient w;
     topic_book_appointment := topic_book_appointment w;
     topic_patient_activity := topic_patient_activity w;
     topic_error_notifications := topic_error_notifications w;
     topic_process_patient_queue := topic_process_patient_queue w |}.

Definition set_api_tokens (c : option Credential) (w : World) : World :=
  {| patient_intake_queue := patient_intake_queue w; api_tokens := c;
     patients := patients w; errors := errors w;
     bland_failed_calls := bland_failed_calls w;
     bland_incomplete_records := bland_incomplete_records w;
     webhook_errors := webhook_errors w;
     token_refresh_log := token_refresh_log w;
     appointments := appointments w;
     topic_create_patient := topic_create_patient w;
     topic_book_appointment := topic_book_appointment w;
     topic_patient_activity := topic_patient_activity w;
     topic_error_notifications := topic_error_notifications w;
     topic_process_patient_queue := topic_process_patient_queue w |}.

Definition set_patients (p : gmap string PatientDoc) (w : World) : World :=
  {| patient_intake_queue := patient_intake_queue w;
     api_tokens := api_tokens w; patients := p; errors := errors w;
     bland_failed_calls := bland_failed_calls w;
     bland_incomplete_records := bland_incomplete_records w;
     webhook_errors := webhook_errors w;
     token_refresh_log := token_refresh_log w;
     appointments := appointments w;
     topic_create_patient := topic_create_patient w;
     topic_book_appointment := topic_book_appointment w;
     topic_patient_activity := topic_patient_activity w;
     topic_error_notifications := topic_error_notifications w;
     topic_process_patient_queue := topic_process_patient_queue w |}.

(** [firestore.collection('errors').add(...)] *)
Definition add_error (e : ErrorDoc) (w : World) : World :=
  {| patient_intake_queue := patient_intake_queue w;
     api_tokens := api_tokens w; patients := patients w;
     errors := errors w ++ [e];
     bland_failed_calls := bland_failed_calls w;
     bland_incomplete_records := bland_incomplete_records w;
     webhook_errors := webhook_errors w;
     token_refresh_log := token_refresh_log w;
     appointments := appointments w;
     topic_create_patient := topic_create_patient w;
     topic_book_appointment := topic_book_appointment w;
     topic_patient_activity := topic_patient_activity w;
     topic_error_notifications := topic_error_notifications w;
     topic_process_patient_queue := topic_process_patient_queue w |}.

(** The remaining collections are append-only logs. *)
Definition add_failed_call (c : option string * option string * Z) (w : World) : World :=
  {| patient_intake_queue := patient_intake_queue w;
     api_tokens := api_tokens w; patients := patients w; errors := errors w;
     bland_failed_calls := bland_failed_calls w ++ [c];
     bland_incomplete_records := bland_incomplete_records w;
     webhook_errors := webhook_errors w;
     token_refresh_log := token_refresh_log w;
     appointments := appointments w;
     topic_create_patient := topic_create_patient w;
     topic_book_appointment := topic_book_appointment w;
     topic_patient_activity := topic_patient_activity w;
     topic_error_notifications := topic_error_notifications w;
     topic_process_patient_queue := topic_process_patient_queue w |}.

Definition add_incomplete (c : option string * list string * Z) (w : World) : World :=
  {| patient_intake_queue := patient_intake_queue w;
     api_tokens := api_tokens w; patients := patients w; errors := errors w;
     bland_failed_calls := bland_failed_calls w;
     bland_incomplete_records := bland_incomplete_records w ++ [c];
     webhook_errors := webhook_errors w;
     token_refresh_log := token_refresh_log w;
     appointments := appointments w;
     topic_create_patient := topic_create_patient w;
     topic_book_appointment := topic_book_appointment w;
     topic_patient_activity := topic_patient_activity w;
     topic_error_notifications := topic_error_notifications w;
     topic_process_patient_queue := topic_process_patient_queue w |}.

Definition add_webhook_error (c : string * Z) (w : World) : World :=
  {| patient_intake_queue := patient_intake_queue w;
     api_tokens := api_tokens w; patients := patients w; errors := errors w;
     bland_failed_calls := bland_failed_calls w;
     bland_incomplete_records := bland_incomplete_records w;
     webhook_errors := webhook_errors w ++ [c];
     token_refresh_log := token_refresh_log w;
     appointments := appointments w;
     topic_create_patient := topic_create_patient w;
     topic_book_appointment := topic_book_appointment w;
     topic_patient_activity := topic_patient_activity w;
     topic_error_notifications := topic_error_notifications w;
     topic_process_patient_queue := topic_process_patient_queue w |}.

Definition add_refresh_log (c : Z * Z * Z) (w : World) : World :=
  {| patient_intake_queue := patient_intake_queue w;
     api_tokens := api_tokens w; patients := patients w; errors := errors w;
     bland_failed_calls := bland_failed_calls w;
     bland_incomplete_records := bland_incomplete_records w;
     webhook_errors := webhook_errors w;
     token_refresh_log := token_refresh_log w ++ [c];
     appointments := appointments w;
     topic_create_patient := topic_create_patient w;
     topic_book_appointment := topic_book_appointment w;
     topic_patient_activity := topic_patient_activity w;
     topic_error_notifications := topic_error_notifications w;
     topic_process_patient_queue := topic_process_patient_queue w |}.

Definition add_appointment (c : string * string * Z) (w : World) : World :=
  {| patient_intake_queue := patient_intake_queue w;
     api_tokens := api_tokens w; patients := patients w; errors := errors w;
     bland_failed_calls := bland_failed_calls w;
     bland_incomplete_records := bland_incomplete_records w;
     webhook_errors := webhook_errors w;
     token_refresh_log := token_refresh_log w;
     appointments := appointments w ++ [c];
     topic_create_patient := topic_create_patient w;
     topic_book_appointment := topic_book_appointment w;
     topic_patient_activity := topic_patient_activity w;
     topic_error_notifications := topic_error_notifications w;
     topic_process_patient_queue := topic_process_patient_queue w |}.

(** [pubsub.topic(name).publish(...)], one function per topic. *)
Definition publish_create_patient (m : PD.t) (w : World) : World :=
  {| patient_intake_queue := patient_intake_queue w;
     api_tokens := api_tokens w; patients := patients w; errors := errors w;
     bland_failed_calls := bland_failed_calls w;
     bland_incomplete_records := bland_incomplete_records w;
     webhook_errors := webhook_errors w;
     token_refresh_log := token_refresh_log w;
     appointments := appointments w;
     topic_create_patient := topic_create_patient w ++ [m];
     topic_book_appointment := topic_book_appointment w;
     topic_patient_activity := topic_patient_activity w;
     topic_error_notifications := topic_error_notifications w;
     topic_process_patient_queue := topic_process_patient_queue w |}.

Definition publish_book_appointment (m : BookMsg) (w : World) : World :=
  {| patient_intake_queue := patient_intake_queue w;
     api_tokens := api_tokens w; patients := patients w; errors := errors w;
     bland_failed_calls := bland_failed_calls w;
     bland_incomplete_records := bland_incomplete_records w;
     webhook_errors := webhook_errors w;
     token_refresh_log := token_refresh_log w;
     appointments := appointments w;
     topic_create_patient := topic_create_patient w;
     topic_book_appointment := topic_book_appointment w ++ [m];
     topic_patient_activity := topic_patient_activity w;
     topic_error_notifications := topic_error_notifications w;
     topic_process_patient_queue := topic_process_patient_queue w |}.

Definition publish_patient_activity (m : ActivityMsg) (w : World) : World :=
  {| patient_intake_queue := patient_intake_queue w;
     api_tokens := api_tokens w; patients := patients w; errors := errors w;
     bland_failed_calls := bland_failed_calls w;
     bland_incomplete_records := bland_incomplete_records w;
     webhook_errors := webhook_errors w;
     token_refresh_log := token_refresh_log w;
     appointments := appointments w;
     topic_create_patient := topic_create_patient w;
     topic_book_appointment := topic_book_appointment w;
     topic_patient_activity := topic_patient_activity w ++ [m];
     topic_error_notifications := topic_error_notifications w;
     topic_process_patient_queue := topic_process_patient_queue w |}.

Definition publish_error_notifications (m : ErrorNote) (w : World) : World :=
  {| patient_intake_queue := patient_intake_queue w;
     api_tokens := api_tokens w; patients := patients w; errors := errors w;
     bland_failed_calls := bland_failed_calls w;
     bland_incomplete_records := bland_incomplete_records w;
     webhook_errors := webhook_errors w;
     token_refresh_log := token_refresh_log w;
     appointments := appointments w;
     topic_create_patient := topic_create_patient w;
     topic_book_appointment := topic_book_appointment w;
     topic_patient_activity := topic_patient_activity w;
     topic_error_notifications := topic_error_notifications w ++ [m];
     topic_process_patient_queue := topic_process_patient_queue w |}.

Definition publish_process_patient_queue (m : TriggerMsg) (w : World) : World :=
  {| patient_intake_queue := patient_intake_queue w;
     api_tokens := api_tokens w; patients := patients w; errors := errors w;
     bland_failed_calls := bland_failed_calls w;
     bland_incomplete_records := bland_incomplete_records w;
     webhook_errors := webhook_errors w;
     token_refresh_log := token_refresh_log w;
     appointments := appointments w;
     topic_create_patient := topic_create_patient w;
     topic_book_appointment := topic_book_appointment w;
     topic_patient_activity := topic_patient_activity w;
     topic_error_notifications := topic_error_notifications w;
     topic_process_patient_queue := topic_process_patient_queue w ++ [m] |}.

(** [collection('patient_intake_queue').doc(id).update(f)]: Firestore
    rejects an update of a document that does not exist, and [doc] rejects an
    id that is not a non-empty string. *)
Definition queue_update (docId : option string) (f : Intake.t -> Intake.t)
    (w : World) : option World :=
  match docId with
  | Some i =>
      if String.eqb i "" then None else
      match patient_intake_queue w !! i with
      | Some r => Some (set_queue (<[i := f r]> (patient_intake_queue w)) w)
      | None => None
      end
  | None => None
  end.

(** [markCompleted] and [markError]: the two terminal updates of
    [createAthenaPatient], lines 250-254 and 298-302. *)
Definition markCompleted (docId : option string) (athenaPatientId : string)
    (now : Z) (w : World) : option World :=
  queue_update docId (Intake.complete athenaPatientId now) w.

Definition markError (docId : option string) (message : string) (now : Z)
    (w : World) : option World :=
  queue_update docId (Intake.fail message now) w.

(** What a handler run yields: a returned value or a thrown error. *)
Inductive outcome (A : Type) :=
| Returned (a : A)
| Threw (message : string).
Arguments Returned {A} a.
Arguments Threw {A} message.

(** ** The remaining normalisers of the patient creator *)

Module JSMore.

Definition upper_char (c : ascii) : ascii :=
  let n := N_of_ascii c in
  if ((97 <=? n) && (n <=? 122))%N then ascii_of_N (n - 32) else c.

(** [s.toUpperCase()], read on ASCII strings. *)
Fixpoint toUpperCase (s : string) : string :=
  match s with
  | String c r => String (upper_char c) (toUpperCase r)
  | EmptyString => EmptyString
  end.

(** [s.replace(/c/g, '')] for one character [c]. *)
Fixpoint remove_char (c : ascii) (s : string) : string :=
  match s with
  | String a r =>
      if Ascii.eqb a c then remove_char c r else String a (remove_char c r)
  | EmptyString => EmptyString
  end.

(** The double-quote character. *)
Definition dquote : ascii := ascii_of_N 34.

(** [/^\d+$/.test(s)] *)
Fixpoint all_digits (s : string) : bool :=
  match s with
  | String c r => JS.is_digit c && all_digits r
  | EmptyString => true
  end.

Definition is_number_string (s : string) : bool :=
  negb (String.eqb s "") && all_digits s.

(** The non-empty pieces of [s.split(/[\s-]+/)]. *)
Fixpoint tokens_acc (cur : string) (s : string) : list string :=
  match s with
  | EmptyString => if String.eqb cur "" then [] else [String.rev cur]
  | String c r =>
      if JS.is_space c || Ascii.eqb c "-"
      then (if String.eqb cur "" then tokens_acc "" r
            else String.rev cur :: tokens_acc "" r)
      else tokens_acc (String c cur) r
  end.

Definition tokens (s : string) : list string := tokens_acc "" s.

(** [s.replace(pat, '')] for a string pattern: the first occurrence goes. *)
Definition remove_first (pat s : string) : string :=
  match String.index 0 pat s with
  | Some i =>
      String.substring 0 i s
      +:+ JS.substring_from (i + String.length pat) s
  | None => s
  end.

(** The leading maximal run of characters satisfying [p], and the rest. *)
Fixpoint span (p : ascii -> bool) (s : string) : string * string :=
  match s with
  | String c r =>
      if p c then let '(a, b) := span p r in (String c a, b)
      else (EmptyString, s)
  | EmptyString => (EmptyString, EmptyString)
  end.

(** [\w] on one code unit. *)
Definition is_word (c : ascii) : bool :=
  let n := N_of_ascii c in
  (JS.is_digit c || ((65 <=? n) && (n <=? 90)) || ((97 <=? n) && (n <=? 122))
   || (n =? 95))%N.

(** A line terminator, which [.] does not match. *)
Definition is_line_terminator (c : ascii) : bool :=
  let n := N_of_ascii c in ((n =? 10) || (n =? 13))%N.

Fixpoint has_line_terminator (s : string) : bool :=
  match s with
  | String c r => is_line_terminator c || has_line_terminator r
  | EmptyString => false
  end.

End JSMore.

(** [VERBAL_NUMBERS], read on its own keys. *)
Definition VERBAL_NUMBERS : list (string * string) :=
  [("zero", "0"); ("one", "1"); ("two", "2"); ("three", "3"); ("four", "4");
   ("five", "5"); ("six", "6"); ("seven", "7"); ("eight", "8"); ("nine", "9");
   ("ten", "10"); ("eleven", "11"); ("twelve", "12"); ("thirteen", "13");
   ("fourteen", "14"); ("fifteen", "15"); ("sixteen", "16");
   ("seventeen", "17"); ("eighteen", "18"); ("nineteen", "19");
   ("twenty", "20"); ("thirty", "30"); ("forty", "40"); ("fifty", "50");
   ("sixty", "60"); ("seventy", "70"); ("eighty", "80"); ("ninety", "90");
   ("hundred", "100"); ("thousand", "1000")].

(** [STATE_ABBREVIATIONS], read on its own keys. *)
Definition STATE_ABBREVIATIONS : list (string * string) :=
  [("alabama", "AL"); ("alaska", "AK"); ("arizona", "AZ"); ("arkansas", "AR");
   ("california", "CA"); ("colorado", "CO"); ("connecticut", "CT");
   ("delaware", "DE"); ("florida", "FL"); ("georgia", "GA"); ("hawaii", "HI");
   ("idaho", "ID"); ("illinois", "IL"); ("indiana", "IN"); ("iowa", "IA");
   ("kansas", "KS"); ("kentucky", "KY"); ("louisiana", "LA"); ("maine", "ME");
   ("maryland", "MD"); ("massachusetts", "MA"); ("michigan", "MI");
   ("minnesota", "MN"); ("mississippi", "MS"); ("missouri", "MO");
   ("montana", "MT"); ("nebraska", "NE"); ("nevada", "NV");
   ("new hampshire", "NH"); ("new jersey", "NJ"); ("new mexico", "NM");
   ("new york", "NY"); ("north carolina", "NC"); ("north dakota", "ND");
   ("ohio", "OH"); ("oklahoma", "OK"); ("oregon", "OR");
   ("pennsylvania", "PA"); ("rhode island", "RI"); ("south carolina", "SC");
   ("south dakota", "SD"); ("tennessee", "TN"); ("texas", "TX");
   ("utah", "UT"); ("vermont", "VT"); ("virginia", "VA");
   ("washington", "WA"); ("west virginia", "WV"); ("wisconsin", "WI");
   ("wyoming", "WY")].

Fixpoint table_lookup (tbl : list (string * string)) (k : string)
    : option string :=
  match tbl with
  | (k', v) :: rest => if String.eqb k k' then Some v else table_lookup rest k
  | [] => None
  end.

(** The loop of [convertVerbalToNumeric] over the parts of a compound
    number; it yields [total] and [current]. *)
Fixpoint verbal_loop (parts : list string) (total current : Z) : Z * Z :=
  match parts with
  | [] => (total, current)
  | part :: rest =>
      match table_lookup VERBAL_NUMBERS part with
      | Some v =>
          if String.eqb part "hundred" then
            verbal_loop rest total
              ((if (current =? 0)%Z then 1 else current) * 100)%Z
          else if String.eqb part "thousand" then
            verbal_loop rest
              (total + (if (current =? 0)%Z then 1 else current) * 1000)%Z 0%Z
          else verbal_loop rest total (current + JS.to_number v)%Z
      | None => verbal_loop rest total current
      end
  end.

(** [cleaned.match(/^(\d+)(st|nd|rd|th)$/)], its first group. *)
Definition ordinal_number (cleaned : string) : option string :=
  let '(ds, suffix) := JSMore.span JS.is_digit cleaned in
  if negb (String.eqb ds "")
     && (String.eqb suffix "st" || String.eqb suffix "nd"
         || String.eqb suffix "rd" || String.eqb suffix "th")
  then Some ds else None.

(** src/functions/patient-creator/index.js, [convertVerbalToNumeric] *)
Definition convertVerbalToNumeric (verbalText : option string) : string :=
  if negb (JS.truthy verbalText) then "" else
  let cleaned := JS.toLowerCase (JS.trim (JS.or_empty verbalText)) in
  if JSMore.is_number_string cleaned then cleaned else
  match table_lookup VERBAL_NUMBERS cleaned with
  | Some v => v
  | None =>
      let compound :=
        if JS.includes cleaned "-" || JS.includes cleaned " " then
          let '(total, current) := verbal_loop (JSMore.tokens cleaned) 0 0 in
          let total := (total + current)%Z in
          if (0 <? total)%Z then Some (pretty total) else None
        else None in
      match compound with
      | Some s => s
      | None =>
          match ordinal_number cleaned with
          | Some ds => ds
          | None => JS.or_empty verbalText
          end
      end
  end.

(** src/functions/patient-creator/index.js, [buildStreetAddress] *)
Definition buildStreetAddress (houseNumber street : option string) : string :=
  let numericHouseNumber := convertVerbalToNumeric houseNumber in
  let cleanedStreet :=
    if JS.truthy street
    then JSMore.remove_char JSMore.dquote (JS.trim (JS.or_empty street))
    else "" in
  if negb (String.eqb numericHouseNumber "")
     && negb (String.eqb cleanedStreet "")
  then numericHouseNumber +:+ " " +:+ cleanedStreet
  else if negb (String.eqb cleanedStreet "") then cleanedStreet
  else if negb (String.eqb numericHouseNumber "") then numericHouseNumber
  else "".

(** src/functions/patient-creator/index.js, [normalizeSex] *)
Definition normalizeSex (value : option string) : string :=
  let cleaned :=
    JSMore.toUpperCase
      (JS.trim (JSMore.remove_char JSMore.dquote (JS.or_empty value))) in
  if String.eqb cleaned "MAN" || String.eqb cleaned "M"
     || String.eqb cleaned "MALE" then "M"
  else if String.eqb cleaned "WOMAN" || String.eqb cleaned "F"
          || String.eqb cleaned "FEMALE" then "F"
  else "".

(** src/functions/patient-creator/index.js, [getStateAbbreviation] *)
Definition getStateAbbreviation (stateName : option string) : string :=
  if negb (JS.truthy stateName) then "" else
  let s := JS.or_empty stateName in
  if (String.length s =? 2)%nat then JSMore.toUpperCase s
  else match table_lookup STATE_ABBREVIATIONS (JS.toLowerCase s) with
       | Some a => a
       | None => s
       end.

(** The result of [parseAddress]; [{}] has every field absent. *)
Record Address := {
  addrHouseNumber : option string;
  addrStreet : option string;
  addrCity : option string;
  addrState : option string;
  addrZip : option string
}.

(** [parts[0].match(/^(\d+|\w+)\s+(.+)$/)]: a leading run of word
    characters, white space, and a rest without line terminator. *)
Definition street_match (part : string) : option (string * string) :=
  let '(w, r) := JSMore.span JSMore.is_word part in
  let '(sp, rest) := JSMore.span JS.is_space r in
  if negb (String.eqb w "") && negb (String.eqb sp "")
     && negb (String.eqb rest "") && negb (JSMore.has_line_terminator rest)
  then Some (w, rest) else None.

(** src/functions/bland-webhook/index.js, [parseAddress] *)
Definition parseAddress (addressString : option string) : Address :=
  if negb (JS.truthy addressString) then
    {| addrHouseNumber := None; addrStreet := None; addrCity := None;
       addrState := None; addrZip := None |}
  else
    let addr := JS.trim (JS.or_empty addressString) in
    let parts := map JS.trim (JS.split "," addr) in
    let '(hn, st) :=
      match parts with
      | p0 :: _ =>
          match street_match p0 with
          | Some (h, s) => (h, s)
          | None => ("", p0)
          end
      | [] => ("", "")
      end in
    let cty := match parts with _ :: p1 :: _ => p1 | _ => "" end in
    let '(ste, zp) :=
      match parts with
      | _ :: _ :: stateZip :: _ =>
          match JS.match_digits_5 stateZip with
          | Some z => (JS.trim (JSMore.remove_first z stateZip), z)
          | None => (stateZip, "")
          end
      | _ => ("", "")
      end in
    {| addrHouseNumber := Some hn; addrStreet := Some st;
       addrCity := Some cty; addrState := Some ste; addrZip := Some zp |}.

(** ** The intake processor (src/unnamed/part_004) *)

(** Error messages of the Firestore client. *)
Definition NOT_FOUND : string := "NOT_FOUND: No document to update".
Definition INVALID_PATH : string :=
  "Value for argument documentPath is not a valid resource path".
Definition UNDEFINED_VALUE : string :=
  "Cannot use undefined as a Firestore value".

(** [doc.ref.update(f)] on a reference taken from a snapshot. *)
Definition ref_update (i : string) (f : Intake.t -> Intake.t) (w : World)
    : option World :=
  match patient_intake_queue w !! i with
  | Some r => Some (set_queue (<[i := f r]> (patient_intake_queue w)) w)
  | None => None
  end.

(** [collection('patient_intake_queue').where('status', '==', 'pending')
    .limit(10).get()]: the snapshot, as pairs of document id and data. *)
Definition query_pending (w : World) : list (string * Intake.t) :=
  take 10 (filter (fun kv => Intake.status kv.2 = "pending")
             (map_to_list (patient_intake_queue w))).

(** [{id: doc.id, ...patientData}] *)
Definition claim_message (docId : string) (r : Intake.t) : PD.t :=
  match PD.id (Intake.data r) with
  | Some i => Intake.data r
  | None => PD.with_id (Some docId) (Intake.data r)
  end.

(** The [for] loop of [processIntakeQueue] over the documents of the
    snapshot: mark as processing, then publish to [create-patient]. *)
Fixpoint claim_docs (docs : list (string * Intake.t)) (now : Z)
    (processedCount : Z) (w : World) : outcome Z * World :=
  match docs with
  | [] => (Returned processedCount, w)
  | (i, r) :: rest =>
      match ref_update i (Intake.claim now) w with
      | None => (Threw NOT_FOUND, w)
      | Some w1 =>
          claim_docs rest now (processedCount + 1)%Z
            (publish_create_patient (claim_message i r) w1)
      end
  end.

(** The returned object: [{processed: 0}] or [{success: true, processed}]. *)
Record QueueResult := { queueSuccess : option bool; processed : Z }.

(** The handler on a given snapshot. *)
Definition processSnapshot (snapshot : list (string * Intake.t)) (now : Z)
    (w : World) : outcome QueueResult * World :=
  match snapshot with
  | [] => (Returned {| queueSuccess := None; processed := 0 |}, w)
  | _ =>
      match claim_docs snapshot now 0 w with
      | (Returned n, w') =>
          (Returned {| queueSuccess := Some true; processed := n |}, w')
      | (Threw message, w') =>
          (Threw message,
           add_error {| errType := "intake_processing";
                        errMessage := message; errTimestamp := now |} w')
      end
  end.

(** [processIntakeQueue]: the snapshot is taken from the world the handler
    starts in. *)
Definition processIntakeQueue (now : Z) (w : World)
    : outcome QueueResult * World :=
  processSnapshot (query_pending w) now w.

(** ** The patient creator (src/functions/patient-creator/index.js) *)

(** The secrets of the Secret Manager the handlers read. *)
Record Secrets := {
  practiceId : string;
  departmentId : string;
  baseUrl : string
}.

(** [if (v) payload.append(k, v)] *)
Definition append_if (k v : string) (payload : list (string * string))
    : list (string * string) :=
  if String.eqb v "" then payload else payload ++ [(k, v)].

Record CreateResult := { createSuccess : bool; createdPatientId : string }.

Section PatientCreator.
(** The AthenaHealth endpoint [POST /v1/{practiceid}/patients]: the patient
    id of the response, or the message of the error [axios] throws. *)
Context (secrets : Secrets).
Context (athena_post : string -> list (string * string) -> outcome string).

(** The [try] block of [createAthenaPatient]. *)
Definition create_try (patientData : PD.t) (now : Z) (w : World)
    : outcome CreateResult * World :=
  match api_tokens w with
  | None => (Threw "No valid token found. Run token refresh first.", w)
  | Some tokenData =>
      let streetAddress :=
        buildStreetAddress (PD.houseNumber patientData)
          (PD.street patientData) in
      let cleanedPhone := cleanPhone (PD.phone patientData) in
      let formattedDob := formatDateForAthena (PD.dateOfBirth patientData) in
      let normalizedSex := normalizeSex (PD.sex patientData) in
      let stateAbbr := getStateAbbreviation (PD.state patientData) in
      if negb (JS.truthy (PD.firstName patientData))
         || negb (JS.truthy (PD.lastName patientData))
         || String.eqb formattedDob ""
      then (Threw "Missing required fields: firstname, lastname, or DOB", w)
      else if negb (JS.truthy (PD.email patientData))
              && String.eqb cleanedPhone ""
              && negb (JS.truthy (PD.zip patientData))
      then (Threw
              "At least one contact method (email, phone, or ZIP) is required",
            w)
      else
        let payload :=
          [("firstname", JS.or_empty (PD.firstName patientData));
           ("lastname", JS.or_empty (PD.lastName patientData));
           ("dob", formattedDob);
           ("departmentid", departmentId secrets)] in
        let payload := append_if "email" (JS.or_empty (PD.email patientData)) payload in
        let payload := append_if "mobilephone" cleanedPhone payload in
        let payload := append_if "sex" normalizedSex payload in
        let payload := append_if "address1" streetAddress payload in
        let payload := append_if "city" (JS.or_empty (PD.city patientData)) payload in
        let payload := append_if "state" stateAbbr payload in
        let payload := append_if "zip" (JS.or_empty (PD.zip patientData)) payload in
        match athena_post
                (baseUrl secrets +:+ "/v1/" +:+ practiceId secrets +:+ "/patients")
                payload with
        | Threw message => (Threw message, w)
        | Returned athenaPatientId =>
            if negb (JS.truthy (PD.id patientData))
            then (Threw INVALID_PATH, w) else
            let recordId := JS.or_empty (PD.id patientData) in
            let w1 :=
              set_patients
                (<[recordId :=
                     {| patientFields := patientData;
                        patientAthenaId := athenaPatientId;
                        athenaCreatedAt := now;
                        patientStatus := "created";
                        streetAddress := streetAddress |}]> (patients w)) w in
            match markCompleted (PD.id patientData) athenaPatientId now w1 with
            | None => (Threw NOT_FOUND, w1)
            | Some w2 =>
                let w3 :=
                  if JS.truthy (PD.appointmentId patientData) then
                    publish_book_appointment
                      {| bookPatientId := athenaPatientId;
                         bookAppointmentId :=
                           JS.or_empty (PD.appointmentId patientData);
                         bookAppointmentTypeId :=
                           JS.or_empty
                             (JS.or_else (PD.appointmentTypeId patientData)
                                (Some "15"));
                         originalRecordId := PD.id patientData |} w2
                  else w2 in
                let w4 :=
                  publish_patient_activity
                    {| actPatientId := athenaPatientId;
                       actLastName := PD.lastName patientData;
                       activityType := "PATIENT_CREATED";
                       actStatus := "success"; actSource := None |} w3 in
                (Returned {| createSuccess := true;
                             createdPatientId := athenaPatientId |}, w4)
            end
        end
  end.

(** [createAthenaPatient]: the [try] block and, when it throws, the [catch]
    block, which logs the error, marks the intake document and rethrows;
    an error of the [catch] block's own update takes the place of the
    first. *)
Definition createAthenaPatient (patientData : PD.t) (now : Z) (w : World)
    : outcome CreateResult * World :=
  match create_try patientData now w with
  | (Returned r, w') => (Returned r, w')
  | (Threw message, w') =>
      let w1 :=
        add_error {| errType := "patient_creation"; errMessage := message;
                     errTimestamp := now |} w' in
      match PD.id patientData with
      | None => (Threw INVALID_PATH, w1)
      | Some i =>
          if String.eqb i "" then (Threw INVALID_PATH, w1) else
          match markError (PD.id patientData) message now w1 with
          | Some w2 => (Threw message, w2)
          | None => (Threw NOT_FOUND, w1)
          end
      end
  end.

End PatientCreator.

(** The message of the validation error of line 193. *)
Definition missing_fields_message : string :=
  "Missing required fields: firstname, lastname, or DOB".

(** ** The appointment booker (src/functions/appointment-booker/index.js,
    [bookAppointment]) *)

Section AppointmentBooker.
(** The AthenaHealth endpoint [PUT /v1/{practiceid}/appointments/{id}]. *)
Context (secrets : Secrets).
Context (athena_put : string -> list (string * string) -> outcome string).

Definition book_try (data : BookMsg) (now : Z) (w : World)
    : outcome bool * World :=
  match api_tokens w with
  | None => (Threw "No valid token found", w)
  | Some tokenData =>
      let payload :=
        [("patientid", bookPatientId data);
         ("appointmenttypeid",
          if String.eqb (bookAppointmentTypeId data) "" then "15"
          else bookAppointmentTypeId data);
         ("ignoreschedulablepermission", "true");
         ("donotsendconfirmationemail", "false")] in
      match athena_put
              (baseUrl secrets +:+ "/v1/" +:+ practiceId secrets
               +:+ "/appointments/" +:+ bookAppointmentId data)
              payload with
      | Threw message => (Threw message, w)
      | Returned confirmation =>
          let updated :=
            if JS.truthy (originalRecordId data) then
              queue_update (originalRecordId data)
                (Intake.booked now confirmation) w
            else Some w in
          match updated with
          | None => (Threw NOT_FOUND, w)
          | Some w1 =>
              (Returned true,
               add_appointment
                 (bookPatientId data, bookAppointmentId data, now) w1)
          end
      end
  end.

Definition bookAppointment (data : BookMsg) (now : Z) (w : World)
    : outcome bool * World :=
  match book_try data now w with
  | (Returned r, w') => (Returned r, w')
  | (Threw message, w') =>
      (Threw message,
       add_error {| errType := "appointment_booking"; errMessage := message;
                    errTimestamp := now |} w')
  end.

End AppointmentBooker.

(** ** The reconciler (src/scripts/test-flow.js, [reprocessFailedIntakes]) *)

(** [where('status', 'in', ['error', 'processing']).get()] *)
Definition query_failed (w : World) : list (string * Intake.t) :=
  filter (fun kv => Intake.status kv.2 = "error"
                    \/ Intake.status kv.2 = "processing")
    (map_to_list (patient_intake_queue w)).

(** The [for] loop of [reprocessFailedIntakes]; [toDate()] on an absent
    [processingStarted] throws. *)
Fixpoint requeue_docs (docs : list (string * Intake.t))
    (fifteenMinutesAgo : Z) (w : World) : outcome unit * World :=
  match docs with
  | [] => (Returned tt, w)
  | (i, data) :: rest =>
      if String.eqb (Intake.status data) "error" then
        match ref_update i Intake.requeue w with
        | Some w1 => requeue_docs rest fifteenMinutesAgo w1
        | None => (Threw NOT_FOUND, w)
        end
      else if String.eqb (Intake.status data) "processing" then
        match Intake.processingStarted data with
        | None =>
            (Threw "Cannot read properties of null (reading 'toDate')", w)
        | Some started =>
            if (started <? fifteenMinutesAgo)%Z then
              match ref_update i Intake.requeue w with
              | Some w1 => requeue_docs rest fifteenMinutesAgo w1
              | None => (Threw NOT_FOUND, w)
              end
            else requeue_docs rest fifteenMinutesAgo w
        end
      else requeue_docs rest fifteenMinutesAgo w
  end.

Definition reprocessFailedIntakes (now : Z) (w : World)
    : outcome unit * World :=
  let fifteenMinutesAgo := (now - 15 * 60 * 1000)%Z in
  requeue_docs (query_failed w) fifteenMinutesAgo w.

(** ** The token manager (src/unnamed/part_003) *)

(** The body of the credential provider's response. *)
Record TokenResponse := {
  access_token : JS.value string;
  expires_in : option Z;
  resp_scope : option string
}.

Record RefreshResult := {
  refreshSuccess : bool;
  refreshExpiresAt : Z;
  refreshMessage : string
}.

(** The [try] block of [refreshAthenaToken]; [fetched] is what [axios.get]
    yields.  Firestore refuses the new document when the response carries no
    [access_token], and stores a [null] one. *)
Definition refresh_try (fetched : outcome TokenResponse) (now : Z)
    (w : World) : outcome RefreshResult * World :=
  match fetched with
  | Threw message => (Threw message, w)
  | Returned tokenResponse =>
      let expiresIn :=
        match expires_in tokenResponse with
        | Some n => if (n =? 0)%Z then 3600%Z else n
        | None => 3600%Z
        end in
      let safetyBuffer := 600%Z in
      let expiresAt := (now + (expiresIn - safetyBuffer) * 1000)%Z in
      let count :=
        match api_tokens w with
        | Some previousData => (refreshCount previousData + 1)%Z
        | None => 0%Z
        end in
      if negb (JS.defined (access_token tokenResponse))
      then (Threw UNDEFINED_VALUE, w) else
      let tokenData :=
        {| token := JS.nullable (access_token tokenResponse);
           type := "Bearer";
           service := "Athenahealth"; tokenCreatedAt := now;
           expiresAt := expiresAt; expiresIn := expiresIn;
           scope := JS.or_empty (resp_scope tokenResponse);
           environment := "production"; lastRefreshed := now;
           refreshCount := count |} in
      let w1 := set_api_tokens (Some tokenData) w in
      let w2 := add_refresh_log (now, expiresAt, count) w1 in
      (Returned {| refreshSuccess := true; refreshExpiresAt := expiresAt;
                   refreshMessage := "Token refreshed successfully" |},
       w2)
  end.

(** [refreshAthenaToken]: the [try] block and, when it throws, the [catch]
    block, which logs the error, publishes to [error-notifications] and
    rethrows. *)
Definition refreshAthenaToken (fetched : outcome TokenResponse) (now : Z)
    (w : World) : outcome RefreshResult * World :=
  match refresh_try fetched now w with
  | (Returned r, w') => (Returned r, w')
  | (Threw message, w') =>
      let w1 :=
        add_error {| errType := "token_refresh"; errMessage := message;
                     errTimestamp := now |} w' in
      let w2 :=
        publish_error_notifications
          {| noteFunction := "oauth-manager"; noteError := message;
             noteTimestamp := now |} w1 in
      (Threw message, w2)
  end.

(** ** The webhook receivers *)

(** The JSON body Bland.AI posts; [variables] is an object whose values are
    strings or [null].  [phone_number] is only ever read for its
    truthiness. *)
Record Body := {
  call_id : JS.value string;
  pathway_id : JS.value string;
  status : JS.value string;
  phone_number : option string;
  variables : JS.value (gmap string (option string))
}.

(** [const {variables = {}} = req.body]: the default stands in for
    [undefined] only; [None] is [null]. *)
Definition destructured_variables (body : Body)
    : option (gmap string (option string)) :=
  match variables body with
  | JS.Undefined => Some ∅
  | JS.Null => None
  | JS.Val obj => Some obj
  end.

(** The [TypeError] of a property read on [null] or [undefined]. *)
Definition cannot_read (object property : string) : string :=
  "Cannot read properties of " +:+ object +:+ " (reading '" +:+ property
  +:+ "')".

Inductive ResponseBody :=
| Accepted (message patientQueueId : string) (appointmentFound : option bool)
| NotProcessed (reason : string)
| Incomplete (errors : list string)
| Failure (error : string) (message : option string).

(** [res.status(code).json(...)] *)
Record Response := { code : Z; json : ResponseBody }.

(** [a || b || c], a string at the end of the chain. *)
Definition first_truthy (l : list (option string)) (dflt : string) : string :=
  JS.or_empty (foldr JS.or_else (Some dflt) l).

(** Firestore refuses a document with an [undefined] field; it stores
    [null]. *)
Definition all_defined (fields : list (JS.value string)) : bool :=
  forallb JS.defined fields.

(** *** src/functions/bland-webhook/index.js *)
Module BlandWebhook.

(** The object [patientData] the handler builds (lines 129-150). *)
Definition build_patientData (rt : JSDate.Runtime) (body : Body)
    (variables : gmap string (option string)) : PD.t :=
  let v (k : string) : option string := JS.nullable (JS.read variables k) in
  {| PD.id := None;
     PD.firstName := Some (first_truthy [v "first_name"; v "firstName"] "");
     PD.lastName := Some (first_truthy [v "last_name"; v "lastName"] "");
     PD.dateOfBirth :=
       parseDate rt
         (JS.or_else (JS.or_else (v "date_of_birth") (v "dob")) (v "birthdate"));
     PD.phone :=
       Some (parsePhoneNumber (JS.or_else (v "phone") (phone_number body)));
     PD.email := Some (first_truthy [v "email"] "");
     PD.sex := Some (first_truthy [v "gender"; v "sex"] "");
     PD.houseNumber :=
       Some (first_truthy
               [v "house_number"; addrHouseNumber (parseAddress (v "address"))]
               "");
     PD.street :=
       Some (first_truthy
               [v "street"; addrStreet (parseAddress (v "address"))] "");
     PD.city :=
       Some (first_truthy
               [v "city"; addrCity (parseAddress (v "address"))] "Las Vegas");
     PD.state :=
       Some (first_truthy
               [v "state"; addrState (parseAddress (v "address"))] "Nevada");
     PD.zip :=
       Some (first_truthy [v "zip"; addrZip (parseAddress (v "address"))] "");
     PD.appointmentId := None;
     PD.appointmentTypeId := None;
     PD.preferredDate := Some (first_truthy [v "preferred_date"] "");
     PD.preferredTime := Some (first_truthy [v "preferred_time"] "");
     PD.reasonForVisit := Some (first_truthy [v "reason_for_visit"] "");
     PD.source := Some "bland_ai";
     PD.callId := JS.nullable (call_id body);
     PD.pathwayId := JS.nullable (pathway_id body);
     PD.timestamp := None |}.

(** The list [errors] (lines 152-158). *)
Definition validation_errors (patientData : PD.t) : list string :=
  (if JS.truthy (PD.firstName patientData) then [] else ["Missing first name"])
  ++ (if JS.truthy (PD.lastName patientData) then [] else ["Missing last name"])
  ++ (if JS.truthy (PD.dateOfBirth patientData) then []
      else ["Missing date of birth"])
  ++ (if negb (JS.truthy (PD.email patientData))
         && negb (JS.truthy (PD.phone patientData))
         && negb (JS.truthy (PD.zip patientData))
      then ["Missing contact information"] else []).

(** [status !== 'completed' && status !== 'success'], negated. *)
Definition completed (body : Body) : bool :=
  match status body with
  | JS.Val s => String.eqb s "completed" || String.eqb s "success"
  | _ => false
  end.

(** The [try] block of [app.post('/webhook/bland', ...)]: [now] and [hour]
    are what the clock reads, [newId] the id Firestore gives the added
    document.  The documents it writes carry [call_id], and those built
    from [patientData] carry [pathway_id] too. *)
Definition webhook_try (rt : JSDate.Runtime) (body : Body) (now hour : Z)
    (newId : string) (w : World) : outcome Response * World :=
  if negb (completed body) then
    if negb (all_defined [call_id body; status body])
    then (Threw UNDEFINED_VALUE, w)
    else
      (Returned {| code := 200; json := NotProcessed "Call not completed" |},
       add_failed_call
         (JS.nullable (call_id body), JS.nullable (status body), now) w)
  else
    match destructured_variables body with
    | None => (Threw (cannot_read "null" "first_name"), w)
    | Some variables =>
        let patientData := build_patientData rt body variables in
        let errors := validation_errors patientData in
        match errors with
        | _ :: _ =>
            if negb (all_defined [call_id body; pathway_id body])
            then (Threw UNDEFINED_VALUE, w)
            else
              (Returned {| code := 200; json := Incomplete errors |},
               add_incomplete (JS.nullable (call_id body), errors, now) w)
        | [] =>
            if negb (all_defined [call_id body; pathway_id body])
            then (Threw UNDEFINED_VALUE, w)
            else
              let w1 :=
                set_queue (<[newId := Intake.fresh patientData now None]>
                             (patient_intake_queue w)) w in
              let w2 :=
                publish_patient_activity
                  {| actPatientId := newId;
                     actLastName := PD.lastName patientData;
                     activityType := "INTAKE_RECEIVED";
                     actStatus := "pending";
                     actSource := Some "bland_ai" |} w1 in
              let w3 :=
                if ((8 <=? hour) && (hour <=? 18))%Z then
                  publish_process_patient_queue
                    {| trigger := "bland_webhook"; urgent := true;
                       recordId := None |} w2
                else w2 in
              (Returned {| code := 200;
                           json := Accepted "Patient intake received" newId
                                     None |}, w3)
        end
    end.

(** [app.post('/webhook/bland', ...)]: the [try] block and, when it throws,
    the [catch] block, which records the error in [webhook_errors] and
    answers 500. *)
Definition blandWebhook (rt : JSDate.Runtime) (body : Body) (now hour : Z)
    (newId : string) (w : World) : Response * World :=
  match webhook_try rt body now hour newId w with
  | (Returned response, w') => (response, w')
  | (Threw message, w') =>
      ({| code := 500; json := Failure "Processing error" None |},
       add_webhook_error (message, now) w')
  end.

End BlandWebhook.

(** *** src/unnamed/part_002, the handler that publishes to
    [create-patient] itself *)
Module BlandWebhookHandler.

Record Request := {
  body : Body;
  x_bland_signature : option string
}.

Definition build_patientData (body : Body)
    (variables : gmap string (option string)) (queueId : string) (now : Z)
    : PD.t :=
  let v (k : string) : option string := JS.nullable (JS.read variables k) in
  {| PD.id := Some queueId;
     PD.firstName := v "first_name";
     PD.lastName := v "last_name";
     PD.dateOfBirth := v "date_of_birth";
     PD.phone := v "phone";
     PD.email := v "email";
     PD.sex := v "sex";
     PD.houseNumber := v "house_number";
     PD.street := v "street";
     PD.city := v "city";
     PD.state := v "state";
     PD.zip := v "zip";
     PD.appointmentId := v "selected_appointment_id";
     PD.appointmentTypeId :=
       Some (first_truthy [v "selected_appointment_type_id"] "15");
     PD.preferredDate := None;
     PD.preferredTime := None;
     PD.reasonForVisit := None;
     PD.source := Some "bland_webhook";
     PD.callId := JS.nullable (call_id body);
     PD.pathwayId := JS.nullable (pathway_id body);
     PD.timestamp := Some (JSDate.toISOString now) |}.

(** The fields of [patientData] that are read from the request as they
    are. *)
Definition fields_read (body : Body)
    (variables : gmap string (option string)) : list (JS.value string) :=
  [call_id body; pathway_id body;
   JS.read variables "first_name"; JS.read variables "last_name";
   JS.read variables "date_of_birth"; JS.read variables "phone";
   JS.read variables "email"; JS.read variables "sex";
   JS.read variables "house_number"; JS.read variables "street";
   JS.read variables "city"; JS.read variables "state";
   JS.read variables "zip"; JS.read variables "selected_appointment_id"].

(** The [catch] block. *)
Definition failed (message : string) (now : Z) (w : World)
    : Response * World :=
  ({| code := 500;
      json := Failure "Failed to process request" (Some message) |},
   add_error {| errType := "bland_webhook"; errMessage := message;
                errTimestamp := now |} w).

(** [functions.http('blandWebhook', ...)]; [expectedSignature] is the
    HMAC-SHA256 of the body under [webhookSecret]. *)
Definition blandWebhook (webhookSecret : option string)
    (expectedSignature : string) (req : Request) (now : Z) (w : World)
    : Response * World :=
  if JS.truthy (x_bland_signature req) && JS.truthy webhookSecret
     && negb (String.eqb (JS.or_empty (x_bland_signature req))
                expectedSignature)
  then ({| code := 401; json := Failure "Invalid signature" None |}, w)
  else
    match variables (body req) with
    | JS.Undefined => failed (cannot_read "undefined" "first_name") now w
    | JS.Null => failed (cannot_read "null" "first_name") now w
    | JS.Val vars =>
        let queueId :=
          JS.template (call_id (body req)) +:+ "_" +:+ pretty now in
        let patientData := build_patientData (body req) vars queueId now in
        if negb (all_defined (fields_read (body req) vars))
        then failed UNDEFINED_VALUE now w
        else
          let w1 :=
            set_queue (<[queueId := Intake.fresh patientData now (Some 0%Z)]>
                         (patient_intake_queue w)) w in
          let w2 := publish_create_patient patientData w1 in
          ({| code := 200;
              json := Accepted "Patient creation queued successfully"
                        queueId None |}, w2)
    end.

End BlandWebhookHandler.

(** *** src/unnamed/part_000 and part_001, the receivers of cleaned data *)

(** Reading an identifier: a name without binding in scope throws a
    [ReferenceError]; a bound name yields its truthiness. *)
Fixpoint lookup_identifier (scope : list (string * bool)) (name : string)
    : outcome bool :=
  match scope with
  | (n, b) :: rest =>
      if String.eqb name n then Returned b else lookup_identifier rest name
  | [] => Threw (name +:+ " is not defined")
  end.

Module CleanedWebhook.

Definition build_patientData (body : Body)
    (variables : gmap string (option string)) : PD.t :=
  let v (k : string) : option string := JS.nullable (JS.read variables k) in
  {| PD.id := None;
     PD.firstName := v "first_name";
     PD.lastName := v "last_name";
     PD.dateOfBirth := v "date_of_birth";
     PD.phone := v "phone";
     PD.email := Some (first_truthy [v "email"] "");
     PD.sex := v "sex";
     PD.houseNumber := v "house_number";
     PD.street := v "street";
     PD.city := Some (first_truthy [v "city"] "Las Vegas");
     PD.state := Some (first_truthy [v "state"] "Nevada");
     PD.zip := v "zip";
     PD.appointmentId := v "selected_appointment_id";
     PD.appointmentTypeId := v "selected_appointment_type_id";
     PD.preferredDate := None;
     PD.preferredTime := None;
     PD.reasonForVisit := None;
     PD.source := Some "bland_ai";
     PD.callId := JS.nullable (call_id body);
     PD.pathwayId := JS.nullable (pathway_id body);
     PD.timestamp := None |}.

(** The fields of [patientData] that are read from the request as they
    are. *)
Definition fields_read (body : Body)
    (variables : gmap string (option string)) : list (JS.value string) :=
  [JS.read variables "first_name"; JS.read variables "last_name";
   JS.read variables "date_of_birth"; JS.read variables "phone";
   JS.read variables "sex"; JS.read variables "house_number";
   JS.read variables "street"; JS.read variables "zip";
   JS.read variables "selected_appointment_id";
   JS.read variables "selected_appointment_type_id";
   call_id body; pathway_id body].

(** Firestore takes the document the handler builds from the request. *)
Definition accepted_by_firestore (body : Body) : bool :=
  match destructured_variables body with
  | Some variables => all_defined (fields_read body variables)
  | None => false
  end.

(** The bindings in scope at line 329 of part_000: the module's
    declarations and the handler's parameters and locals. *)
Definition scope_part_000 (body : Body) (patientData : PD.t)
    : list (string * bool) :=
  [("express", true); ("Firestore", true); ("PubSub", true);
   ("SecretManagerServiceClient", true); ("axios", true); ("app", true);
   ("firestore", true); ("pubsub", true); ("secretClient", true);
   ("PROJECT_ID", true); ("findMatchingAppointment", true);
   ("req", true); ("res", true);
   ("call_id", JS.truthy (JS.nullable (call_id body)));
   ("pathway_id", JS.truthy (JS.nullable (pathway_id body)));
   ("variables", true);
   ("status", JS.truthy (JS.nullable (status body)));
   ("patientData", true); ("docRef", true)].

(** part_000, [app.post('/webhook/bland', ...)]; the [catch] block answers
    500 with the message of the error. *)
Definition blandWebhook_part_000 (body : Body) (now : Z) (newId : string)
    (w : World) : Response * World :=
  match destructured_variables body with
  | None =>
      ({| code := 500;
          json := Failure (cannot_read "null" "first_name") None |}, w)
  | Some variables =>
      let patientData := build_patientData body variables in
      if negb (all_defined (fields_read body variables))
      then ({| code := 500; json := Failure UNDEFINED_VALUE None |}, w)
      else
        let w1 :=
          set_queue (<[newId := Intake.fresh patientData now None]>
                       (patient_intake_queue w)) w in
        match lookup_identifier (scope_part_000 body patientData)
                "appointmentData" with
        | Threw message =>
            ({| code := 500; json := Failure message None |}, w1)
        | Returned appointmentData =>
            let w2 :=
              publish_process_patient_queue
                {| trigger := "bland_webhook"; urgent := true;
                   recordId := Some newId |} w1 in
            ({| code := 200;
                json := Accepted "Patient intake processed" newId
                          (Some appointmentData) |}, w2)
        end
  end.

(** part_001, [app.post('/webhook/bland', ...)] *)
Definition blandWebhook_part_001 (body : Body) (now : Z) (newId : string)
    (w : World) : Response * World :=
  match destructured_variables body with
  | None =>
      ({| code := 500;
          json := Failure (cannot_read "null" "first_name") None |}, w)
  | Some variables =>
      let patientData := build_patientData body variables in
      if negb (all_defined (fields_read body variables))
      then ({| code := 500; json := Failure UNDEFINED_VALUE None |}, w)
      else
        let w1 :=
          set_queue (<[newId := Intake.fresh patientData now None]>
                       (patient_intake_queue w)) w in
        let w2 :=
          publish_process_patient_queue
            {| trigger := "bland_webhook"; urgent := true;
               recordId := Some newId |} w1 in
        ({| code := 200;
            json := Accepted "Patient intake processed" newId
                      (Some (JS.truthy (PD.appointmentId patientData))) |},
         w2)
  end.

End CleanedWebhook.

(** ** The system as a transition system *)

(** One run of a handler, with what it receives from outside: the request
    or the delivered message, the reading of the clock, the id Firestore
    picks for an added document, and the answer of the remote service.  The
    operations are the deployed functions that write to the intake queue,
    the credential or the topics; [bookAthenaAppointment],
    [logPatientActivity] and the alert and dashboard functions write to other
    collections only, and the scripts under setup/ and testing/ are tools of
    the operator. *)
Inductive op :=
| OpWebhook (rt : JSDate.Runtime) (body : Body) (now hour : Z) (newId : string)
| OpWebhookHandler (webhookSecret : option string) (expected : string)
    (req : BlandWebhookHandler.Request) (now : Z)
| OpWebhookCleaned000 (body : Body) (now : Z) (newId : string)
| OpWebhookCleaned001 (body : Body) (now : Z) (newId : string)
| OpProcessIntakeQueue (now : Z)
| OpCreateAthenaPatient (secrets : Secrets)
    (athena_post : string -> list (string * string) -> outcome string)
    (message : PD.t) (now : Z)
| OpBookAppointment (secrets : Secrets)
    (athena_put : string -> list (string * string) -> outcome string)
    (message : BookMsg) (now : Z)
| OpReprocessFailedIntakes (now : Z)
| OpRefreshAthenaToken (fetched : outcome TokenResponse) (now : Z).

(** The world after the run. *)
Definition exec (o : op) (w : World) : World :=
  match o with
  | OpWebhook rt body now hour newId =>
      (BlandWebhook.blandWebhook rt body now hour newId w).2
  | OpWebhookHandler secret expected req now =>
      (BlandWebhookHandler.blandWebhook secret expected req now w).2
  | OpWebhookCleaned000 body now newId =>
      (CleanedWebhook.blandWebhook_part_000 body now newId w).2
  | OpWebhookCleaned001 body now newId =>
      (CleanedWebhook.blandWebhook_part_001 body now newId w).2
  | OpProcessIntakeQueue now => (processIntakeQueue now w).2
  | OpCreateAthenaPatient secrets post message now =>
      (createAthenaPatient secrets post message now w).2
  | OpBookAppointment secrets put message now =>
      (bookAppointment secrets put message now w).2
  | OpReprocessFailedIntakes now => (reprocessFailedIntakes now w).2
  | OpRefreshAthenaToken fetched now => (refreshAthenaToken fetched now w).2
  end.

(** When a run can happen: an added document gets an id that is not in
    use, and a subscriber runs on a message that was published to its
    topic. *)
Definition enabled (o : op) (w : World) : Prop :=
  match o with
  | OpWebhook _ _ _ _ newId
  | OpWebhookCleaned000 _ _ newId
  | OpWebhookCleaned001 _ _ newId => patient_intake_queue w !! newId = None
  | OpCreateAthenaPatient _ _ message _ => message ∈ topic_create_patient w
  | OpBookAppointment _ _ message _ => message ∈ topic_book_appointment w
  | _ => True
  end.

(** The handler of part_002 is the one that publishes to [create-patient]
    without the intake processor. *)
Definition through_dispatcher (o : op) : Prop :=
  match o with
  | OpWebhookHandler _ _ _ _ => False
  | _ => True
  end.

(** The histories of the system from the empty store, newest world first,
    with runs taken among the operations [allowed]; a run of a handler is
    one step of a history. *)
Inductive history (allowed : op -> Prop) : list World -> Prop :=
| history_start : history allowed [empty_world]
| history_step o w past :
    history allowed (w :: past) -> allowed o -> enabled o w ->
    history allowed (exec o w :: w :: past).

Definition any_op (o : op) : Prop := True.

Definition reachable (w : World) : Prop :=
  exists past, history any_op (w :: past).

Abbreviation queue := patient_intake_queue (only parsing).

(** The status of a document in a world. *)
Definition status_of (w : World) (i : string) : option string :=
  Intake.status <$> patient_intake_queue w !! i.

(** The document held status [processing] at some point of the history. *)
Definition held_processing (hist : list World) (i : string) : Prop :=
  exists w, w ∈ hist /\ status_of w i = Some "processing".

Definition valid_status (s : string) : Prop :=
  s = "pending" \/ s = "processing" \/ s = "completed" \/ s = "error".

(** The condition under which the reconciler resets a document: status
    [error], or status [processing] since before [fifteenMinutesAgo]. *)
Definition needs_requeue (fifteenMinutesAgo : Z) (r : Intake.t) : bool :=
  String.eqb (Intake.status r) "error"
  || (String.eqb (Intake.status r) "processing"
      && match Intake.processingStarted r with
         | Some started => (started <? fifteenMinutesAgo)%Z
         | None => false
         end).

(** The document [i] occurs in the snapshot with data that need a reset. *)
Definition requeued_in (fifteenMinutesAgo : Z)
    (docs : list (string * Intake.t)) (i : string) : bool :=
  existsb (fun kv => String.eqb kv.1 i && needs_requeue fifteenMinutesAgo kv.2)
    docs.

(** How one run of a handler can change the document stored under an id. *)
Inductive doc_evolves : option Intake.t -> option Intake.t -> Prop :=
| evolves_same o : doc_evolves o o
| evolves_fresh o pd now retry :
    doc_evolves o (Some (Intake.fresh pd now retry))
| evolves_claim r now : doc_evolves (Some r) (Some (Intake.claim now r))
| evolves_complete r pid now :
    doc_evolves (Some r) (Some (Intake.complete pid now r))
| evolves_fail r message now :
    doc_evolves (Some r) (Some (Intake.fail message now r))
| evolves_requeue r : doc_evolves (Some r) (Some (Intake.requeue r))
| evolves_booked r now conf :
    doc_evolves (Some r) (Some (Intake.booked now conf r)).

(** A well-formed intake document: one of the four statuses, and a
    processing document carries the time its processing started. *)
Definition doc_ok (r : Intake.t) : Prop :=
  valid_status (Intake.status r)
  /\ (Intake.status r = "processing" -> is_Some (Intake.processingStarted r)).

Definition queue_ok (w : World) : Prop :=
  forall i r, patient_intake_queue w !! i = Some r -> doc_ok r.

(** Every document of status [processing] carries the time its processing
    started. *)
Definition stamped (w : World) : Prop :=
  forall i r, patient_intake_queue w !! i = Some r ->
    Intake.status r = "processing" -> is_Some (Intake.processingStarted r).

(** ** A reference engine for [new Date(string)]

    The three formats of the specification as V8 reads them: the ISO date
    form is UTC midnight (ECMA-262), the US form and the month-name form
    are local midnight; any other string is an invalid date here. *)
Module ReferenceEngine.

Local Open Scope Z_scope.

Definition digits_of_length (n : nat) (s : string) : bool :=
  (String.length s =? n)%nat && JSMore.all_digits s.

Definition read_iso (s : string) : option (Z * Z * Z) :=
  match JS.split "-" s with
  | [y; m; d] =>
      if digits_of_length 4 y && digits_of_length 2 m && digits_of_length 2 d
      then Some (JS.to_number y, JS.to_number m, JS.to_number d) else None
  | _ => None
  end.

Definition read_us (s : string) : option (Z * Z * Z) :=
  match JS.split "/" s with
  | [m; d; y] =>
      if digits_of_length 4 y
         && (digits_of_length 1 m || digits_of_length 2 m)
         && (digits_of_length 1 d || digits_of_length 2 d)
      then Some (JS.to_number y, JS.to_number m, JS.to_number d) else None
  | _ => None
  end.

Fixpoint month_index (names : list string) (name : string) (i : Z)
    : option Z :=
  match names with
  | n :: rest => if String.eqb n name then Some i else month_index rest name (i + 1)
  | [] => None
  end.

(** [Month D, YYYY] *)
Definition read_month_name (s : string) : option (Z * Z * Z) :=
  match JS.split " " s with
  | [name; dc; y] =>
      match month_index monthNames (JS.toLowerCase name) 1,
            JS.split "," dc with
      | Some m, [d; ""] =>
          if digits_of_length 4 y
             && (digits_of_length 1 d || digits_of_length 2 d)
          then Some (JS.to_number y, m, JS.to_number d) else None
      | _, _ => None
      end
  | _ => None
  end.

Definition midnight (ymd : Z * Z * Z) : option Z :=
  let '(y, m, d) := ymd in
  if JSDate.valid_date y m d
  then Some (JSDate.days_from_civil y m d * JSDate.msPerDay) else None.

Definition parse (offset : Z) (s : string) : option Z :=
  match read_iso s with
  | Some ymd => midnight ymd
  | None =>
      match read_us s with
      | Some ymd => (fun t => t - offset) <$> midnight ymd
      | None =>
          match read_month_name s with
          | Some ymd => (fun t => t - offset) <$> midnight ymd
          | None => None
          end
      end
  end.

(** A host with a fixed offset from UTC, in milliseconds. *)
Definition runtime (offset : Z) : JSDate.Runtime :=
  {| JSDate.LocalTZA := fun _ => offset; JSDate.Date_parse := parse offset |}.

End ReferenceEngine.

(** ** Notions used to state the date round trip *)

Module DateSpec.

Local Open Scope Z_scope.




(** The character [c] does not occur in the string. *)
Fixpoint free (c : ascii) (s : string) : Prop :=
  match s with
  | EmptyString => True
  | String a r => Ascii.eqb a c = false /\ free c r
  end.



(** *** The three formats of a date input *)




Definition is_letter (c : ascii) : bool :=
  let n := N_of_ascii c in
  (((65 <=? n) && (n <=? 90)) || ((97 <=? n) && (n <=? 122)))%N.


Definition not_digit (c : ascii) : bool := negb (JS.is_digit c).







End DateSpec.

(** ** Concrete worlds and requests used in the examples *)

Module Examples.

Definition payload (i : option string) (dob : option string) : PD.t :=
  {| PD.id := i; PD.firstName := Some "Test"; PD.lastName := Some "Patient";
     PD.dateOfBirth := dob; PD.phone := Some "7025551234";
     PD.email := Some "t@example.com"; PD.sex := Some "F";
     PD.houseNumber := Some "123"; PD.street := Some "Main St";
     PD.city := Some "Las Vegas"; PD.state := Some "NV";
     PD.zip := Some "89101"; PD.appointmentId := Some "12345";
     PD.appointmentTypeId := Some "15"; PD.preferredDate := None;
     PD.preferredTime := None; PD.reasonForVisit := None;
     PD.source := Some "bland_ai"; PD.callId := Some "call-1";
     PD.pathwayId := Some "pathway-1"; PD.timestamp := None |}.

Definition credential : Credential :=
  {| token := Some "secret"; type := "Bearer"; service := "Athenahealth";
     tokenCreatedAt := 0; expiresAt := 3000000; expiresIn := 3600;
     scope := ""; environment := "production"; lastRefreshed := 0;
     refreshCount := 0 |}.

Definition secrets : Secrets :=
  {| practiceId := "195900"; departmentId := "1";
     baseUrl := "https://api.example.test" |}.

(** A store with a credential and one pending document [doc-a]. *)
Definition one_pending : World :=
  set_api_tokens (Some credential)
    (set_queue {[ "doc-a" := Intake.fresh (payload None (Some "1990-01-15")) 100 None ]}
       empty_world).

(** The same store once [doc-a] is being processed since time 1000. *)
Definition one_processing : World :=
  set_api_tokens (Some credential)
    (set_queue
       {[ "doc-a" :=
            Intake.claim 1000
              (Intake.fresh (payload None (Some "1990-01-15")) 100 None) ]}
       empty_world).

Definition vars_complete : gmap string (option string) :=
  list_to_map
    [("first_name", Some "Test"); ("last_name", Some "Patient");
     ("date_of_birth", Some "1990-01-15"); ("phone", Some "7025551234");
     ("email", Some "t@example.com"); ("sex", Some "F");
     ("house_number", Some "123"); ("street", Some "Main St");
     ("city", Some "Las Vegas"); ("state", Some "NV"); ("zip", Some "89101");
     ("selected_appointment_id", Some "12345");
     ("selected_appointment_type_id", Some "15")].

Definition body_complete : Body :=
  {| call_id := JS.Val "call-1"; pathway_id := JS.Val "pathway-1";
     status := JS.Val "completed"; phone_number := None;
     variables := JS.Val vars_complete |}.

(** A completed call whose variables carry a name and a birth date and no
    email, phone or zip, and whose body carries the caller's number. *)
Definition vars_caller_number : gmap string (option string) :=
  list_to_map
    [("first_name", Some "Test"); ("last_name", Some "Patient");
     ("date_of_birth", Some "1990-01-15")].

Definition body_caller_number : Body :=
  {| call_id := JS.Val "call-2"; pathway_id := JS.Val "pathway-1";
     status := JS.Val "completed"; phone_number := Some "7025551234";
     variables := JS.Val vars_caller_number |}.

Definition body_no_answer : Body :=
  {| call_id := JS.Val "call-3"; pathway_id := JS.Val "pathway-1";
     status := JS.Val "no-answer"; phone_number := None;
     variables := JS.Undefined |}.

(** A completed call whose [variables] are [null]. *)
Definition body_null_variables : Body :=
  {| call_id := JS.Val "call-5"; pathway_id := JS.Val "pathway-1";
     status := JS.Val "completed"; phone_number := None;
     variables := JS.Null |}.

(** The variables of [vars_complete] with no appointment selected. *)
Definition vars_no_appointment : gmap string (option string) :=
  <["selected_appointment_id" := None]>
    (<["selected_appointment_type_id" := None]> vars_complete).

Definition body_no_appointment : Body :=
  {| call_id := JS.Val "call-6"; pathway_id := JS.Val "pathway-1";
     status := JS.Val "completed"; phone_number := None;
     variables := JS.Val vars_no_appointment |}.

Definition athena_ok (url : string) (payload : list (string * string))
    : outcome string := Returned "P-1001".

Definition token_response : TokenResponse :=
  {| access_token := JS.Val "secret"; expires_in := Some 3600%Z;
     resp_scope := None |}.

(** The store after the webhook of src/functions/bland-webhook enqueued
    [doc-a] at time 100, and after the intake processor claimed it at time
    1000. *)
Definition enqueued : World :=
  exec (OpWebhook (ReferenceEngine.runtime 0) body_complete 100 12 "doc-a")
    empty_world.

Definition claimed : World := exec (OpProcessIntakeQueue 1000) enqueued.

(** A request to the handler of part_002. *)
Definition direct_request : BlandWebhookHandler.Request :=
  {| BlandWebhookHandler.body := body_complete;
     BlandWebhookHandler.x_bland_signature := None |}.

(** The worlds of a short history: the token is refreshed, the handler of
    part_002 takes a call at time 500, the patient creator runs on the
    message this handler published. *)
Definition direct_0 : World :=
  exec (OpRefreshAthenaToken (Returned token_response) 0) empty_world.

Definition direct_1 : World :=
  exec (OpWebhookHandler None "" direct_request 500) direct_0.

Definition direct_message : PD.t :=
  BlandWebhookHandler.build_patientData body_complete vars_complete
    "call-1_500" 500.

Definition direct_2 : World :=
  exec (OpCreateAthenaPatient secrets athena_ok direct_message 900) direct_1.

(** The worlds of a history through the dispatcher: token refresh, webhook,
    intake processor, patient creator. *)
Definition dispatch_1 : World :=
  exec (OpWebhook (ReferenceEngine.runtime 0) body_complete 100 12 "doc-a")
    direct_0.

Definition dispatch_2 : World := exec (OpProcessIntakeQueue 1000) dispatch_1.

Definition dispatch_message : PD.t :=
  claim_message "doc-a"
    (Intake.fresh
       (BlandWebhook.build_patientData (ReferenceEngine.runtime 0)
          body_complete vars_complete)
       100 None).

Definition dispatch_3 : World :=
  exec (OpCreateAthenaPatient secrets athena_ok dispatch_message 1500)
    dispatch_2.

End Examples.
(** * Further handlers and helper definitions *)

(** ** String maps and table predicates used in the statements on the
    normalisers *)

Module CaseSpec.
(** A string mapped character by character. *)
Fixpoint smap (f : ascii -> ascii) (s : string) : string :=
  match s with
  | String c r => String (f c) (smap f r)
  | EmptyString => EmptyString
  end.

(** All values of a table satisfy [p]. *)
Definition values_all (p : string -> bool) (tbl : list (string * string)) : bool :=
  forallb (fun kv => p kv.2) tbl.

Definition keys_all (p : string -> bool) (tbl : list (string * string)) : bool :=
  forallb (fun kv => p kv.1) tbl.
End CaseSpec.

(** The booking message the patient creator publishes for [patientData]. *)
Definition booking_message (patientData : PD.t) (athenaPatientId : string)
    : BookMsg :=
  {| bookPatientId := athenaPatientId;
     bookAppointmentId := JS.or_empty (PD.appointmentId patientData);
     bookAppointmentTypeId :=
       JS.or_empty (JS.or_else (PD.appointmentTypeId patientData) (Some "15"));
     originalRecordId := PD.id patientData |}.

(** The fields of an intake document that no update of a handler names:
    the payload, the creation time and the retry counter. *)
Definition same_intake (r r' : Intake.t) : Prop :=
  Intake.data r' = Intake.data r
  /\ Intake.createdAt r' = Intake.createdAt r
  /\ Intake.retryCount r' = Intake.retryCount r.

(** The collections other than the intake queue. *)
Definition stores (w : World) :=
  (api_tokens w, token_refresh_log w, patients w, appointments w,
   bland_failed_calls w, bland_incomplete_records w, webhook_errors w,
   errors w).

(** [success: true] in the body of a response. *)
Definition accepted (r : Response) : bool :=
  match json r with
  | Accepted _ _ _ => true
  | _ => false
  end.

(** ** The HTTP entry of the token manager (src/unnamed/part_003,
    [refreshTokenHttp]) *)

Inductive RefreshHttpBody :=
| RefreshOk (result : RefreshResult)
| RefreshFailed (error timestamp : string).

Record RefreshHttpResponse := {
  refreshCode : Z;
  refreshJson : RefreshHttpBody
}.

(** [refreshTokenHttp]: the result of [refreshAthenaToken] with status 200,
    or the message of what it threw with status 500. *)
Definition refreshTokenHttp (fetched : outcome TokenResponse) (now : Z)
    (w : World) : RefreshHttpResponse * World :=
  match refreshAthenaToken fetched now w with
  | (Returned result, w') =>
      ({| refreshCode := 200; refreshJson := RefreshOk result |}, w')
  | (Threw message, w') =>
      ({| refreshCode := 500;
          refreshJson := RefreshFailed message (JSDate.toISOString now) |},
       w')
  end.

(** Successive runs of [refreshAthenaToken], each with what the provider
    answered and the reading of the clock. *)
Fixpoint refresh_all (runs : list (outcome TokenResponse * Z)) (w : World)
    : World :=
  match runs with
  | [] => w
  | (fetched, now) :: rest =>
      refresh_all rest (refreshAthenaToken fetched now w).2
  end.

(** The run stores a credential: the provider answered, and its answer
    carries [access_token], be it [null]. *)
Definition stores_credential (run : outcome TokenResponse * Z) : bool :=
  match run.1 with
  | Returned tokenResponse => JS.defined (access_token tokenResponse)
  | Threw _ => false
  end.

(** The number of credentials stored so far, as [refreshCount] records it. *)
Definition credentials_stored (w : World) : Z :=
  match api_tokens w with
  | Some tokenData => refreshCount tokenData + 1
  | None => 0
  end.

(** The lifetime [refreshAthenaToken] takes from the response. *)
Definition lifetime (tokenResponse : TokenResponse) : Z :=
  match expires_in tokenResponse with
  | Some n => if (n =? 0)%Z then 3600%Z else n
  | None => 3600%Z
  end.

(** ** The Athena appointment booker
    (src/functions/appointment-booker/index.js, [bookAthenaAppointment]) *)

Module AthenaBooker.

(** [s.match(/\d+/)]: the leftmost maximal run of digits. *)
Fixpoint match_digit_run (s : string) : option string :=
  match s with
  | EmptyString => None
  | String c r =>
      if JS.is_digit c then Some (JSMore.span JS.is_digit (String c r)).1
      else match_digit_run r
  end.

(** [/\d/.test(s)] *)
Fixpoint has_digit (s : string) : bool :=
  match s with
  | String c r => JS.is_digit c || has_digit r
  | EmptyString => false
  end.

(** The message on [book-appointment] as [JSON.parse] yields it; a key the
    message does not carry reads [undefined]. *)
Record BookingData := {
  patientId : option string;
  appointmentId : option string;
  appointmentTypeId : option string;
  originalRecordId : option string
}.

(** A document of [appointments] as this handler writes it: the fields of
    [appointmentRecord], and the fields of the update of the [catch]
    block. *)
Record AppointmentDoc := {
  athenaAppointmentId : string;
  athenaPatientId : string;
  docAppointmentTypeId : string;
  docDepartmentId : string;
  docStatus : string;
  bookedAt : Z;
  response : string;
  docError : option string;
  docErrorAt : option Z
}.

(** The world of this handler: the collections of [World], the documents
    of [appointments] this handler knows by id, and [appointment_log]
    (patient id, appointment id, appointment type id, time). *)
Record Store := {
  world : World;
  appointments_by_id : gmap string AppointmentDoc;
  appointment_log : list (string * string * string * Z)
}.

Record BookingResult := {
  bookingSuccess : bool;
  bookedAppointmentId : string;
  bookingMessage : string
}.

(** Lines 150-159: the default and the extraction of the number. *)
Definition appointment_type (bookingData : BookingData) : string :=
  let appointmentTypeId :=
    JS.or_empty (JS.or_else (appointmentTypeId bookingData) (Some "15")) in
  match match_digit_run appointmentTypeId with
  | Some numericMatch => numericMatch
  | None => appointmentTypeId
  end.

(** [set(appointmentRecord, {merge: true})]: the fields of the record are
    written, the other fields of an existing document stay. *)
Definition merge_record (existing : option AppointmentDoc)
    (appointmentId patientId appointmentTypeId departmentId : string)
    (now : Z) (response : string) : AppointmentDoc :=
  {| athenaAppointmentId := appointmentId;
     athenaPatientId := patientId;
     docAppointmentTypeId := appointmentTypeId;
     docDepartmentId := departmentId;
     docStatus := "booked";
     bookedAt := now;
     response := response;
     docError := existing ≫= docError;
     docErrorAt := existing ≫= docErrorAt |}.

(** [update({status: 'error', error: error.message, errorAt: new Date()})] *)
Definition mark_failed (message : string) (now : Z) (d : AppointmentDoc)
    : AppointmentDoc :=
  {| athenaAppointmentId := athenaAppointmentId d;
     athenaPatientId := athenaPatientId d;
     docAppointmentTypeId := docAppointmentTypeId d;
     docDepartmentId := docDepartmentId d;
     docStatus := "error";
     bookedAt := bookedAt d;
     response := response d;
     docError := Some message;
     docErrorAt := Some now |}.

Section Handler.
(** The AthenaHealth endpoint [PUT /v1/{practiceid}/appointments/{id}]. *)
Context (secrets : Secrets).
Context (athena_put : string -> list (string * string) -> outcome string).

(** The [try] block; [newId] is the id Firestore gives an added document. *)
Definition book_try (bookingData : BookingData) (now : Z) (newId : string)
    (s : Store) : outcome BookingResult * Store :=
  match api_tokens (world s) with
  | None => (Threw "No valid token found. Run token refresh first.", s)
  | Some tokenData =>
      if (expiresAt tokenData <=? now)%Z
      then (Threw "Token expired. Please refresh token.", s) else
      let appointmentTypeId := appointment_type bookingData in
      match patientId bookingData with
      | None =>
          (Threw "Cannot read properties of undefined (reading 'toString')", s)
      | Some patient =>
          let payload :=
            [("patientid", patient);
             ("departmentid", departmentId secrets);
             ("appointmenttypeid", appointmentTypeId)] in
          let url :=
            baseUrl secrets +:+ "/v1/" +:+ practiceId secrets
            +:+ "/appointments/"
            +:+ default "undefined" (appointmentId bookingData) in
          match athena_put url payload with
          | Threw message => (Threw message, s)
          | Returned answer =>
              match appointmentId bookingData with
              | None => (Threw UNDEFINED_VALUE, s)
              | Some appointment =>
                  let key :=
                    if JS.truthy (originalRecordId bookingData)
                    then JS.or_empty (originalRecordId bookingData) else newId in
                  let record :=
                    merge_record
                      (if JS.truthy (originalRecordId bookingData)
                       then appointments_by_id s !! key else None)
                      appointment patient appointmentTypeId
                      (departmentId secrets) now answer in
                  (Returned {| bookingSuccess := true;
                               bookedAppointmentId := appointment;
                               bookingMessage :=
                                 "Appointment booked successfully" |},
                   {| world := world s;
                      appointments_by_id :=
                        <[key := record]> (appointments_by_id s);
                      appointment_log :=
                        appointment_log s
                        ++ [(patient, appointment, appointmentTypeId, now)] |})
              end
          end
      end
  end.

(** [bookAthenaAppointment]: the [try] block and, when it throws, the
    [catch] block, which logs the error, marks the appointment document
    named by the message and rethrows; an error of the [catch] block's own
    update takes the place of the first. *)
Definition bookAthenaAppointment (bookingData : BookingData) (now : Z)
    (newId : string) (s : Store) : outcome BookingResult * Store :=
  match book_try bookingData now newId s with
  | (Returned r, s') => (Returned r, s')
  | (Threw message, s') =>
      let s1 :=
        {| world :=
             add_error {| errType := "appointment_booking";
                          errMessage := message; errTimestamp := now |}
               (world s');
           appointments_by_id := appointments_by_id s';
           appointment_log := appointment_log s' |} in
      if JS.truthy (originalRecordId bookingData) then
        match appointments_by_id s1 !! JS.or_empty (originalRecordId bookingData) with
        | Some d =>
            (Threw message,
             {| world := world s1;
                appointments_by_id :=
                  <[JS.or_empty (originalRecordId bookingData) :=
                      mark_failed message now d]> (appointments_by_id s1);
                appointment_log := appointment_log s1 |})
        | None => (Threw NOT_FOUND, s1)
        end
      else (Threw message, s1)
  end.

End Handler.

(** A message and a store for the examples: the credential of
    [Examples.direct_0] expires at time 3000000. *)
Definition example_booking : BookingData :=
  {| patientId := Some "P-1001"; appointmentId := Some "12345";
     appointmentTypeId := Some "6 - New Patient"; originalRecordId := Some "doc-a" |}.

Definition example_store : Store :=
  {| world := Examples.direct_0; appointments_by_id := ∅;
     appointment_log := [] |}.

Definition athena_not_found (url : string) (payload : list (string * string))
    : outcome string := Threw "Request failed with status code 404".

End AthenaBooker.

(** ** The activity logger (src/unnamed/part_002, [logPatientActivity]) *)

Module ActivityLogger.

(** The type of activity a published message names. *)
Definition published_type (m : ActivityMsg) : string := activityType m.

(** The message as [JSON.parse] yields it; a key the message does not
    carry reads [undefined]. *)
Record ActivityData := {
  patientId : option string;
  lastName : option string;
  activityType : option string;
  appointmentId : option string;
  appointmentDateTime : option string;
  status : option string;
  callLength : option string;
  lastNodeId : option string;
  patientRecordCreated : option string;
  bookedAppt : option string
}.

(** A document of [patient_activity_log]. *)
Record LogEntry := {
  logPatientId : string;
  logLastName : string;
  logActivityType : string;
  logAppointmentId : option string;
  logAppointmentDateTime : option string;
  callDateTime : Z;
  logTimestamp : Z;
  logStatus : string
}.

(** A document of [patient_summary]. *)
Record Summary := {
  sumPatientId : string;
  sumLastName : string;
  lastActivity : Z;
  sumAppointmentId : option string;
  sumAppointmentDateTime : option string;
  totalActivities : Z;
  sumCallLength : string;
  sumLastNodeId : string;
  sumPatientRecordCreated : string;
  sumBookedAppt : string
}.

Record Store := {
  patient_activity_log : list LogEntry;
  patient_summary : gmap string Summary
}.

(** [v || null] *)
Definition or_null (v : option string) : option string :=
  if JS.truthy v then v else None.

(** [logPatientActivity]: the entry is added to the log, then the summary
    of the patient is written with [merge]; every field of the summary is
    given, and [FieldValue.increment(1)] counts from the stored total.  The
    function has no [catch]: what Firestore throws is thrown. *)
Definition logPatientActivity (data : ActivityData) (now : Z) (s : Store)
    : outcome unit * Store :=
  match patientId data, lastName data, activityType data, status data with
  | Some patient, Some name, Some activity, Some st =>
      let s1 :=
        {| patient_activity_log :=
             patient_activity_log s
             ++ [{| logPatientId := patient; logLastName := name;
                    logActivityType := activity;
                    logAppointmentId := or_null (appointmentId data);
                    logAppointmentDateTime :=
                      or_null (appointmentDateTime data);
                    callDateTime := now; logTimestamp := now;
                    logStatus := st |}];
           patient_summary := patient_summary s |} in
      if String.eqb patient "" then (Threw INVALID_PATH, s1) else
      match callLength data, lastNodeId data, patientRecordCreated data,
            bookedAppt data with
      | Some length, Some node, Some created, Some booked =>
          let total :=
            match patient_summary s1 !! patient with
            | Some previous => (totalActivities previous + 1)%Z
            | None => 1%Z
            end in
          (Returned tt,
           {| patient_activity_log := patient_activity_log s1;
              patient_summary :=
                <[patient :=
                    {| sumPatientId := patient; sumLastName := name;
                       lastActivity := now;
                       sumAppointmentId := or_null (appointmentId data);
                       sumAppointmentDateTime :=
                         or_null (appointmentDateTime data);
                       totalActivities := total;
                       sumCallLength := length; sumLastNodeId := node;
                       sumPatientRecordCreated := created;
                       sumBookedAppt := booked |}]> (patient_summary s1) |})
      | _, _, _, _ => (Threw UNDEFINED_VALUE, s1)
      end
  | _, _, _, _ => (Threw UNDEFINED_VALUE, s)
  end.

(** A message of [patient-activity] as the patient creator and the webhook
    publish it, read by [JSON.parse]. *)
Definition of_message (m : ActivityMsg) : ActivityData :=
  {| patientId := Some (actPatientId m);
     lastName := actLastName m;
     activityType := Some (published_type m);
     appointmentId := None;
     appointmentDateTime := None;
     status := Some (actStatus m);
     callLength := None;
     lastNodeId := None;
     patientRecordCreated := None;
     bookedAppt := None |}.

(** Deliveries of one message, each with its reading of the clock. *)
Fixpoint deliveries (data : ActivityData) (times : list Z) (s : Store)
    : Store :=
  match times with
  | [] => s
  | now :: rest => deliveries data rest (logPatientActivity data now s).2
  end.

(** The total the summary of a patient shows. *)
Definition total_of (s : Store) (patient : string) : Z :=
  match patient_summary s !! patient with
  | Some summary => totalActivities summary
  | None => 0%Z
  end.

End ActivityLogger.

(** ** The appointment matcher (src/unnamed/part_000,
    [findMatchingAppointment]) *)

Module Matcher.

(** The value of a digit in a radix, if it is one. *)
Definition digit_in (radix : Z) (c : ascii) : option Z :=
  let n := Z.of_N (N_of_ascii c) in
  let v :=
    if ((48 <=? n) && (n <=? 57))%Z then Some (n - 48)%Z
    else if ((97 <=? n) && (n <=? 102))%Z then Some (n - 87)%Z
    else if ((65 <=? n) && (n <=? 70))%Z then Some (n - 55)%Z
    else None in
  match v with
  | Some d => if (d <? radix)%Z then Some d else None
  | None => None
  end.

(** The number written by the longest prefix of digits; [None] when that
    prefix is empty. *)
Fixpoint digits_value (radix : Z) (s : string) (acc : option Z) : option Z :=
  match s with
  | String c r =>
      match digit_in radix c with
      | Some d => digits_value radix r (Some (default 0 acc * radix + d))%Z
      | None => acc
      end
  | EmptyString => acc
  end.

(** [parseInt(v)] without radix: leading white space, a sign, a [0x]
    prefix, then digits; [None] is [NaN], and [undefined] reads as the
    string ["undefined"].  The numbers are exact as long as they are below
    2^53, which [short] ensures. *)
Definition parseInt (input : option string) : option Z :=
  let s := JS.trim_start (default "undefined" input) in
  let '(sign, s) :=
    match s with
    | String "-" r => ((-1)%Z, r)
    | String "+" r => (1%Z, r)
    | _ => (1%Z, s)
    end in
  let '(radix, s) :=
    match s with
    | String "0" (String "x" r) => (16%Z, r)
    | String "0" (String "X" r) => (16%Z, r)
    | _ => (10%Z, s)
    end in
  match digits_value radix s None with
  | Some n => Some (sign * n)%Z
  | None => None
  end.

(** [parseInt(t.split(':')[0]) * 60 + parseInt(t.split(':')[1])] *)
Definition minutes (time : string) : option Z :=
  match parseInt (JS.split ":" time !! 0%nat),
        parseInt (JS.split ":" time !! 1%nat) with
  | Some h, Some m => Some (h * 60 + m)%Z
  | _, _ => None
  end.

(** A time string short enough for its numbers to be exact. *)
Definition short (time : string) : bool := (String.length time <=? 12)%nat.

(** An open appointment of the answer of AthenaHealth. *)
Record Appointment := {
  appointmentid : string;
  starttime : option string;
  appointmenttypeid : string
}.

(** [Math.abs(aptMinutes - preferredMinutes)]; [None] is [NaN]. *)
Definition diff_of (preferredMinutes : option Z) (apt : Appointment)
    : option Z :=
  match starttime apt ≫= minutes, preferredMinutes with
  | Some aptMinutes, Some preferred => Some (Z.abs (aptMinutes - preferred))
  | _, _ => None
  end.

(** The loop over the appointments; [minDiff] is [None] for [Infinity].  A
    comparison with [NaN] is false. *)
Fixpoint best_match (appointments : list Appointment)
    (preferredMinutes : option Z) (bestMatch : option Appointment)
    (minDiff : option Z) : outcome (option Appointment) :=
  match appointments with
  | [] => Returned bestMatch
  | apt :: rest =>
      match starttime apt with
      | None => Threw "Cannot read properties of undefined (reading 'split')"
      | Some aptTime =>
          match diff_of preferredMinutes apt with
          | Some diff =>
              if match minDiff with
                 | Some m => (diff <? m)%Z
                 | None => true
                 end
              then best_match rest preferredMinutes (Some apt) (Some diff)
              else best_match rest preferredMinutes bestMatch minDiff
          | None => best_match rest preferredMinutes bestMatch minDiff
          end
      end
  end.

(** [`${month}/${day}/${year}`] of [preferredDate.split('-')]. *)
Definition athenaDate (preferredDate : string) : string :=
  let parts := JS.split "-" preferredDate in
  default "undefined" (parts !! 1%nat) +:+ "/"
  +:+ default "undefined" (parts !! 2%nat) +:+ "/"
  +:+ default "undefined" (parts !! 0%nat).

Section Handler.
(** The AthenaHealth endpoint [GET /v1/{practiceid}/appointments/open]:
    the field [appointments] of the answer. *)
Context (secrets : Secrets).
Context (athena_get :
           string -> list (string * string) ->
           outcome (option (list Appointment))).

Definition findMatchingAppointment (preferredDate preferredTime : string)
    (w : World) : outcome (option Appointment) :=
  match api_tokens w with
  | None => Threw "No valid token found"
  | Some tokenData =>
      match athena_get
              (baseUrl secrets +:+ "/v1/" +:+ practiceId secrets
               +:+ "/appointments/open")
              [("departmentid", departmentId secrets);
               ("startdate", athenaDate preferredDate);
               ("enddate", athenaDate preferredDate)] with
      | Threw message => Threw message
      | Returned answer =>
          best_match (default [] answer) (minutes preferredTime) None None
      end
  end.

End Handler.

Definition example_slots : list Appointment :=
  [{| appointmentid := "1"; starttime := Some "09:00";
      appointmenttypeid := "6" |};
   {| appointmentid := "2"; starttime := Some "10:30";
      appointmenttypeid := "6" |};
   {| appointmentid := "3"; starttime := Some "11:30";
      appointmenttypeid := "6" |}].

Definition athena_slots (url : string) (params : list (string * string))
    : outcome (option (list Appointment)) := Returned (Some example_slots).

End Matcher.

(** ** The health check (src/unnamed/part_000, [checkSystemHealth]) *)

Module HealthCheck.

(** [Math.round(ms / 60000)]: to the nearest integer, a half rounds up. *)
Definition round_minutes (ms : Z) : Z := ((2 * ms + 60000) / 120000)%Z.

(** The block "OAuth Token Status": the value left in [health.oauth] and
    the minutes the block reports, when a credential is stored. *)
Definition oauth_status (now : Z) (w : World) : bool * option Z :=
  match api_tokens w with
  | Some data =>
      let minutesRemaining := round_minutes (expiresAt data - now) in
      if (0 <? minutesRemaining)%Z then (true, Some minutesRemaining)
      else (false, Some (Z.abs minutesRemaining))
  | None => (false, None)
  end.

End HealthCheck.

(** * Properties *)

(** ** Phone normalisation *)

Example cleanPhone_formatted : cleanPhone (Some "+1 (702) 555-1234") = "7025551234".
Proof. reflexivity. Qed.

Lemma parsePhoneNumber_cleanPhone phone : parsePhoneNumber phone = cleanPhone phone.
Proof. reflexivity. Qed.

Lemma cleanPhone_unfold (p : string) :
  p <> "" ->
  cleanPhone (Some p) =
    (if nanp_ok (ten_digit_form (JS.strip_non_digits p))
     then ten_digit_form (JS.strip_non_digits p) else "").
Proof.
  intros Hp. unfold cleanPhone, nanp_ok, ten_digit_form. simpl.
  destruct (String.eqb_spec p ""); [contradiction|]. reflexivity.
Qed.

Lemma cleanPhone_empty : cleanPhone (Some "") = "".
Proof. reflexivity. Qed.

(** C8, as stated, fails: an 11-digit input with a leading 1 whose trailing
    ten digits break the NANP rule is not normalised to those ten digits. *)
Lemma C8_counterexample :
  String.length (JS.strip_non_digits "11234567890") = 11%nat /\
  JS.startsWith (JS.strip_non_digits "11234567890") "1" = true /\
  cleanPhone (Some "11234567890")
    <> JS.substring_from 1 (JS.strip_non_digits "11234567890").
Proof. repeat split; discriminate. Qed.

(** C8 (amended): an input whose digits are an 11-digit string beginning
    with 1 normalises to its trailing ten digits when these satisfy the NANP
    digit-position rule, and every input whose 10-digit form fails the rule
    normalises to the empty string. *)
Theorem C8_cleanPhone_nanp (p : string) :
  (String.length (JS.strip_non_digits p) = 11%nat ->
   JS.startsWith (JS.strip_non_digits p) "1" = true ->
   nanp_ok (JS.substring_from 1 (JS.strip_non_digits p)) = true ->
   cleanPhone (Some p) = JS.substring_from 1 (JS.strip_non_digits p)
   /\ parsePhoneNumber (Some p) = JS.substring_from 1 (JS.strip_non_digits p))
  /\
  (nanp_ok (ten_digit_form (JS.strip_non_digits p)) = false ->
   cleanPhone (Some p) = "" /\ parsePhoneNumber (Some p) = "").
Proof.
  change (parsePhoneNumber (Some p)) with (cleanPhone (Some p)).
  destruct (String.eqb_spec p "") as [->|Hp].
  - split; [discriminate|]. intros _. split; reflexivity.
  - rewrite (cleanPhone_unfold p Hp). split.
    + intros Hlen Hone Hok. unfold ten_digit_form.
      rewrite Hlen, Hone. simpl. rewrite Hok. split; reflexivity.
    + intros ->. split; reflexivity.
Qed.

Lemma C8_witness :
  (cleanPhone (Some "1 (702) 555-1234") = "7025551234"
   /\ parsePhoneNumber (Some "1 (702) 555-1234") = "7025551234")
  /\ (cleanPhone (Some "702-155-1234") = ""
      /\ parsePhoneNumber (Some "702-155-1234") = "").
Proof.
  split.
  - apply (proj1 (C8_cleanPhone_nanp "1 (702) 555-1234")); reflexivity.
  - apply (proj2 (C8_cleanPhone_nanp "702-155-1234")); reflexivity.
Defined.

(** ** The token manager *)

(** C6: when the upstream fetch fails, [refreshAthenaToken] rethrows the
    error, leaves the document [api_tokens/athena-current] as it was, and
    publishes one notification to [error-notifications]. *)
Theorem C6_failed_refresh_keeps_credential (message : string) (now : Z)
    (w : World) :
  (refreshAthenaToken (Threw message) now w).1 = Threw message
  /\ api_tokens (refreshAthenaToken (Threw message) now w).2 = api_tokens w
  /\ topic_error_notifications (refreshAthenaToken (Threw message) now w).2
     = (topic_error_notifications w
        ++ [{| noteFunction := "oauth-manager"; noteError := message;
               noteTimestamp := now |}])%list.
Proof. repeat split. Qed.

(** More generally, no run of [refreshAthenaToken] that throws touches the
    credential, whatever made it throw. *)
Lemma thrown_refresh_keeps_credential fetched now w message :
  (refreshAthenaToken fetched now w).1 = Threw message ->
  api_tokens (refreshAthenaToken fetched now w).2 = api_tokens w
  /\ exists note,
       topic_error_notifications (refreshAthenaToken fetched now w).2
       = (topic_error_notifications w ++ [note])%list.
Proof.
  unfold refreshAthenaToken, refresh_try.
  destruct fetched as [resp|msg]; [|cbn; eauto].
  destruct (access_token resp); cbn; [eauto|discriminate..].
Qed.

Lemma refreshAthenaToken_queue fetched now w :
  patient_intake_queue (refreshAthenaToken fetched now w).2
  = patient_intake_queue w
  /\ topic_create_patient (refreshAthenaToken fetched now w).2
     = topic_create_patient w.
Proof.
  unfold refreshAthenaToken, refresh_try.
  destruct fetched as [resp|msg]; [|done].
  by destruct (access_token resp).
Qed.

Example refresh_failure_after_success :
  let w1 := (refreshAthenaToken (Returned Examples.token_response) 0 empty_world).2 in
  api_tokens (refreshAthenaToken (Threw "Network Error") 5 w1).2
  = Some Examples.credential.
Proof. reflexivity. Qed.

(** ** The terminal updates *)

Lemma queue_update_lookup docId f w w' :
  queue_update docId f w = Some w' ->
  exists i r, docId = Some i /\ i <> "" /\ patient_intake_queue w !! i = Some r
    /\ w' = set_queue (<[i := f r]> (patient_intake_queue w)) w.
Proof.
  unfold queue_update. destruct docId as [i|]; [|discriminate].
  destruct (String.eqb_spec i ""); [discriminate|].
  destruct (patient_intake_queue w !! i) as [r|] eqn:E; [|discriminate].
  intros [= <-]. eauto 10.
Qed.

Lemma queue_update_twice docId f g w w1 :
  queue_update docId f w = Some w1 ->
  queue_update docId g w1
  = queue_update docId (fun r => g (f r)) w.
Proof.
  intros H. destruct (queue_update_lookup _ _ _ _ H) as (i & r & -> & Hi & Hr & ->).
  unfold queue_update. destruct (String.eqb_spec i ""); [contradiction|].
  simpl. rewrite lookup_insert_eq, Hr. unfold set_queue. simpl.
  by rewrite insert_insert_eq.
Qed.

Lemma queue_update_ext docId f g w :
  (forall r, f r = g r) -> queue_update docId f w = queue_update docId g w.
Proof.
  intros E. unfold queue_update. destruct docId as [i|]; [|done].
  destruct (String.eqb i ""); [done|].
  destruct (patient_intake_queue w !! i); [|done]. by rewrite E.
Qed.

(** C2, as stated, fails: the second [markCompleted] stamps [completedAt]
    again, so the state after it differs from the state after the first. *)
Lemma C2_counterexample :
  exists w1 w2,
    markCompleted (Some "doc-a") "P-1001" 1000 Examples.one_processing = Some w1
    /\ markCompleted (Some "doc-a") "P-1001" 2000 w1 = Some w2
    /\ w2 <> w1.
Proof.
  eexists _, _. split; [reflexivity|]. split; [reflexivity|].
  intros E. apply (f_equal (fun w => Intake.completedAt <$> patient_intake_queue w !! "doc-a")) in E.
  vm_compute in E. discriminate.
Qed.

(** C2 (amended): a second [markCompleted] (or [markError]) with the same
    id and outcome is not an error and writes nothing but the time stamp:
    status, outcome field and every other field stay as the first call left
    them, and [completedAt] ([errorAt]) is stamped with the time of the
    second call; with the same clock reading the store is unchanged. *)
Theorem C2_terminal_update_repeated (docId : option string)
    (outcomeArg : string) (t1 t2 : Z) (w w1 : World) :
  (markCompleted docId outcomeArg t1 w = Some w1 ->
   is_Some (markCompleted docId outcomeArg t2 w1)
   /\ markCompleted docId outcomeArg t2 w1
      = queue_update docId (Intake.stamp_completedAt t2) w1
   /\ (t2 = t1 -> markCompleted docId outcomeArg t2 w1 = Some w1))
  /\
  (markError docId outcomeArg t1 w = Some w1 ->
   is_Some (markError docId outcomeArg t2 w1)
   /\ markError docId outcomeArg t2 w1
      = queue_update docId (Intake.stamp_errorAt t2) w1
   /\ (t2 = t1 -> markError docId outcomeArg t2 w1 = Some w1)).
Proof.
  unfold markCompleted, markError. split; intros H.
  - pose proof (queue_update_twice _ _ (Intake.complete outcomeArg t2) _ _ H) as E2.
    pose proof (queue_update_twice _ _ (Intake.stamp_completedAt t2) _ _ H) as E3.
    destruct (queue_update_lookup _ _ _ _ H) as (i & r & -> & Hi & Hr & Hw).
    split; [|split].
    + rewrite E2. unfold queue_update. destruct (String.eqb_spec i ""); [contradiction|].
      rewrite Hr. eauto.
    + rewrite E2, E3. by apply queue_update_ext.
    + intros ->. rewrite E2, <- H. by apply queue_update_ext.
  - pose proof (queue_update_twice _ _ (Intake.fail outcomeArg t2) _ _ H) as E2.
    pose proof (queue_update_twice _ _ (Intake.stamp_errorAt t2) _ _ H) as E3.
    destruct (queue_update_lookup _ _ _ _ H) as (i & r & -> & Hi & Hr & Hw).
    split; [|split].
    + rewrite E2. unfold queue_update. destruct (String.eqb_spec i ""); [contradiction|].
      rewrite Hr. eauto.
    + rewrite E2, E3. by apply queue_update_ext.
    + intros ->. rewrite E2, <- H. by apply queue_update_ext.
Qed.

Lemma C2_witness :
  exists w1 w1',
    markCompleted (Some "doc-a") "P-1001" 1000 Examples.one_processing = Some w1
    /\ markError (Some "doc-a") "boom" 1000 Examples.one_processing = Some w1'
    /\ markCompleted (Some "doc-a") "P-1001" 2000 w1
       = queue_update (Some "doc-a") (Intake.stamp_completedAt 2000) w1
    /\ markError (Some "doc-a") "boom" 2000 w1'
       = queue_update (Some "doc-a") (Intake.stamp_errorAt 2000) w1'.
Proof.
  eexists _, _. split; [reflexivity|]. split; [reflexivity|]. split.
  - apply (proj1 (C2_terminal_update_repeated (Some "doc-a") "P-1001" 1000 2000
                    Examples.one_processing _)).
    reflexivity.
  - apply (proj2 (C2_terminal_update_repeated (Some "doc-a") "boom" 1000 2000
                    Examples.one_processing _)).
    reflexivity.
Defined.

(** ** The patient-creation stage *)

Lemma formatDateForAthena_missing dob :
  JS.truthy dob = false -> formatDateForAthena dob = "".
Proof. unfold formatDateForAthena. by intros ->. Qed.

(** C5: with a stored credential, a create-patient message without date of
    birth makes [createAthenaPatient] throw the validation error; the intake
    document named by the message gets status [error] with the message
    recorded, and nothing is published to [book-appointment]. *)
Theorem C5_missing_dob_routes_to_error (secrets : Secrets)
    (athena_post : string -> list (string * string) -> outcome string)
    (patientData : PD.t) (now : Z) (w : World)
    (cred : Credential) (i : string) (r : Intake.t) :
  api_tokens w = Some cred ->
  JS.truthy (PD.dateOfBirth patientData) = false ->
  PD.id patientData = Some i -> i <> "" ->
  patient_intake_queue w !! i = Some r ->
  let res := createAthenaPatient secrets athena_post patientData now w in
  res.1 = Threw missing_fields_message
  /\ patient_intake_queue res.2 !! i
     = Some (Intake.fail missing_fields_message now r)
  /\ status_of res.2 i = Some "error"
  /\ Intake.error <$> patient_intake_queue res.2 !! i
     = Some (Some missing_fields_message)
  /\ topic_book_appointment res.2 = topic_book_appointment w.
Proof.
  intros Hcred Hdob Hid Hne Hr. simpl.
  unfold createAthenaPatient, create_try. rewrite Hcred.
  rewrite (formatDateForAthena_missing _ Hdob).
  replace (String.eqb "" "") with true by reflexivity.
  rewrite !orb_true_r. rewrite Hid.
  destruct (String.eqb_spec i ""); [contradiction|].
  unfold markError, queue_update.
  destruct (String.eqb_spec i ""); [contradiction|].
  simpl. rewrite Hr. simpl. unfold status_of. simpl.
  rewrite lookup_insert_eq. repeat split.
Qed.

Lemma C5_witness :
  let res :=
    createAthenaPatient Examples.secrets Examples.athena_ok
      (Examples.payload (Some "doc-a") None) 2000 Examples.one_processing in
  res.1 = Threw missing_fields_message
  /\ status_of res.2 "doc-a" = Some "error"
  /\ topic_book_appointment res.2 = [].
Proof.
  pose proof (C5_missing_dob_routes_to_error Examples.secrets Examples.athena_ok
                (Examples.payload (Some "doc-a") None) 2000
                Examples.one_processing Examples.credential "doc-a" _
                eq_refl eq_refl eq_refl ltac:(discriminate) eq_refl) as H.
  simpl in H. destruct H as (H1 & _ & H3 & _ & H5).
  repeat split; assumption.
Defined.

(** ** The receiver of cleaned data, part_000 *)

Lemma appointmentData_unbound body patientData :
  lookup_identifier (CleanedWebhook.scope_part_000 body patientData)
    "appointmentData"
  = Threw "appointmentData is not defined".
Proof. reflexivity. Qed.

(** C10: the handler of part_000 answers 500 with [success: false] on every
    request, so its 200 answer is unreachable; when the document was added to
    the intake queue, the error is the reference to the undeclared
    [appointmentData] and the added document stays in the queue. *)
Theorem C10_cleaned_webhook_always_500 (body : Body) (now : Z)
    (newId : string) (w : World) :
  let res := CleanedWebhook.blandWebhook_part_000 body now newId w in
  code res.1 = 500%Z
  /\ (exists error, json res.1 = Failure error None)
  /\ (CleanedWebhook.accepted_by_firestore body = true ->
      exists variables,
        destructured_variables body = Some variables
        /\ json res.1 = Failure "appointmentData is not defined" None
        /\ patient_intake_queue res.2 !! newId
           = Some (Intake.fresh
                     (CleanedWebhook.build_patientData body variables) now None)
        /\ topic_process_patient_queue res.2 = topic_process_patient_queue w).
Proof.
  simpl. unfold CleanedWebhook.blandWebhook_part_000,
    CleanedWebhook.accepted_by_firestore.
  destruct (destructured_variables body) as [variables|].
  2:{ split; [done|]. split; [eauto|]. discriminate. }
  rewrite appointmentData_unbound.
  destruct (all_defined _); simpl.
  - split; [done|]. split; [eauto|]. intros _. exists variables.
    split; [done|]. split; [done|]. split; [|done]. by rewrite lookup_insert_eq.
  - split; [done|]. split; [eauto|]. discriminate.
Qed.

Lemma C10_witness :
  let res :=
    CleanedWebhook.blandWebhook_part_000 Examples.body_complete 100 "doc-b"
      empty_world in
  exists variables,
    destructured_variables Examples.body_complete = Some variables
    /\ json res.1 = Failure "appointmentData is not defined" None
    /\ patient_intake_queue res.2 !! "doc-b"
       = Some (Intake.fresh
                 (CleanedWebhook.build_patientData Examples.body_complete
                    variables) 100 None)
    /\ topic_process_patient_queue res.2 = [].
Proof.
  apply (C10_cleaned_webhook_always_500 Examples.body_complete 100 "doc-b"
           empty_world).
  vm_compute. reflexivity.
Defined.

(** The sibling handler of part_001 answers 200 on the same request. *)
Example part_001_accepts :
  code (CleanedWebhook.blandWebhook_part_001 Examples.body_complete 100 "doc-b"
          empty_world).1 = 200%Z.
Proof. reflexivity. Qed.
(** ** The webhook receiver of src/functions/bland-webhook *)

Section Webhook.
Context (rt : JSDate.Runtime).

Lemma completed_false body :
  status body <> JS.Val "completed" -> status body <> JS.Val "success" ->
  BlandWebhook.completed body = false.
Proof.
  unfold BlandWebhook.completed. destruct (status body) as [| |s]; [done..|].
  intros H1 H2.
  destruct (String.eqb_spec s "completed") as [->|_]; [done|].
  destruct (String.eqb_spec s "success") as [->|_]; done.
Qed.

(** A call that is not completed: the failed call is recorded when the
    body carries [call_id] and [status]. *)
Lemma blandWebhook_not_completed body now hour newId w :
  BlandWebhook.completed body = false ->
  BlandWebhook.blandWebhook rt body now hour newId w
  = if all_defined [call_id body; status body]
    then ({| code := 200; json := NotProcessed "Call not completed" |},
          add_failed_call
            (JS.nullable (call_id body), JS.nullable (status body), now) w)
    else ({| code := 500; json := Failure "Processing error" None |},
          add_webhook_error (UNDEFINED_VALUE, now) w).
Proof.
  intros H. unfold BlandWebhook.blandWebhook, BlandWebhook.webhook_try.
  rewrite H. cbn [negb]. by destruct (all_defined _).
Qed.

(** A completed call whose variables are [null]. *)
Lemma blandWebhook_null_variables body now hour newId w :
  BlandWebhook.completed body = true ->
  destructured_variables body = None ->
  BlandWebhook.blandWebhook rt body now hour newId w
  = ({| code := 500; json := Failure "Processing error" None |},
     add_webhook_error (cannot_read "null" "first_name", now) w).
Proof.
  intros H Hv. unfold BlandWebhook.blandWebhook, BlandWebhook.webhook_try.
  by rewrite H, Hv.
Qed.

(** A completed call whose data fail the validation: the incomplete record
    is written when the body carries [call_id] and [pathway_id]. *)
Lemma blandWebhook_incomplete body variables now hour newId w :
  BlandWebhook.completed body = true ->
  destructured_variables body = Some variables ->
  BlandWebhook.validation_errors
    (BlandWebhook.build_patientData rt body variables) <> [] ->
  BlandWebhook.blandWebhook rt body now hour newId w
  = if all_defined [call_id body; pathway_id body]
    then ({| code := 200;
             json := Incomplete
                       (BlandWebhook.validation_errors
                          (BlandWebhook.build_patientData rt body variables)) |},
          add_incomplete
            (JS.nullable (call_id body),
             BlandWebhook.validation_errors
               (BlandWebhook.build_patientData rt body variables), now) w)
    else ({| code := 500; json := Failure "Processing error" None |},
          add_webhook_error (UNDEFINED_VALUE, now) w).
Proof.
  intros H Hv He. unfold BlandWebhook.blandWebhook, BlandWebhook.webhook_try.
  rewrite H, Hv. cbn [negb].
  destruct (BlandWebhook.validation_errors _); [done|].
  by destruct (all_defined _).
Qed.

Lemma validation_errors_nonempty pd :
  JS.truthy (PD.firstName pd) = false
  \/ JS.truthy (PD.lastName pd) = false
  \/ JS.truthy (PD.dateOfBirth pd) = false
  \/ (JS.truthy (PD.email pd) = false /\ JS.truthy (PD.phone pd) = false
      /\ JS.truthy (PD.zip pd) = false) ->
  BlandWebhook.validation_errors pd <> [].
Proof.
  unfold BlandWebhook.validation_errors.
  intros [H|[H|[H|(H1 & H2 & H3)]]].
  - rewrite H. discriminate.
  - rewrite H. destruct (JS.truthy (PD.firstName pd)); discriminate.
  - rewrite H. destruct (JS.truthy (PD.firstName pd)), (JS.truthy (PD.lastName pd));
      discriminate.
  - rewrite H1, H2, H3.
    destruct (JS.truthy (PD.firstName pd)), (JS.truthy (PD.lastName pd)),
      (JS.truthy (PD.dateOfBirth pd)); discriminate.
Qed.

(** C4 (amended): a POST whose status is neither [completed] nor [success],
    or whose variables are [null], or from which the handler derives no
    first name ([first_name] or [firstName]), no last name, no parseable
    date of birth, or no contact information at all (no email, no valid
    phone number in the variables or in the body's [phone_number], no zip in
    the variables or in the address) leaves the intake queue as it was.  It
    is answered 200 with [processed: false] (a reason or the list of errors)
    exactly when Firestore takes the record the handler writes of it: the
    body carries [call_id] and, if the call is not completed, [status], and,
    if it is, [pathway_id] and variables that are not [null].  Otherwise the
    [catch] block records the error in [webhook_errors] and answers 500. *)
Theorem C4_rejected_posts_create_nothing (body : Body) (now hour : Z)
    (newId : string) (w : World) :
  (status body <> JS.Val "completed" /\ status body <> JS.Val "success")
  \/ variables body = JS.Null
  \/ (exists variables,
        destructured_variables body = Some variables
        /\ let v (k : string) : option string :=
             JS.nullable (JS.read variables k) in
           first_truthy [v "first_name"; v "firstName"] "" = ""
           \/ first_truthy [v "last_name"; v "lastName"] "" = ""
           \/ parseDate rt
                (JS.or_else (JS.or_else (v "date_of_birth") (v "dob"))
                   (v "birthdate"))
              = None
           \/ (first_truthy [v "email"] "" = ""
               /\ parsePhoneNumber (JS.or_else (v "phone") (phone_number body))
                  = ""
               /\ first_truthy [v "zip"; addrZip (parseAddress (v "address"))] ""
                  = "")) ->
  let res := BlandWebhook.blandWebhook rt body now hour newId w in
  patient_intake_queue res.2 = patient_intake_queue w
  /\ ((code res.1 = 200%Z
       /\ (json res.1 = NotProcessed "Call not completed"
           \/ exists errors, errors <> [] /\ json res.1 = Incomplete errors)
       /\ webhook_errors res.2 = webhook_errors w)
      \/ (res.1 = {| code := 500; json := Failure "Processing error" None |}
          /\ exists message,
               webhook_errors res.2
               = (webhook_errors w ++ [(message, now)])%list))
  /\ (code res.1 = 200%Z <->
      JS.defined (call_id body) = true
      /\ if BlandWebhook.completed body
         then variables body <> JS.Null
              /\ JS.defined (pathway_id body) = true
         else JS.defined (status body) = true).
Proof.
  intros H. cbn zeta.
  destruct (BlandWebhook.completed body) eqn:Hc.
  - (* a completed call *)
    assert (Hrej : variables body = JS.Null
              \/ exists vars,
                   destructured_variables body = Some vars
                   /\ BlandWebhook.validation_errors
                        (BlandWebhook.build_patientData rt body vars)
                      <> []).
    { destruct H as [[H1 H2]|[H|(vars & Hv & H)]]; [|by left|].
      - by rewrite (completed_false body H1 H2) in Hc.
      - right. exists vars. split; [done|].
        apply validation_errors_nonempty. cbn zeta in H.
        unfold BlandWebhook.build_patientData.
        cbn [PD.firstName PD.lastName PD.dateOfBirth PD.email PD.phone PD.zip].
        destruct H as [H|[H|[H|(H1 & H2 & H3)]]].
        + left. by rewrite H.
        + right; left. by rewrite H.
        + right; right; left. by rewrite H.
        + right; right; right. by rewrite H1, H2, H3. }
    destruct Hrej as [Hnull|(vars & Hv & He)].
    + rewrite (blandWebhook_null_variables body now hour newId w Hc)
        by (unfold destructured_variables; by rewrite Hnull).
      cbn. split; [done|]. split; [right; eauto|].
      split; [done|]. by intros (_ & ? & _).
    + assert (Hnn : variables body <> JS.Null).
      { intros E. unfold destructured_variables in Hv. by rewrite E in Hv. }
      rewrite (blandWebhook_incomplete body vars now hour newId w Hc Hv He).
      cbn [all_defined forallb]. rewrite andb_true_r.
      destruct (JS.defined (call_id body)), (JS.defined (pathway_id body));
        cbn [andb fst snd code json webhook_errors add_incomplete
             add_webhook_error patient_intake_queue].
      * split; [done|]. split.
        { left. split; [done|]. split; [|done]. right. eauto. }
        split; [|done]. intros _. by split.
      * split; [done|]. split; [right; eauto|]. split; [done|].
        by intros (_ & _ & ?).
      * split; [done|]. split; [right; eauto|]. split; [done|].
        by intros (? & _).
      * split; [done|]. split; [right; eauto|]. split; [done|].
        by intros (? & _).
  - (* a call that is not completed *)
    rewrite (blandWebhook_not_completed body now hour newId w Hc).
    cbn [all_defined forallb]. rewrite andb_true_r.
    destruct (JS.defined (call_id body)), (JS.defined (status body)); cbn.
    + split; [done|]. split; [left; eauto|]. done.
    + split; [done|]. split; [right; eauto|]. split; [done|].
      by intros (_ & ?).
    + split; [done|]. split; [right; eauto|]. split; [done|].
      by intros (? & _).
    + split; [done|]. split; [right; eauto|]. split; [done|].
      by intros (? & _).
Qed.

End Webhook.

(** C4, as stated, fails in two ways.  The variables of the first completed
    call lack email, phone and zip, yet the caller's number in the body
    counts as contact information and the document is enqueued.  The
    variables of the second completed call are [null]: reading the first
    name throws, and the call is answered 500, not 200. *)
Lemma C4_counterexample :
  let res :=
    BlandWebhook.blandWebhook (ReferenceEngine.runtime 0)
      Examples.body_caller_number 100 12 "doc-c" empty_world in
  let res' :=
    BlandWebhook.blandWebhook (ReferenceEngine.runtime 0)
      Examples.body_null_variables 100 12 "doc-c" empty_world in
  (variables Examples.body_caller_number = JS.Val Examples.vars_caller_number
   /\ Examples.vars_caller_number !! "email" = None
   /\ Examples.vars_caller_number !! "phone" = None
   /\ Examples.vars_caller_number !! "zip" = None
   /\ json res.1 = Accepted "Patient intake received" "doc-c" None
   /\ status_of res.2 "doc-c" = Some "pending")
  /\ (variables Examples.body_null_variables = JS.Null
      /\ res'.1 = {| code := 500; json := Failure "Processing error" None |}
      /\ webhook_errors res'.2
         = [("Cannot read properties of null (reading 'first_name')", 100%Z)]).
Proof. vm_compute. repeat split. Qed.

Lemma C4_witness :
  let res :=
    BlandWebhook.blandWebhook (ReferenceEngine.runtime 0)
      Examples.body_no_answer 100 12 "doc-c" empty_world in
  patient_intake_queue res.2 = patient_intake_queue empty_world
  /\ code res.1 = 200%Z.
Proof.
  destruct (C4_rejected_posts_create_nothing (ReferenceEngine.runtime 0)
              Examples.body_no_answer 100 12 "doc-c" empty_world)
    as (Hq & _ & Hc).
  - left. split; discriminate.
  - split; [exact Hq|]. apply Hc. split; reflexivity.
Defined.

Example webhook_missing_dob :
  json (BlandWebhook.blandWebhook (ReferenceEngine.runtime 0)
          {| call_id := JS.Val "call-4"; pathway_id := JS.Val "p";
             status := JS.Val "completed"; phone_number := None;
             variables :=
               JS.Val (list_to_map [("first_name", Some "A");
                                    ("last_name", Some "B");
                                    ("zip", Some "89101")]) |}
          100 12 "doc-d" empty_world).1
  = Incomplete ["Missing date of birth"].
Proof. vm_compute. reflexivity. Qed.

(** ** The intake processor *)

Lemma ref_update_Some i f w r :
  patient_intake_queue w !! i = Some r ->
  ref_update i f w = Some (set_queue (<[i := f r]> (patient_intake_queue w)) w).
Proof. unfold ref_update. by intros ->. Qed.

Lemma ref_update_inv i f w w' :
  ref_update i f w = Some w' ->
  exists r, patient_intake_queue w !! i = Some r
    /\ w' = set_queue (<[i := f r]> (patient_intake_queue w)) w.
Proof.
  unfold ref_update. destruct (patient_intake_queue w !! i) as [r|]; [|done].
  intros [= <-]. eauto.
Qed.

Lemma claim_claim now r : Intake.claim now (Intake.claim now r) = Intake.claim now r.
Proof. reflexivity. Qed.

Lemma requeue_requeue r : Intake.requeue (Intake.requeue r) = Intake.requeue r.
Proof. reflexivity. Qed.

(** The loop of the processor on a snapshot whose documents all exist. *)
Lemma claim_docs_present now docs : forall c w,
  (forall kv, kv ∈ docs -> is_Some (patient_intake_queue w !! kv.1)) ->
  exists w',
    claim_docs docs now c w = (Returned (c + Z.of_nat (length docs))%Z, w')
    /\ (forall j, patient_intake_queue w' !! j
                  = if decide (j ∈ docs.*1)
                    then Intake.claim now <$> patient_intake_queue w !! j
                    else patient_intake_queue w !! j)
    /\ topic_create_patient w'
       = (topic_create_patient w
          ++ map (fun kv => claim_message kv.1 kv.2) docs)%list.
Proof.
  induction docs as [|[i r] docs IH]; intros c w Hpres.
  - exists w. cbn [claim_docs length map]. rewrite Z.add_0_r, app_nil_r.
    split; [done|]. split; [|done].
    intros j. rewrite decide_False; [done|]. apply not_elem_of_nil.
  - destruct (Hpres (i, r)) as [r0 Hr0]; [apply elem_of_cons; by left|].
    simpl in Hr0. simpl claim_docs. rewrite (ref_update_Some _ _ _ _ Hr0).
    set (w1 := publish_create_patient _ _).
    destruct (IH (c + 1)%Z w1) as (w' & Hrun & Hq & Ht).
    { intros kv Hkv. subst w1. simpl.
      destruct (decide (i = kv.1)) as [->|Hne].
      - rewrite lookup_insert_eq. eauto.
      - rewrite lookup_insert_ne by done. apply Hpres, elem_of_cons. by right. }
    exists w'. split; [|split].
    + rewrite Hrun. f_equal. f_equal. simpl length. lia.
    + intros j. rewrite Hq. subst w1. cbn [publish_create_patient set_queue patient_intake_queue].
      rewrite fmap_cons. cbn [fst].
      destruct (decide (i = j)) as [->|Hne].
      * rewrite lookup_insert_eq, Hr0.
        rewrite (decide_True (P := j ∈ j :: docs.*1)) by (apply elem_of_cons; by left).
        by case_decide.
      * rewrite lookup_insert_ne by done.
        destruct (decide (j ∈ docs.*1)) as [H1|H1].
        -- rewrite decide_True; [done|]. apply elem_of_cons. by right.
        -- rewrite decide_False; [done|]. intros [->|H2]%elem_of_cons; done.
    + rewrite Ht. subst w1. cbn [publish_create_patient set_queue topic_create_patient map fst snd].
      by rewrite <- app_assoc.
Qed.

Lemma query_pending_elem w i r :
  (i, r) ∈ query_pending w ->
  patient_intake_queue w !! i = Some r /\ Intake.status r = "pending".
Proof.
  unfold query_pending. intros H. apply subseteq_take in H.
  apply list_elem_of_filter in H as [Hs H].
  apply elem_of_map_to_list in H. done.
Qed.




(** ** What one run of a handler does to the intake queue and to the
    [create-patient] topic *)

Lemma claim_docs_queue now docs : forall c w j,
  queue (claim_docs docs now c w).2 !! j = queue w !! j
  \/ exists r, queue w !! j = Some r
       /\ queue (claim_docs docs now c w).2 !! j = Some (Intake.claim now r).
Proof.
  induction docs as [|[i r] docs IH]; intros c w j; [by left|].
  cbn [claim_docs]. destruct (ref_update i _ w) as [w1|] eqn:E; [|by left].
  apply ref_update_inv in E as (r0 & Hr0 & ->).
  set (w1 := publish_create_patient _ _).
  assert (Hq1 : queue w1 = <[i := Intake.claim now r0]> (queue w)) by done.
  destruct (IH (c + 1)%Z w1 j) as [H|(r1 & H1 & H2)].
  - rewrite H, Hq1. destruct (decide (i = j)) as [->|Hne].
    + rewrite lookup_insert_eq. right. eauto.
    + rewrite lookup_insert_ne by done. by left.
  - rewrite H2. rewrite Hq1 in H1. destruct (decide (i = j)) as [->|Hne].
    + rewrite lookup_insert_eq in H1. injection H1 as <-. right. eauto.
    + rewrite lookup_insert_ne in H1 by done. right. eauto.
Qed.

Lemma claim_docs_keeps_processing now docs c w i :
  status_of w i = Some "processing" ->
  status_of (claim_docs docs now c w).2 i = Some "processing".
Proof.
  unfold status_of. intros H.
  destruct (claim_docs_queue now docs c w i) as [->|(r & Hr & ->)]; [done|].
  reflexivity.
Qed.

Lemma claim_docs_topic now docs : forall c w,
  exists msgs,
    topic_create_patient (claim_docs docs now c w).2
    = (topic_create_patient w ++ msgs)%list
    /\ forall m, m ∈ msgs -> exists i r,
         (i, r) ∈ docs /\ m = claim_message i r
         /\ status_of (claim_docs docs now c w).2 i = Some "processing".
Proof.
  induction docs as [|[i r] docs IH]; intros c w.
  - exists []. cbn [claim_docs snd]. rewrite app_nil_r. split; [done|].
    intros m Hm. by apply elem_of_nil in Hm.
  - cbn [claim_docs]. destruct (ref_update i _ w) as [w1|] eqn:E.
    + apply ref_update_inv in E as (r0 & Hr0 & ->).
      set (w1 := publish_create_patient _ _).
      destruct (IH (c + 1)%Z w1) as (msgs & Ht & Hm).
      exists (claim_message i r :: msgs). split.
      * rewrite Ht. subst w1. cbn [publish_create_patient topic_create_patient].
        by rewrite <- app_assoc.
      * intros m [->|Hin]%elem_of_cons.
        -- exists i, r. split; [apply elem_of_cons; by left|]. split; [done|].
           apply claim_docs_keeps_processing. subst w1. unfold status_of.
           cbn [publish_create_patient set_queue patient_intake_queue].
           by rewrite lookup_insert_eq.
        -- destruct (Hm m Hin) as (i' & r' & H1 & H2 & H3).
           exists i', r'. split; [apply elem_of_cons; by right|]. done.
    + exists []. cbn [snd]. rewrite app_nil_r. split; [done|].
      intros m Hm. by apply elem_of_nil in Hm.
Qed.

Lemma processSnapshot_queue docs now w j :
  queue (processSnapshot docs now w).2 !! j = queue w !! j
  \/ exists r, queue w !! j = Some r
       /\ queue (processSnapshot docs now w).2 !! j = Some (Intake.claim now r).
Proof.
  unfold processSnapshot. destruct docs as [|kv docs]; [by left|].
  pose proof (claim_docs_queue now (kv :: docs) 0 w j) as H.
  destruct (claim_docs (kv :: docs) now 0 w) as [[n|msg] w']; exact H.
Qed.

Lemma processSnapshot_topic docs now w :
  exists msgs,
    topic_create_patient (processSnapshot docs now w).2
    = (topic_create_patient w ++ msgs)%list
    /\ forall m, m ∈ msgs -> exists i r,
         (i, r) ∈ docs /\ m = claim_message i r
         /\ status_of (processSnapshot docs now w).2 i = Some "processing".
Proof.
  unfold processSnapshot. destruct docs as [|kv docs].
  - exists []. cbn [snd]. rewrite app_nil_r. split; [done|].
    intros m Hm. by apply elem_of_nil in Hm.
  - pose proof (claim_docs_topic now (kv :: docs) 0 w) as H.
    destruct (claim_docs (kv :: docs) now 0 w) as [[n|msg] w']; exact H.
Qed.

(** *** The reconciler *)

Lemma requeue_docs_queue ago docs : forall w j,
  queue (requeue_docs docs ago w).2 !! j = queue w !! j
  \/ exists r, queue w !! j = Some r
       /\ queue (requeue_docs docs ago w).2 !! j = Some (Intake.requeue r).
Proof.
  assert (Hstep : forall i w w1 j,
    ref_update i Intake.requeue w = Some w1 ->
    (queue w1 !! j = queue w !! j
     \/ exists r, queue w !! j = Some r /\ queue w1 !! j = Some (Intake.requeue r))).
  { intros i w w1 j (r0 & Hr0 & ->)%ref_update_inv.
    cbn [set_queue patient_intake_queue]. destruct (decide (i = j)) as [->|Hne].
    - rewrite lookup_insert_eq. right. eauto.
    - rewrite lookup_insert_ne by done. by left. }
  assert (Hcomp : forall w w1 w2 j,
    (queue w1 !! j = queue w !! j
     \/ exists r, queue w !! j = Some r /\ queue w1 !! j = Some (Intake.requeue r)) ->
    (queue w2 !! j = queue w1 !! j
     \/ exists r, queue w1 !! j = Some r /\ queue w2 !! j = Some (Intake.requeue r)) ->
    (queue w2 !! j = queue w !! j
     \/ exists r, queue w !! j = Some r /\ queue w2 !! j = Some (Intake.requeue r))).
  { intros w w1 w2 j [H1|(r & H1 & H1')] [H2|(r' & H2 & H2')].
    - left. congruence.
    - right. exists r'. split; congruence.
    - right. exists r. split; congruence.
    - right. exists r. split; [done|]. rewrite H2'. rewrite H1' in H2.
      injection H2 as <-. done. }
  induction docs as [|[i r] docs IH]; intros w j; [by left|].
  cbn [requeue_docs].
  destruct (String.eqb (Intake.status r) "error").
  - destruct (ref_update i _ w) as [w1|] eqn:E; [|by left].
    eapply Hcomp; [eapply Hstep, E|apply IH].
  - destruct (String.eqb (Intake.status r) "processing"); [|apply IH].
    destruct (Intake.processingStarted r) as [t|]; [|by left].
    destruct (t <? ago)%Z; [|apply IH].
    destruct (ref_update i _ w) as [w1|] eqn:E; [|by left].
    eapply Hcomp; [eapply Hstep, E|apply IH].
Qed.

Lemma requeue_docs_topic ago docs : forall w,
  topic_create_patient (requeue_docs docs ago w).2 = topic_create_patient w.
Proof.
  induction docs as [|[i r] docs IH]; intros w; [done|].
  cbn [requeue_docs].
  assert (Hu : forall w1, ref_update i Intake.requeue w = Some w1 ->
                 topic_create_patient w1 = topic_create_patient w).
  { intros w1 (r0 & _ & ->)%ref_update_inv. done. }
  destruct (String.eqb (Intake.status r) "error").
  - destruct (ref_update i _ w) as [w1|] eqn:E; [|done].
    rewrite IH. by apply Hu.
  - destruct (String.eqb (Intake.status r) "processing"); [|apply IH].
    destruct (Intake.processingStarted r) as [t|]; [|done].
    destruct (t <? ago)%Z; [|apply IH].
    destruct (ref_update i _ w) as [w1|] eqn:E; [|done].
    rewrite IH. by apply Hu.
Qed.

(** *** The patient creator *)

Section CreatorEffects.
Context (secrets : Secrets).
Context (athena_post : string -> list (string * string) -> outcome string).

Lemma create_try_effect patientData now w :
  let res := create_try secrets athena_post patientData now w in
  topic_create_patient res.2 = topic_create_patient w
  /\ (queue res.2 = queue w
      \/ exists i r pid,
           PD.id patientData = Some i /\ queue w !! i = Some r
           /\ res.1 = Returned {| createSuccess := true; createdPatientId := pid |}
           /\ queue res.2 = <[i := Intake.complete pid now r]> (queue w)).
Proof.
  cbn zeta. unfold create_try.
  destruct (api_tokens w) as [tok|]; [|cbn; auto].
  destruct (_ || _); [cbn; auto|].
  destruct (_ && _); [cbn; auto|].
  destruct (athena_post _ _) as [pid|msg]; [|cbn; auto].
  destruct (negb (JS.truthy (PD.id patientData))); [cbn; auto|].
  destruct (markCompleted _ _ _ _) as [w2|] eqn:E; [|cbn; auto].
  unfold markCompleted in E.
  apply queue_update_lookup in E as (i & r & Hid & Hne & Hr & ->).
  cbn [fst snd]. destruct (JS.truthy (PD.appointmentId patientData));
    (split; [done|]); right; exists i, r, pid; done.
Qed.

Lemma createAthenaPatient_effect patientData now w :
  let res := createAthenaPatient secrets athena_post patientData now w in
  topic_create_patient res.2 = topic_create_patient w
  /\ forall j,
       queue res.2 !! j = queue w !! j
       \/ (PD.id patientData = Some j
           /\ exists r, queue w !! j = Some r
                /\ ((exists pid, queue res.2 !! j = Some (Intake.complete pid now r))
                    \/ (exists message,
                          queue res.2 !! j = Some (Intake.fail message now r)))).
Proof.
  cbn zeta. unfold createAthenaPatient.
  destruct (create_try_effect patientData now w) as (Ht & Hq).
  destruct (create_try secrets athena_post patientData now w) as [[res|msg] w1].
  - cbn [fst snd] in *. split; [done|]. intros j.
    destruct Hq as [->|(i & r & pid & Hid & Hr & _ & ->)]; [by left|].
    destruct (decide (i = j)) as [->|Hne].
    + rewrite lookup_insert_eq. right. split; [done|]. exists r. split; [done|].
      left. eauto.
    + rewrite lookup_insert_ne by done. by left.
  - cbn [fst snd] in *.
    destruct Hq as [Hq|(i & r & pid & _ & _ & Hres & _)]; [|discriminate].
    destruct (PD.id patientData) as [i|] eqn:Hid; [|cbn; rewrite Hq; auto].
    destruct (String.eqb i ""); [cbn; rewrite Hq; auto|].
    destruct (markError _ _ _ _) as [w2|] eqn:E; [|cbn; rewrite Hq; auto].
    unfold markError in E.
    apply queue_update_lookup in E as (i' & r & [= <-] & Hne & Hr & ->).
    cbn in Hr |- *. split; [done|]. intros j.
    destruct (decide (i = j)) as [->|Hne'].
    + rewrite lookup_insert_eq. right. split; [done|]. rewrite Hq in Hr.
      exists r. split; [done|]. right. eauto.
    + rewrite lookup_insert_ne by done. rewrite Hq. by left.
Qed.

End CreatorEffects.

(** *** The appointment booker *)

Lemma bookAppointment_effect secrets athena_put data now w :
  let res := bookAppointment secrets athena_put data now w in
  topic_create_patient res.2 = topic_create_patient w
  /\ forall j,
       queue res.2 !! j = queue w !! j
       \/ exists r conf, queue w !! j = Some r
            /\ queue res.2 !! j = Some (Intake.booked now conf r).
Proof.
  cbn zeta. unfold bookAppointment, book_try.
  destruct (api_tokens w); [|cbn; auto].
  destruct (athena_put _ _) as [conf|msg]; [|cbn; auto].
  destruct (JS.truthy (originalRecordId data)); [|cbn; auto].
  destruct (queue_update _ _ _) as [w1|] eqn:E; [|cbn; auto].
  apply queue_update_lookup in E as (i & r & Hid & Hne & Hr & ->).
  cbn. split; [done|]. intros j. destruct (decide (i = j)) as [->|Hne'].
  - rewrite lookup_insert_eq. right. eauto.
  - rewrite lookup_insert_ne by done. by left.
Qed.

(** *** The webhook receivers *)

Lemma blandWebhook_effect rt body now hour newId w :
  let res := BlandWebhook.blandWebhook rt body now hour newId w in
  topic_create_patient res.2 = topic_create_patient w
  /\ (queue res.2 = queue w
      \/ exists pd, PD.id pd = None
           /\ queue res.2 = <[newId := Intake.fresh pd now None]> (queue w)).
Proof.
  cbn zeta. unfold BlandWebhook.blandWebhook, BlandWebhook.webhook_try.
  destruct (negb (BlandWebhook.completed body)).
  { destruct (negb (all_defined _)); cbn; auto. }
  destruct (destructured_variables body) as [vars|]; [|cbn; auto].
  destruct (BlandWebhook.validation_errors _).
  2:{ destruct (negb (all_defined _)); cbn; auto. }
  destruct (negb (all_defined _)); [cbn; auto|].
  destruct (_ && _)%Z; (split; [done|]); right;
    exists (BlandWebhook.build_patientData rt body vars); split; reflexivity.
Qed.

Lemma blandWebhook_handler_effect secret expected req now w :
  let res := BlandWebhookHandler.blandWebhook secret expected req now w in
  queue res.2 = queue w
  \/ exists i pd, queue res.2 = <[i := Intake.fresh pd now (Some 0%Z)]> (queue w).
Proof.
  cbn zeta. unfold BlandWebhookHandler.blandWebhook, BlandWebhookHandler.failed.
  destruct (_ && _); [cbn; auto|].
  destruct (variables _); [cbn; auto..|].
  destruct (negb _); cbn; eauto.
Qed.

Lemma blandWebhook_part_000_effect body now newId w :
  let res := CleanedWebhook.blandWebhook_part_000 body now newId w in
  topic_create_patient res.2 = topic_create_patient w
  /\ (queue res.2 = queue w
      \/ exists pd, PD.id pd = None
           /\ queue res.2 = <[newId := Intake.fresh pd now None]> (queue w)).
Proof.
  cbn zeta. unfold CleanedWebhook.blandWebhook_part_000.
  destruct (destructured_variables body) as [vars|]; [|cbn; auto].
  rewrite appointmentData_unbound.
  destruct (negb _); (split; [done|]); [by left|right].
  exists (CleanedWebhook.build_patientData body vars); split; reflexivity.
Qed.

Lemma blandWebhook_part_001_effect body now newId w :
  let res := CleanedWebhook.blandWebhook_part_001 body now newId w in
  topic_create_patient res.2 = topic_create_patient w
  /\ (queue res.2 = queue w
      \/ exists pd, PD.id pd = None
           /\ queue res.2 = <[newId := Intake.fresh pd now None]> (queue w)).
Proof.
  cbn zeta. unfold CleanedWebhook.blandWebhook_part_001.
  destruct (destructured_variables body) as [vars|]; [|cbn; auto].
  destruct (negb _); (split; [done|]); [by left|right].
  exists (CleanedWebhook.build_patientData body vars); split; reflexivity.
Qed.

(** ** Invariants of the intake queue *)

Lemma insert_doc_evolves (q : gmap string Intake.t) i j pd now retry :
  doc_evolves (q !! j) (<[i := Intake.fresh pd now retry]> q !! j).
Proof.
  destruct (decide (i = j)) as [->|Hne].
  - rewrite lookup_insert_eq. constructor.
  - rewrite lookup_insert_ne by done. constructor.
Qed.

(** Every run of every handler changes a document in one of the ways of
    [doc_evolves]. *)
Lemma exec_doc_evolves o w j : doc_evolves (queue w !! j) (queue (exec o w) !! j).
Proof.
  destruct o; cbn [exec].
  - destruct (blandWebhook_effect rt body now hour newId w) as (_ & [->|(pd & _ & ->)]);
      [constructor|apply insert_doc_evolves].
  - destruct (blandWebhook_handler_effect webhookSecret expected req now w)
      as [->|(i & pd & ->)]; [constructor|apply insert_doc_evolves].
  - destruct (blandWebhook_part_000_effect body now newId w) as (_ & [->|(pd & _ & ->)]);
      [constructor|apply insert_doc_evolves].
  - destruct (blandWebhook_part_001_effect body now newId w) as (_ & [->|(pd & _ & ->)]);
      [constructor|apply insert_doc_evolves].
  - destruct (processSnapshot_queue (query_pending w) now w j) as [H|(r & Hr & H)];
      unfold processIntakeQueue; rewrite H; [constructor|rewrite Hr; constructor].
  - destruct (createAthenaPatient_effect secrets athena_post message now w) as (_ & Hq).
    destruct (Hq j) as [->|(_ & r & Hr & [[pid ->]|[msg ->]])];
      [constructor|rewrite Hr; constructor..].
  - destruct (bookAppointment_effect secrets athena_put message now w) as (_ & Hq).
    destruct (Hq j) as [->|(r & conf & Hr & ->)]; [constructor|rewrite Hr; constructor].
  - unfold reprocessFailedIntakes.
    destruct (requeue_docs_queue (now - 15 * 60 * 1000) (query_failed w) w j)
      as [->|(r & Hr & ->)]; [constructor|rewrite Hr; constructor].
  - destruct (refreshAthenaToken_queue fetched now w) as [-> _]. constructor.
Qed.

Lemma doc_evolves_ok o o' :
  doc_evolves o o' ->
  (forall r, o = Some r -> doc_ok r) -> forall r', o' = Some r' -> doc_ok r'.
Proof.
  unfold doc_ok, valid_status.
  intros [o1|o1 pd now retry|r now|r pid now|r message now|r|r now conf] Hok r' E.
  - by apply Hok.
  - injection E as <-. cbn. split; [tauto|discriminate].
  - injection E as <-. cbn. split; [tauto|eauto].
  - injection E as <-. cbn. split; [tauto|discriminate].
  - injection E as <-. cbn. split; [tauto|discriminate].
  - injection E as <-. cbn. split; [tauto|discriminate].
  - injection E as <-. cbn. exact (Hok r eq_refl).
Qed.

Lemma exec_queue_ok o w : queue_ok w -> queue_ok (exec o w).
Proof.
  intros Hok j r' Hr'.
  eapply (doc_evolves_ok _ _ (exec_doc_evolves o w j)); [|exact Hr'].
  intros r Hr. by eapply Hok.
Qed.

Lemma history_queue_ok allowed hist :
  history allowed hist -> forall w, w ∈ hist -> queue_ok w.
Proof.
  induction 1 as [|o w past Hh IH Ha He]; intros w' Hw'.
  - apply list_elem_of_singleton in Hw' as ->. intros i r Hr.
    unfold empty_world in Hr. cbn [patient_intake_queue] in Hr.
    by rewrite lookup_empty in Hr.
  - apply elem_of_cons in Hw' as [->|Hw']; [|by apply IH].
    apply exec_queue_ok, IH, elem_of_cons. by left.
Qed.

Lemma reachable_queue_ok w : reachable w -> queue_ok w.
Proof.
  intros [past H]. eapply history_queue_ok; [exact H|]. apply elem_of_cons. by left.
Qed.

(** ** The reconciler *)

Lemma query_failed_elem w i r :
  (i, r) ∈ query_failed w <->
  queue w !! i = Some r
  /\ (Intake.status r = "error" \/ Intake.status r = "processing").
Proof.
  unfold query_failed. rewrite list_elem_of_filter, elem_of_map_to_list.
  cbn. tauto.
Qed.

Lemma needs_requeue_status ago r :
  needs_requeue ago r = true ->
  Intake.status r = "error" \/ Intake.status r = "processing".
Proof.
  unfold needs_requeue.
  destruct (String.eqb_spec (Intake.status r) "error"); [by left|].
  destruct (String.eqb_spec (Intake.status r) "processing"); [by right|].
  discriminate.
Qed.

(** The loop of the reconciler on a snapshot whose documents all exist and
    are well formed. *)
Lemma requeue_docs_present ago docs : forall w,
  (forall kv, kv ∈ docs ->
     is_Some (queue w !! kv.1)
     /\ (Intake.status kv.2 = "processing" ->
         is_Some (Intake.processingStarted kv.2))) ->
  exists w',
    requeue_docs docs ago w = (Returned tt, w')
    /\ forall j, queue w' !! j
                 = if requeued_in ago docs j
                   then Intake.requeue <$> queue w !! j
                   else queue w !! j.
Proof.
  induction docs as [|[i r] docs IH]; intros w Hpres.
  - exists w. split; [done|]. by intros j.
  - destruct (Hpres (i, r)) as [[r0 Hr0] Hst]; [apply elem_of_cons; by left|].
    cbn [fst snd] in Hr0, Hst.
    assert (Hrest : forall w1, queue w1 = <[i := Intake.requeue r0]> (queue w)
              \/ queue w1 = queue w ->
              forall kv, kv ∈ docs ->
                is_Some (queue w1 !! kv.1)
                /\ (Intake.status kv.2 = "processing" ->
                    is_Some (Intake.processingStarted kv.2))).
    { intros w1 Hq kv Hkv. destruct (Hpres kv) as [Hp Hs]; [apply elem_of_cons; by right|].
      split; [|done]. destruct Hq as [-> | ->]; [|done].
      destruct (decide (i = kv.1)) as [->|Hne].
      - rewrite lookup_insert_eq. eauto.
      - by rewrite lookup_insert_ne. }
    assert (Hyes : needs_requeue ago r = true ->
              exists w', requeue_docs ((i, r) :: docs) ago w = (Returned tt, w')
                /\ forall j, queue w' !! j
                     = if requeued_in ago ((i, r) :: docs) j
                       then Intake.requeue <$> queue w !! j else queue w !! j).
    { intros Hn.
      destruct (IH (set_queue (<[i := Intake.requeue r0]> (queue w)) w))
        as (w' & Hrun & Hq); [apply Hrest; by left|].
      exists w'. split.
      - cbn [requeue_docs]. rewrite (ref_update_Some _ _ _ _ Hr0).
        unfold needs_requeue in Hn.
        destruct (String.eqb (Intake.status r) "error"); [exact Hrun|].
        destruct (String.eqb (Intake.status r) "processing"); [|discriminate].
        destruct (Intake.processingStarted r) as [t|]; [|discriminate].
        cbn in Hn. rewrite Hn. exact Hrun.
      - intros j. rewrite Hq. cbn [requeued_in existsb fst snd set_queue patient_intake_queue].
        fold (requeued_in ago docs j). rewrite Hn, andb_true_r.
        destruct (String.eqb_spec i j) as [->|Hne].
        + rewrite lookup_insert_eq, Hr0. cbn. by destruct (requeued_in ago docs j).
        + rewrite lookup_insert_ne by done. done. }
    assert (Hno : needs_requeue ago r = false ->
              exists w', requeue_docs ((i, r) :: docs) ago w = (Returned tt, w')
                /\ forall j, queue w' !! j
                     = if requeued_in ago ((i, r) :: docs) j
                       then Intake.requeue <$> queue w !! j else queue w !! j).
    { intros Hn.
      destruct (IH w) as (w' & Hrun & Hq); [apply Hrest; by right|].
      exists w'. split.
      - cbn [requeue_docs]. unfold needs_requeue in Hn.
        destruct (String.eqb_spec (Intake.status r) "error"); [discriminate|].
        destruct (String.eqb_spec (Intake.status r) "processing") as [Hp|]; [|exact Hrun].
        destruct (Hst Hp) as [t Ht]. rewrite Ht in Hn |- *. cbn in Hn.
        rewrite Hn. exact Hrun.
      - intros j. rewrite Hq. cbn [requeued_in existsb fst snd].
        fold (requeued_in ago docs j). by rewrite Hn, andb_false_r. }
    destruct (needs_requeue ago r) eqn:Hn; [by apply Hyes|by apply Hno].
Qed.

Lemma requeued_in_spec ago w i r :
  queue w !! i = Some r ->
  requeued_in ago (query_failed w) i = needs_requeue ago r.
Proof.
  intros Hr. unfold requeued_in.
  destruct (needs_requeue ago r) eqn:Hn.
  - apply existsb_exists. exists (i, r). split.
    + apply list_elem_of_In, query_failed_elem. split; [done|].
      by eapply needs_requeue_status.
    + cbn. by rewrite String.eqb_refl, Hn.
  - apply not_true_is_false. intros ([i' r'] & Hin & Hb)%existsb_exists.
    cbn in Hb. apply andb_true_iff in Hb as [Hi Hn'].
    apply String.eqb_eq in Hi as ->.
    apply list_elem_of_In, query_failed_elem in Hin as [Hr' _].
    congruence.
Qed.

(** Every reachable state is stamped: [processing] is only ever written
    together with [processingStarted]. *)
Lemma reachable_stamped w : reachable w -> stamped w.
Proof. intros Hreach i r Hr. apply (reachable_queue_ok w Hreach i r Hr). Qed.

(** C7: on a store in which the processing documents carry their
    processing-started time (every reachable store), one pass of the
    reconciler ends without error and resets every document of status
    [error], and every document of status [processing] whose processing
    started more than 15 minutes before, to [pending] with [error], [errorAt]
    and [processingStarted] cleared; a document of status [pending] or
    [completed] stays as it is. *)
Theorem C7_reconciler_pass (now : Z) (w : World) :
  stamped w ->
  exists w',
    reprocessFailedIntakes now w = (Returned tt, w')
    /\ forall i r, queue w !! i = Some r ->
         ((Intake.status r = "error"
           \/ (Intake.status r = "processing"
               /\ exists started, Intake.processingStarted r = Some started
                    /\ (started < now - 15 * 60 * 1000)%Z)) ->
          queue w' !! i = Some (Intake.requeue r)
          /\ status_of w' i = Some "pending"
          /\ Intake.error (Intake.requeue r) = None
          /\ Intake.errorAt (Intake.requeue r) = None
          /\ Intake.processingStarted (Intake.requeue r) = None)
         /\ ((Intake.status r = "pending" \/ Intake.status r = "completed") ->
             queue w' !! i = Some r).
Proof.
  intros Hok.
  unfold reprocessFailedIntakes.
  destruct (requeue_docs_present (now - 15 * 60 * 1000) (query_failed w) w)
    as (w' & Hrun & Hq).
  { intros [i r] [Hr _]%query_failed_elem. cbn. split; [by rewrite Hr|].
    apply (Hok i r Hr). }
  exists w'. split; [exact Hrun|]. intros i r Hr.
  pose proof (Hq i) as Hi. rewrite (requeued_in_spec _ _ _ _ Hr), Hr in Hi.
  split.
  - intros Hstuck.
    assert (Hn : needs_requeue (now - 15 * 60 * 1000) r = true).
    { unfold needs_requeue. destruct Hstuck as [->|(-> & t & -> & Ht)]; [done|].
      cbn. by apply Z.ltb_lt. }
    rewrite Hn in Hi. unfold status_of. rewrite Hi. done.
  - intros Hs.
    assert (Hn : needs_requeue (now - 15 * 60 * 1000) r = false).
    { unfold needs_requeue. by destruct Hs as [-> | ->]. }
    by rewrite Hn in Hi.
Qed.

Lemma claimed_reachable : reachable Examples.claimed.
Proof.
  exists [Examples.enqueued; empty_world].
  apply history_step; [|exact I|exact I].
  apply history_step; [apply history_start|exact I|reflexivity].
Qed.

Lemma C7_witness :
  exists w',
    reprocessFailedIntakes 2000000 Examples.claimed = (Returned tt, w')
    /\ status_of w' "doc-a" = Some "pending".
Proof.
  destruct (C7_reconciler_pass 2000000 Examples.claimed
              (reachable_stamped _ claimed_reachable))
    as (w' & Hrun & H).
  exists w'. split; [exact Hrun|].
  refine (proj1 (proj2 (proj1
    (H "doc-a"
       (Intake.claim 1000
          (Intake.fresh
             (BlandWebhook.build_patientData (ReferenceEngine.runtime 0)
                Examples.body_complete
                Examples.vars_complete) 100 None)) _) _))).
  - vm_compute. reflexivity.
  - right. split; [reflexivity|]. exists 1000%Z. split; [reflexivity|lia].
Defined.

(** ** The status of an intake document along a history *)

Lemma held_processing_later hist w i :
  held_processing hist i -> held_processing (w :: hist) i.
Proof. intros (w0 & Hin & Hs). exists w0. split; [by apply elem_of_cons; right|done]. Qed.

Lemma held_processing_now hist w i :
  status_of w i = Some "processing" -> held_processing (w :: hist) i.
Proof. intros Hs. exists w. split; [by apply elem_of_cons; left|done]. Qed.

(** What holds in every state of a history in which every message on
    [create-patient] was published by the intake processor. *)
Definition dispatched (hist : list World) : Prop :=
  match hist with
  | [] => True
  | w :: _ =>
      (forall m, m ∈ topic_create_patient w ->
         exists i, PD.id m = Some i /\ held_processing hist i)
      /\ (forall i r, queue w !! i = Some r ->
            PD.id (Intake.data r) = None
            /\ (Intake.status r = "completed" -> held_processing hist i))
  end.

Lemma dispatched_step w w' past :
  dispatched (w :: past) ->
  (forall m, m ∈ topic_create_patient w' ->
     m ∈ topic_create_patient w
     \/ exists i, PD.id m = Some i /\ status_of w' i = Some "processing") ->
  (forall j r', queue w' !! j = Some r' ->
     PD.id (Intake.data r') = None
     /\ (Intake.status r' = "completed" ->
         (exists r, queue w !! j = Some r /\ Intake.status r = "completed")
         \/ held_processing (w :: past) j)) ->
  dispatched (w' :: w :: past).
Proof.
  intros [Ha Hb] Ht Hq. split.
  - intros m [Hm|(i & Hi & Hs)]%Ht.
    + destruct (Ha m Hm) as (i & Hi & Hh). exists i. split; [done|].
      by apply held_processing_later.
    + exists i. split; [done|]. by apply held_processing_now.
  - intros j r' Hr'. destruct (Hq j r' Hr') as [Hid Hc]. split; [done|].
    intros Hs. apply held_processing_later.
    destruct (Hc Hs) as [(r & Hr & Hrs)|Hh]; [|done].
    by apply (Hb j r Hr).
Qed.

(** A handler that leaves the topic alone and at most adds a pending
    document without [id] field. *)
Lemma dispatched_enqueue w w' past newId now :
  dispatched (w :: past) ->
  topic_create_patient w' = topic_create_patient w ->
  (queue w' = queue w
   \/ exists pd, PD.id pd = None
        /\ queue w' = <[newId := Intake.fresh pd now None]> (queue w)) ->
  dispatched (w' :: w :: past).
Proof.
  intros Hd Ht Hq. apply dispatched_step; [done|..].
  - intros m Hm. left. by rewrite <- Ht.
  - intros j r' Hr'. destruct Hd as [_ Hb].
    destruct Hq as [Hq|(pd & Hpd & Hq)]; rewrite Hq in Hr'.
    + split; [by apply (Hb j r' Hr')|]. intros Hs. left. eauto.
    + destruct (decide (newId = j)) as [->|Hne].
      * rewrite lookup_insert_eq in Hr'. injection Hr' as <-. cbn.
        split; [done|discriminate].
      * rewrite lookup_insert_ne in Hr' by done.
        split; [by apply (Hb j r' Hr')|]. intros Hs. left. eauto.
Qed.

Lemma history_dispatched allowed hist :
  (forall o, allowed o -> through_dispatcher o) ->
  history allowed hist -> dispatched hist.
Proof.
  intros Hallowed. induction 1 as [|o w past Hh IH Ha He].
  - split.
    + intros m Hm. by apply elem_of_nil in Hm.
    + intros i r Hr. unfold empty_world in Hr. cbn [patient_intake_queue] in Hr.
      by rewrite lookup_empty in Hr.
  - pose proof (Hallowed o Ha) as Hthrough. destruct o; cbn [exec].
    + destruct (blandWebhook_effect rt body now hour newId w) as [Ht Hq].
      by eapply dispatched_enqueue.
    + destruct Hthrough.
    + destruct (blandWebhook_part_000_effect body now newId w) as [Ht Hq].
      by eapply dispatched_enqueue.
    + destruct (blandWebhook_part_001_effect body now newId w) as [Ht Hq].
      by eapply dispatched_enqueue.
    + (* the intake processor *)
      unfold processIntakeQueue. apply dispatched_step; [done|..].
      * intros m Hm.
        destruct (processSnapshot_topic (query_pending w) now w) as (msgs & Ht & Hmsgs).
        rewrite Ht in Hm. apply elem_of_app in Hm as [Hm|Hm]; [by left|right].
        destruct (Hmsgs m Hm) as (i & r & Hin & -> & Hs).
        exists i. split; [|done].
        apply query_pending_elem in Hin as [Hr _].
        destruct IH as [_ Hb]. destruct (Hb i r Hr) as [Hid _].
        unfold claim_message. by rewrite Hid.
      * intros j r' Hr'. destruct IH as [_ Hb].
        destruct (processSnapshot_queue (query_pending w) now w j) as [H|(r & Hr & H)];
          rewrite H in Hr'.
        -- split; [by apply (Hb j r' Hr')|]. intros Hs. left. eauto.
        -- injection Hr' as <-. cbn. split; [by apply (Hb j r Hr)|discriminate].
    + (* the patient creator *)
      destruct (createAthenaPatient_effect secrets athena_post message now w)
        as [Ht Hq].
      apply dispatched_step; [done|..].
      * intros m Hm. left. by rewrite <- Ht.
      * intros j r' Hr'. destruct IH as [Hmsg Hb].
        destruct (Hq j) as [H|(Hid & r & Hr & [[pid H]|[msg H]])]; rewrite H in Hr'.
        -- split; [by apply (Hb j r' Hr')|]. intros Hs. left. eauto.
        -- injection Hr' as <-. cbn. split; [by apply (Hb j r Hr)|].
           intros _. right. cbn in He.
           destruct (Hmsg message He) as (i & Hi & Hheld). congruence.
        -- injection Hr' as <-. cbn. split; [by apply (Hb j r Hr)|discriminate].
    + (* the appointment booker *)
      destruct (bookAppointment_effect secrets athena_put message now w) as [Ht Hq].
      apply dispatched_step; [done|..].
      * intros m Hm. left. by rewrite <- Ht.
      * intros j r' Hr'. destruct IH as [_ Hb].
        destruct (Hq j) as [H|(r & conf & Hr & H)]; rewrite H in Hr'.
        -- split; [by apply (Hb j r' Hr')|]. intros Hs. left. eauto.
        -- injection Hr' as <-. cbn. split; [by apply (Hb j r Hr)|].
           intros Hs. left. eauto.
    + (* the reconciler *)
      unfold reprocessFailedIntakes. apply dispatched_step; [done|..].
      * intros m Hm. left. by rewrite requeue_docs_topic in Hm.
      * intros j r' Hr'. destruct IH as [_ Hb].
        destruct (requeue_docs_queue (now - 15 * 60 * 1000) (query_failed w) w j)
          as [H|(r & Hr & H)]; rewrite H in Hr'.
        -- split; [by apply (Hb j r' Hr')|]. intros Hs. left. eauto.
        -- injection Hr' as <-. cbn. split; [by apply (Hb j r Hr)|discriminate].
    + (* the token manager *)
      apply dispatched_step; [done|..].
      * intros m Hm. left.
        by rewrite (proj2 (refreshAthenaToken_queue fetched now w)) in Hm.
      * intros j r' Hr'. destruct IH as [_ Hb].
        assert (Hr : queue w !! j = Some r')
          by (by rewrite (proj1 (refreshAthenaToken_queue fetched now w)) in Hr').
        split; [by apply (Hb j r' Hr)|]. intros Hs. left. eauto.
Qed.

(** C3, as stated, fails: the handler of part_002 enqueues a pending
    document and publishes its create-patient message itself; the patient
    creator then completes the document, which never held [processing]. *)
Lemma C3_counterexample :
  history any_op
    [Examples.direct_2; Examples.direct_1; Examples.direct_0; empty_world]
  /\ status_of Examples.direct_0 "call-1_500" = None
  /\ status_of Examples.direct_1 "call-1_500" = Some "pending"
  /\ status_of Examples.direct_2 "call-1_500" = Some "completed"
  /\ ~ held_processing
         [Examples.direct_2; Examples.direct_1; Examples.direct_0; empty_world]
         "call-1_500".
Proof.
  split; [|split; [|split; [|split]]].
  - apply history_step; [|exact I|].
    + apply history_step; [|exact I|exact I].
      apply history_step; [apply history_start|exact I|exact I].
    + cbn [enabled]. vm_compute. constructor.
  - vm_compute. reflexivity.
  - vm_compute. reflexivity.
  - vm_compute. reflexivity.
  - intros (w & Hin & Hs).
    repeat (apply elem_of_cons in Hin as [->|Hin]; [vm_compute in Hs; discriminate|]).
    by apply elem_of_nil in Hin.
Qed.

(** C3 (amended): in every state of every history the status of an intake
    document is one of [pending], [processing], [completed] and [error];
    and in a history without the handler of part_002, where only the intake
    processor publishes to [create-patient], a completed document has held
    status [processing] before. *)
Theorem C3_status_invariant (allowed : op -> Prop) (w : World)
    (past : list World) (i : string) (r : Intake.t) :
  history allowed (w :: past) ->
  queue w !! i = Some r ->
  valid_status (Intake.status r)
  /\ ((forall o, allowed o -> through_dispatcher o) ->
      Intake.status r = "completed" -> held_processing (w :: past) i).
Proof.
  intros Hh Hr. split.
  - eapply (history_queue_ok allowed _ Hh w); [apply elem_of_cons; by left|exact Hr].
  - intros Hallowed Hs.
    destruct (history_dispatched allowed _ Hallowed Hh) as [_ Hb].
    by apply (Hb i r Hr).
Qed.

Lemma dispatch_history :
  history through_dispatcher
    [Examples.dispatch_3; Examples.dispatch_2; Examples.dispatch_1;
     Examples.direct_0; empty_world].
Proof.
  apply history_step; [|exact I|].
  - apply history_step; [|exact I|exact I].
    apply history_step; [|exact I|reflexivity].
    apply history_step; [apply history_start|exact I|exact I].
  - cbn [enabled]. vm_compute. constructor.
Qed.

Lemma C3_witness :
  valid_status "completed"
  /\ held_processing
       [Examples.dispatch_3; Examples.dispatch_2; Examples.dispatch_1;
        Examples.direct_0; empty_world] "doc-a".
Proof.
  destruct (C3_status_invariant through_dispatcher Examples.dispatch_3
              [Examples.dispatch_2; Examples.dispatch_1; Examples.direct_0;
               empty_world]
              "doc-a"
              (Intake.complete "P-1001" 1500
                 (Intake.claim 1000
                    (Intake.fresh
                       (BlandWebhook.build_patientData
                          (ReferenceEngine.runtime 0) Examples.body_complete
                          Examples.vars_complete)
                       100 None)))
              dispatch_history) as [Hv Hheld].
  - vm_compute. reflexivity.
  - split; [exact Hv|]. apply Hheld; [intros o Ho; exact Ho|reflexivity].
Defined.

(** ** The calendar *)

Module CalendarFacts.

Local Open Scope Z_scope.
Import JSDate DateSpec.














End CalendarFacts.

(** ** Rendering and splitting dates *)

Module DateFacts.
Import JSDate DateSpec.

Lemma append_cons x (a b : string) : String x a +:+ b = String x (a +:+ b).
Proof. reflexivity. Qed.


Lemma free_app c a b : free c a -> free c b -> free c (a +:+ b).
Proof.
  induction a as [|x a IH]; [done|]. rewrite append_cons. simpl.
  intros [? ?] ?. split; auto.
Qed.

Lemma split_free c a : free c a -> JS.split c a = [a].
Proof.
  induction a as [|x a IH]; [done|]. simpl. intros [-> Ha]. by rewrite (IH Ha).
Qed.

Lemma split_app_sep c a b :
  free c a -> JS.split c (a +:+ String c b) = a :: JS.split c b.
Proof.
  induction a as [|x a IH].
  - intros _. simpl. by rewrite Ascii.eqb_refl.
  - rewrite append_cons. simpl. intros [-> Ha]. by rewrite (IH Ha).
Qed.









End DateFacts.

(** ** Reading the month-name form *)

Module MonthNameFacts.
Import JSDate DateSpec CalendarFacts DateFacts.

Local Open Scope Z_scope.



(** *** Classes of characters *)






Lemma letter_not_digit c : is_letter c = true -> not_digit c = true.
Proof. by destruct c as [[] [] [] [] [] [] [] []]. Qed.




(** *** [includes] *)









(** *** The two regular expressions *)


Lemma match_digits_4_short r :
  (String.length r <= 3)%nat -> JS.match_digits_4 r = None.
Proof.
  destruct r as [|c0 [|c1 [|c2 [|c3 r]]]]; cbn; intros; done || lia.
Qed.













(** *** The names of the months *)







End MonthNameFacts.

(** ** The round trip of a date through [parseDate] and
    [formatDateForAthena] *)

Module RoundTrip.
Import JSDate DateSpec CalendarFacts DateFacts MonthNameFacts.

Local Open Scope Z_scope.









End RoundTrip.



(** * Further properties of the handlers *)

Module StringFacts.

Lemma strip_all_digits s : JSMore.all_digits (JS.strip_non_digits s) = true.
Proof.
  induction s as [|c s IH]; [done|]. cbn [JS.strip_non_digits].
  destruct (JS.is_digit c) eqn:E; [|done]. cbn. by rewrite E, IH.
Qed.

Lemma strip_digits_id s : JSMore.all_digits s = true -> JS.strip_non_digits s = s.
Proof.
  induction s as [|c s IH]; [done|]. cbn. intros [Hc Hs]%andb_true_iff.
  by rewrite Hc, IH.
Qed.

Lemma substring_all_digits s : forall n m,
  JSMore.all_digits s = true -> JSMore.all_digits (String.substring n m s) = true.
Proof.
  induction s as [|c s IH]; intros n m H.
  - by destruct n, m.
  - cbn in H. apply andb_true_iff in H as [Hc Hs].
    destruct n as [|n]; cbn [String.substring].
    + destruct m as [|m]; [done|]. cbn. by rewrite Hc, IH.
    + by apply IH.
Qed.

Lemma ten_digit_form_digits d :
  JSMore.all_digits d = true -> JSMore.all_digits (ten_digit_form d) = true.
Proof.
  intros H. unfold ten_digit_form, JS.substring_from.
  destruct (_ && _); [by apply substring_all_digits|done].
Qed.

Lemma cleanPhone_cases (phone : option string) :
  cleanPhone phone = ""
  \/ (String.length (cleanPhone phone) = 10%nat
      /\ JSMore.all_digits (cleanPhone phone) = true
      /\ JS.char_between "2" "9" (String.get 0 (cleanPhone phone)) = true
      /\ JS.char_between "2" "9" (String.get 3 (cleanPhone phone)) = true).
Proof.
  destruct phone as [p|]; [|by left].
  destruct (String.eqb_spec p "") as [->|Hp]; [by left|].
  rewrite (cleanPhone_unfold p Hp).
  destruct (nanp_ok _) eqn:E; [right|by left].
  unfold nanp_ok in E. apply andb_true_iff in E as [E H3].
  apply andb_true_iff in E as [Hl H0]. apply Nat.eqb_eq in Hl.
  repeat split; try done.
  apply ten_digit_form_digits, strip_all_digits.
Qed.

Lemma cleanPhone_stable (phone : option string) :
  cleanPhone (Some (cleanPhone phone)) = cleanPhone phone.
Proof.
  destruct (cleanPhone_cases phone) as [->|(Hl & Hd & H0 & H3)]; [done|].
  set (r := cleanPhone phone) in *.
  assert (Hr : r <> "") by (intros E; by rewrite E in Hl).
  rewrite (cleanPhone_unfold r Hr), (strip_digits_id r Hd).
  unfold ten_digit_form, nanp_ok. rewrite Hl. cbn [Nat.eqb andb].
  by rewrite Hl, H0, H3.
Qed.

End StringFacts.

(** X1: what the phone cleaner returns is the empty string or a string of
    exactly ten digits whose first and fourth digits are in 2-9; the same
    holds of the webhook's [parsePhoneNumber]. *)
Theorem cleanPhone_range (phone : option string) :
  let shaped (r : string) :=
    r = ""
    \/ (String.length r = 10%nat
        /\ JSMore.all_digits r = true
        /\ JS.char_between "2" "9" (String.get 0 r) = true
        /\ JS.char_between "2" "9" (String.get 3 r) = true) in
  shaped (cleanPhone phone) /\ shaped (parsePhoneNumber phone).
Proof.
  cbn zeta. change (parsePhoneNumber phone) with (cleanPhone phone).
  split; apply StringFacts.cleanPhone_cases.
Qed.

(** X2: cleaning is idempotent: the patient creator's [cleanPhone] keeps
    the number the webhook's [parsePhoneNumber] stored, and each of the two
    returns unchanged what the other returned. *)
Theorem cleanPhone_idempotent (phone : option string) :
  cleanPhone (Some (cleanPhone phone)) = cleanPhone phone
  /\ cleanPhone (Some (parsePhoneNumber phone)) = parsePhoneNumber phone
  /\ parsePhoneNumber (Some (cleanPhone phone)) = cleanPhone phone.
Proof.
  change (parsePhoneNumber (Some (cleanPhone phone)))
    with (cleanPhone (Some (cleanPhone phone))).
  change (parsePhoneNumber phone) with (cleanPhone phone).
  repeat split; apply StringFacts.cleanPhone_stable.
Qed.

Module FormatFacts.
Import DateSpec DateFacts.

Lemma split_parts_free c s : Forall (free c) (JS.split c s).
Proof.
  induction s as [|a s IH]; [by repeat constructor|].
  cbn [JS.split]. destruct (Ascii.eqb a c) eqn:E.
  - constructor; [done|exact IH].
  - destruct (JS.split c s) as [|p ps]; [by repeat constructor|].
    inversion IH; subst. constructor; [by split|done].
Qed.

Lemma truthy_nonempty s : s <> "" -> JS.truthy (Some s) = true.
Proof. intros H. cbn. by destruct (String.eqb_spec s ""). Qed.

Lemma append_nonempty_r a c b : a +:+ String c b <> "".
Proof. by destruct a. Qed.

End FormatFacts.

(** X3: [formatDateForAthena] does not validate: a string with exactly two
    hyphens has its three parts reordered whatever they are, a string
    without hyphen comes back unchanged, and formatting twice is formatting
    once. *)
Theorem formatDateForAthena_shape :
  (forall a b c : string,
     DateSpec.free "-" a -> DateSpec.free "-" b -> DateSpec.free "-" c ->
     formatDateForAthena (Some (a +:+ "-" +:+ b +:+ "-" +:+ c))
     = b +:+ "/" +:+ c +:+ "/" +:+ a)
  /\ (forall s, DateSpec.free "-" s -> formatDateForAthena (Some s) = s)
  /\ (forall x, formatDateForAthena (Some (formatDateForAthena x))
                = formatDateForAthena x).
Proof.
  assert (H2 : forall s, DateSpec.free "-" s -> formatDateForAthena (Some s) = s).
  { intros s Hs. unfold formatDateForAthena.
    destruct (String.eqb_spec s "") as [->|Hne]; [done|].
    rewrite (FormatFacts.truthy_nonempty s Hne). cbn [negb JS.or_empty].
    by rewrite (DateFacts.split_free _ _ Hs). }
  split; [|split; [exact H2|]].
  - intros a b c Ha Hb Hc. unfold formatDateForAthena.
    change (a +:+ "-" +:+ b +:+ "-" +:+ c)
      with (a +:+ String "-" (b +:+ String "-" c)).
    rewrite (FormatFacts.truthy_nonempty _ (FormatFacts.append_nonempty_r a "-" _)).
    cbn [negb JS.or_empty].
    by rewrite (DateFacts.split_app_sep _ a _ Ha),
      (DateFacts.split_app_sep _ b _ Hb), (DateFacts.split_free _ c Hc).
  - intros [s|]; [|done].
    destruct (String.eqb_spec s "") as [->|Hne]; [done|].
    assert (Hcases : formatDateForAthena (Some s) = s
                     \/ DateSpec.free "-" (formatDateForAthena (Some s))).
    { unfold formatDateForAthena.
      rewrite (FormatFacts.truthy_nonempty s Hne). cbn [negb JS.or_empty].
      pose proof (FormatFacts.split_parts_free "-" s) as Hf.
      destruct (JS.split "-" s) as [|p0 [|p1 [|p2 [|p3 ps]]]]; try by left.
      right. inversion Hf as [|? ? H0 Hf1]; subst.
      inversion Hf1 as [|? ? H1 Hf2]; subst. inversion Hf2 as [|? ? Hp2 _]; subst.
      change (DateSpec.free "-" (p1 +:+ String "/" (p2 +:+ String "/" p0))).
      apply DateFacts.free_app; [done|]. split; [done|].
      apply DateFacts.free_app; [done|]. split; [done|]. done. }
    destruct Hcases as [E|Hfree]; [by rewrite E|by apply H2].
Qed.

Lemma formatDateForAthena_shape_witness :
  formatDateForAthena (Some ("15" +:+ "-" +:+ "01" +:+ "-" +:+ "1990"))
  = "01" +:+ "/" +:+ "1990" +:+ "/" +:+ "15"
  /\ formatDateForAthena (Some "01/15/1990") = "01/15/1990".
Proof.
  split.
  - apply (proj1 formatDateForAthena_shape "15" "01" "1990"); by cbn.
  - apply (proj1 (proj2 formatDateForAthena_shape) "01/15/1990"). by cbn.
Defined.

Module CaseFacts.
Import CaseSpec.

Ltac ascii_cases c :=
  destruct c as [[] [] [] [] [] [] [] []]; reflexivity.

Lemma toLowerCase_smap s : JS.toLowerCase s = smap JS.lower_char s.
Proof. induction s as [|c s IH]; [done|]. cbn. by rewrite IH. Qed.

Lemma toUpperCase_smap s : JSMore.toUpperCase s = smap JSMore.upper_char s.
Proof. induction s as [|c s IH]; [done|]. cbn. by rewrite IH. Qed.

Lemma rev_app_smap f a : forall b,
  String.rev_app (smap f a) (smap f b) = smap f (String.rev_app a b).
Proof.
  induction a as [|c a IH]; intros b; [done|]. cbn. apply (IH (String c b)).
Qed.

Lemma rev_smap f a : String.rev (smap f a) = smap f (String.rev a).
Proof. apply (rev_app_smap f a ""). Qed.

Lemma trim_start_smap f s :
  (forall c, JS.is_space (f c) = JS.is_space c) ->
  JS.trim_start (smap f s) = smap f (JS.trim_start s).
Proof.
  intros Hf. induction s as [|c s IH]; [done|]. cbn. rewrite Hf.
  destruct (JS.is_space c); [exact IH|done].
Qed.

Lemma trim_smap f s :
  (forall c, JS.is_space (f c) = JS.is_space c) ->
  JS.trim (smap f s) = smap f (JS.trim s).
Proof.
  intros Hf. unfold JS.trim.
  by rewrite (trim_start_smap f s Hf), rev_smap, (trim_start_smap f _ Hf), rev_smap.
Qed.

Lemma remove_char_smap f c s :
  (forall a, Ascii.eqb (f a) c = Ascii.eqb a c) ->
  JSMore.remove_char c (smap f s) = smap f (JSMore.remove_char c s).
Proof.
  intros Hf. induction s as [|a s IH]; [done|]. cbn. rewrite Hf.
  destruct (Ascii.eqb a c); [exact IH|]. cbn. by rewrite IH.
Qed.

Lemma smap_smap f g s : smap f (smap g s) = smap (fun c => f (g c)) s.
Proof. induction s as [|c s IH]; [done|]. cbn. by rewrite IH. Qed.

Lemma smap_ext f g s : (forall c, f c = g c) -> smap f s = smap g s.
Proof. intros H. induction s as [|c s IH]; [done|]. cbn. by rewrite H, IH. Qed.

Lemma space_lower c : JS.is_space (JS.lower_char c) = JS.is_space c.
Proof. ascii_cases c. Qed.

Lemma space_upper c : JS.is_space (JSMore.upper_char c) = JS.is_space c.
Proof. ascii_cases c. Qed.

Lemma dquote_lower c :
  Ascii.eqb (JS.lower_char c) JSMore.dquote = Ascii.eqb c JSMore.dquote.
Proof. ascii_cases c. Qed.

Lemma dquote_upper c :
  Ascii.eqb (JSMore.upper_char c) JSMore.dquote = Ascii.eqb c JSMore.dquote.
Proof. ascii_cases c. Qed.

Lemma upper_lower c : JSMore.upper_char (JS.lower_char c) = JSMore.upper_char c.
Proof. ascii_cases c. Qed.

Lemma upper_upper c : JSMore.upper_char (JSMore.upper_char c) = JSMore.upper_char c.
Proof. ascii_cases c. Qed.

Lemma lower_upper c : JS.lower_char (JSMore.upper_char c) = JS.lower_char c.
Proof. ascii_cases c. Qed.

Lemma lower_digit c : JS.is_digit c = true -> JS.lower_char c = c.
Proof. destruct c as [[] [] [] [] [] [] [] []]; (reflexivity || discriminate). Qed.

Lemma toLowerCase_digits s : JSMore.all_digits s = true -> JS.toLowerCase s = s.
Proof.
  induction s as [|c s IH]; [done|]. cbn. intros [Hc Hs]%andb_true_iff.
  by rewrite (lower_digit c Hc), IH.
Qed.

Lemma smap_length f s : String.length (smap f s) = String.length s.
Proof. induction s as [|c s IH]; [done|]. cbn. by rewrite IH. Qed.

Lemma table_lookup_In tbl k v :
  table_lookup tbl k = Some v -> In (k, v) tbl.
Proof.
  induction tbl as [|[k' v'] tbl IH]; [done|]. cbn.
  destruct (String.eqb_spec k k') as [->|]; [intros [= ->]; by left|].
  intros H. right. by apply IH.
Qed.

Lemma values_all_lookup p tbl k v :
  values_all p tbl = true -> table_lookup tbl k = Some v -> p v = true.
Proof.
  intros Ha Hl. unfold values_all in Ha. rewrite forallb_forall in Ha.
  exact (Ha (k, v) (table_lookup_In _ _ _ Hl)).
Qed.

Lemma keys_all_lookup p tbl k v :
  keys_all p tbl = true -> table_lookup tbl k = Some v -> p k = true.
Proof.
  intros Ha Hl. unfold keys_all in Ha. rewrite forallb_forall in Ha.
  exact (Ha (k, v) (table_lookup_In _ _ _ Hl)).
Qed.

End CaseFacts.

(** X4: [normalizeSex] returns M, F or the empty string, returns its own
    results unchanged, and does not depend on the letter case of its
    input. *)
Theorem normalizeSex_props (value : option string) (s : string) :
  (normalizeSex value = "M" \/ normalizeSex value = "F" \/ normalizeSex value = "")
  /\ normalizeSex (Some (normalizeSex value)) = normalizeSex value
  /\ normalizeSex (Some (JS.toLowerCase s)) = normalizeSex (Some s)
  /\ normalizeSex (Some (JSMore.toUpperCase s)) = normalizeSex (Some s).
Proof.
  assert (Hr : normalizeSex value = "M" \/ normalizeSex value = "F"
               \/ normalizeSex value = "").
  { unfold normalizeSex. destruct (_ || _); [by left|].
    destruct (_ || _); [right; by left|right; by right]. }
  split; [exact Hr|]. split.
  - destruct Hr as [-> |[-> | ->]]; reflexivity.
  - assert (Hc : forall f,
        (forall c, JS.is_space (f c) = JS.is_space c) ->
        (forall c, Ascii.eqb (f c) JSMore.dquote = Ascii.eqb c JSMore.dquote) ->
        (forall c, JSMore.upper_char (f c) = JSMore.upper_char c) ->
        normalizeSex (Some (CaseSpec.smap f s)) = normalizeSex (Some s)).
    { intros f H1 H2 H3. unfold normalizeSex. cbn [JS.or_empty].
      rewrite (CaseFacts.remove_char_smap f _ s H2), (CaseFacts.trim_smap f _ H1).
      rewrite !CaseFacts.toUpperCase_smap, CaseFacts.smap_smap.
      by rewrite (CaseFacts.smap_ext _ JSMore.upper_char _ H3). }
    split.
    + rewrite CaseFacts.toLowerCase_smap.
      apply Hc; [apply CaseFacts.space_lower|apply CaseFacts.dquote_lower
                |apply CaseFacts.upper_lower].
    + rewrite CaseFacts.toUpperCase_smap.
      apply Hc; [apply CaseFacts.space_upper|apply CaseFacts.dquote_upper
                |apply CaseFacts.upper_upper].
Qed.

(** X5: for a state name of the table, written in any letter case,
    [getStateAbbreviation] returns the table's code, which has two letters
    and is returned unchanged when passed again; a two-letter input is
    upper-cased without lookup, and a name that is neither in the table
    nor a property every JavaScript object inherits comes back as it is. *)
Theorem getStateAbbreviation_props (s : string) :
  (forall a, table_lookup STATE_ABBREVIATIONS (JS.toLowerCase s) = Some a ->
     getStateAbbreviation (Some s) = a
     /\ String.length a = 2%nat
     /\ getStateAbbreviation (Some a) = a)
  /\ (String.length s = 2%nat ->
      getStateAbbreviation (Some s) = JSMore.toUpperCase s)
  /\ (String.length s <> 2%nat ->
      table_lookup STATE_ABBREVIATIONS (JS.toLowerCase s) = None ->
      JS.toLowerCase s <> "constructor" -> JS.toLowerCase s <> "__proto__" ->
      getStateAbbreviation (Some s) = s).
Proof.
  split; [|split].
  - intros a Ha.
    assert (Hk : negb (String.length (JS.toLowerCase s) =? 2)%nat
                 && negb (String.eqb (JS.toLowerCase s) "") = true).
    { apply (CaseFacts.keys_all_lookup
               (fun k => negb (String.length k =? 2)%nat && negb (String.eqb k ""))
               STATE_ABBREVIATIONS _ a); [by vm_compute|exact Ha]. }
    assert (Hv : (String.length a =? 2)%nat
                 && String.eqb (JSMore.toUpperCase a) a = true).
    { apply (CaseFacts.values_all_lookup
               (fun v => (String.length v =? 2)%nat
                         && String.eqb (JSMore.toUpperCase v) v)
               STATE_ABBREVIATIONS (JS.toLowerCase s) a); [by vm_compute|exact Ha]. }
    apply andb_true_iff in Hk as [Hl Hne], Hv as [Hla Hua].
    rewrite CaseFacts.toLowerCase_smap, CaseFacts.smap_length in Hl.
    apply Nat.eqb_eq in Hla. apply String.eqb_eq in Hua.
    assert (Hs : s <> "").
    { intros ->. by cbn in Hne. }
    split; [|split; [exact Hla|]].
    + unfold getStateAbbreviation.
      rewrite (FormatFacts.truthy_nonempty s Hs). cbn [negb JS.or_empty].
      destruct (String.length s =? 2)%nat; [done|]. by rewrite Ha.
    + unfold getStateAbbreviation.
      assert (Hane : a <> "") by (intros ->; discriminate).
      rewrite (FormatFacts.truthy_nonempty a Hane). cbn [negb JS.or_empty].
      by rewrite Hla, Nat.eqb_refl.
  - intros Hl. unfold getStateAbbreviation.
    assert (Hs : s <> "") by (intros ->; discriminate).
    rewrite (FormatFacts.truthy_nonempty s Hs). cbn [negb JS.or_empty].
    by rewrite Hl.
  - intros Hl Hn _ _. unfold getStateAbbreviation.
    destruct (String.eqb_spec s "") as [->|Hs]; [done|].
    rewrite (FormatFacts.truthy_nonempty s Hs). cbn [negb JS.or_empty].
    apply Nat.eqb_neq in Hl. by rewrite Hl, Hn.
Qed.

Lemma getStateAbbreviation_props_witness :
  getStateAbbreviation (Some "NEVADA") = "NV"
  /\ getStateAbbreviation (Some "nv") = "NV"
  /\ getStateAbbreviation (Some "Clark County") = "Clark County".
Proof.
  split; [|split].
  - apply (proj1 (getStateAbbreviation_props "NEVADA") "NV"). reflexivity.
  - apply (proj1 (proj2 (getStateAbbreviation_props "nv"))). reflexivity.
  - apply (proj2 (proj2 (getStateAbbreviation_props "Clark County")));
      [discriminate|reflexivity|discriminate|discriminate].
Defined.

Module VerbalFacts.
Import CaseSpec CaseFacts.

Lemma trim_start_suffix s : exists p, s = p +:+ JS.trim_start s.
Proof.
  induction s as [|c s [p Hp]]; [by exists ""|]. cbn.
  destruct (JS.is_space c); [|by exists ""].
  exists (String c p). rewrite DateFacts.append_cons. by f_equal.
Qed.

Lemma trim_nonempty s : JS.trim s <> "" -> s <> "".
Proof. intros H ->. by apply H. Qed.

End VerbalFacts.

(** X6: a house number written in digits keeps its digits, white space
    around it dropped; a number word of the table, in any letter case and
    with white space around it, gives the table's digits. *)
Theorem convertVerbalToNumeric_known (s : string) :
  (JSMore.is_number_string (JS.trim s) = true ->
   convertVerbalToNumeric (Some s) = JS.trim s)
  /\ (forall v,
        table_lookup VERBAL_NUMBERS (JS.toLowerCase (JS.trim s)) = Some v ->
        convertVerbalToNumeric (Some s) = v
        /\ JSMore.is_number_string v = true).
Proof.
  split.
  - intros Hn. unfold convertVerbalToNumeric.
    assert (Hs : s <> "").
    { apply VerbalFacts.trim_nonempty. intros E. by rewrite E in Hn. }
    rewrite (FormatFacts.truthy_nonempty s Hs). cbn [negb JS.or_empty].
    assert (Hd : JSMore.all_digits (JS.trim s) = true).
    { unfold JSMore.is_number_string in Hn. by apply andb_true_iff in Hn as [_ ?]. }
    by rewrite (CaseFacts.toLowerCase_digits _ Hd), Hn.
  - intros v Hv.
    assert (Hk : negb (JSMore.is_number_string (JS.toLowerCase (JS.trim s)))
                 && negb (String.eqb (JS.toLowerCase (JS.trim s)) "") = true).
    { apply (CaseFacts.keys_all_lookup
               (fun k => negb (JSMore.is_number_string k) && negb (String.eqb k ""))
               VERBAL_NUMBERS _ v); [by vm_compute|exact Hv]. }
    apply andb_true_iff in Hk as [Hnum Hne].
    split.
    + unfold convertVerbalToNumeric.
      assert (Hs : s <> "").
      { intros ->. by cbn in Hne. }
      rewrite (FormatFacts.truthy_nonempty s Hs). cbn [negb JS.or_empty].
      apply negb_true_iff in Hnum. by rewrite Hnum, Hv.
    + apply (CaseFacts.values_all_lookup JSMore.is_number_string
               VERBAL_NUMBERS (JS.toLowerCase (JS.trim s)) v); [by vm_compute|exact Hv].
Qed.

Lemma convertVerbalToNumeric_known_witness :
  convertVerbalToNumeric (Some " 0123 ") = JS.trim " 0123 "
  /\ convertVerbalToNumeric (Some " Twelve") = "12".
Proof.
  split.
  - apply (proj1 (convertVerbalToNumeric_known " 0123 ")). reflexivity.
  - apply (proj2 (convertVerbalToNumeric_known " Twelve") "12"). reflexivity.
Defined.

Module ZipFacts.

Lemma match_digits_5_shape s : forall z,
  JS.match_digits_5 s = Some z ->
  String.length z = 5%nat /\ JSMore.all_digits z = true.
Proof.
  induction s as [|c s IH]; intros z; [done|].
  cbn [JS.match_digits_5].
  destruct s as [|c1 [|c2 [|c3 [|c4 s']]]]; try done.
  destruct (JS.is_digit c && JS.is_digit c1 && JS.is_digit c2 && JS.is_digit c3
            && JS.is_digit c4) eqn:E.
  - intros [= <-]. split; [done|]. cbn [JSMore.all_digits].
    rewrite !andb_true_iff in E. destruct E as [[[[-> ->] ->] ->] ->]. done.
  - apply IH.
Qed.

End ZipFacts.

(** X7: the zip [parseAddress] extracts is absent (when there is no
    address), empty, or a string of exactly five digits. *)
Theorem parseAddress_zip (addressString : option string) :
  addrZip (parseAddress addressString) = None /\ JS.truthy addressString = false
  \/ addrZip (parseAddress addressString) = Some ""
  \/ exists z, addrZip (parseAddress addressString) = Some z
       /\ String.length z = 5%nat /\ JSMore.all_digits z = true.
Proof.
  unfold parseAddress. destruct (JS.truthy addressString); [|by left]. right.
  cbn [negb].
  destruct (map JS.trim (JS.split "," (JS.trim (JS.or_empty addressString))))
    as [|p0 [|p1 [|p2 ps]]].
  - left. reflexivity.
  - left. by destruct (street_match p0) as [[? ?]|].
  - left. by destruct (street_match p0) as [[? ?]|].
  - destruct (JS.match_digits_5 p2) as [z|] eqn:E.
    + right. exists z. split; [by destruct (street_match p0) as [[? ?]|]|].
      by apply ZipFacts.match_digits_5_shape in E.
    + left. by destruct (street_match p0) as [[? ?]|].
Qed.

Section CreatorOutcome.
Context (secrets : Secrets).
Context (athena_post : string -> list (string * string) -> outcome string).

Lemma create_try_threw patientData now w message :
  (create_try secrets athena_post patientData now w).1 = Threw message ->
  let w' := (create_try secrets athena_post patientData now w).2 in
  queue w' = queue w /\ errors w' = errors w /\ api_tokens w' = api_tokens w
  /\ topic_book_appointment w' = topic_book_appointment w
  /\ topic_patient_activity w' = topic_patient_activity w
  /\ topic_create_patient w' = topic_create_patient w.
Proof.
  cbn zeta. unfold create_try.
  destruct (api_tokens w) as [tok|] eqn:Htok; [|cbn; tauto].
  destruct (_ || _); [cbn; tauto|].
  destruct (_ && _); [cbn; tauto|].
  destruct (athena_post _ _) as [pid|msg]; [|cbn; tauto].
  destruct (negb (JS.truthy (PD.id patientData))); [cbn; tauto|].
  destruct (markCompleted _ _ _ _) as [w2|] eqn:E; [|cbn; tauto].
  by destruct (JS.truthy (PD.appointmentId patientData)).
Qed.

Lemma create_try_returned patientData now w res :
  (create_try secrets athena_post patientData now w).1 = Returned res ->
  let w' := (create_try secrets athena_post patientData now w).2 in
  exists i r,
    PD.id patientData = Some i /\ i <> "" /\ queue w !! i = Some r
    /\ res = {| createSuccess := true;
                createdPatientId := createdPatientId res |}
    /\ queue w' = <[i := Intake.complete (createdPatientId res) now r]> (queue w)
    /\ (exists doc, patients w' = <[i := doc]> (patients w)
                    /\ patientAthenaId doc = createdPatientId res
                    /\ patientFields doc = patientData)
    /\ topic_book_appointment w'
       = (topic_book_appointment w
          ++ if JS.truthy (PD.appointmentId patientData)
             then [booking_message patientData (createdPatientId res)]
             else [])%list
    /\ topic_patient_activity w'
       = (topic_patient_activity w
          ++ [{| actPatientId := createdPatientId res;
                 actLastName := PD.lastName patientData;
                 activityType := "PATIENT_CREATED"; actStatus := "success";
                 actSource := None |}])%list
    /\ errors w' = errors w /\ api_tokens w' = api_tokens w.
Proof.
  cbn zeta. unfold create_try.
  destruct (api_tokens w) as [tok|] eqn:Htok; [|done].
  destruct (_ || _); [done|].
  destruct (_ && _); [done|].
  destruct (athena_post _ _) as [pid|msg]; [|done].
  destruct (negb (JS.truthy (PD.id patientData))) eqn:Hid; [done|].
  destruct (markCompleted _ _ _ _) as [w2|] eqn:E; [|done].
  unfold markCompleted in E.
  apply queue_update_lookup in E as (i & r & Hi & Hne & Hr & ->).
  cbn [fst snd]. intros [= <-]. exists i, r. cbn in Hr.
  split; [done|]. split; [done|]. split; [done|]. split; [done|].
  rewrite Hi. cbn [JS.or_empty].
  destruct (JS.truthy (PD.appointmentId patientData)); cbn;
    rewrite ?app_nil_r; repeat split; eauto.
  unfold booking_message. by rewrite Hi.
Qed.

End CreatorOutcome.

(** X8: when [createAthenaPatient] throws, it has published no booking request
    and no activity and left the credential alone; it has logged exactly one
    [patient_creation] error, carrying the message of the first failure.
    When the intake document exists that failure is rethrown and the
    document is marked [error] with it; when the message carries no usable
    id or the document is missing, the queue is unchanged and the rethrown
    error is the one of the failed update. *)
Theorem createAthenaPatient_threw secrets athena_post patientData now w message :
  (createAthenaPatient secrets athena_post patientData now w).1 = Threw message ->
  let w' := (createAthenaPatient secrets athena_post patientData now w).2 in
  topic_book_appointment w' = topic_book_appointment w
  /\ topic_patient_activity w' = topic_patient_activity w
  /\ api_tokens w' = api_tokens w
  /\ exists cause,
       errors w'
       = (errors w ++ [{| errType := "patient_creation"; errMessage := cause;
                          errTimestamp := now |}])%list
       /\ (forall i r,
             PD.id patientData = Some i -> i <> "" -> queue w !! i = Some r ->
             message = cause
             /\ queue w' = <[i := Intake.fail cause now r]> (queue w))
       /\ ((forall i, PD.id patientData = Some i ->
                      i = "" \/ queue w !! i = None) ->
           queue w' = queue w
           /\ (message = INVALID_PATH \/ message = NOT_FOUND)).
Proof.
  cbn zeta. unfold createAthenaPatient.
  pose proof (create_try_threw secrets athena_post patientData now w) as Ht.
  pose proof (create_try_returned secrets athena_post patientData now w) as Hr.
  destruct (create_try secrets athena_post patientData now w)
    as [[res|cause] w1]; [done|].
  clear Hr. destruct (Ht cause eq_refl) as (Hq & He & Hc & Hb & Ha & _).
  cbn [fst snd] in Hq, He, Hc, Hb, Ha.
  destruct (PD.id patientData) as [i|] eqn:Hid.
  2:{ cbn. intros [= <-]. split; [done|]. split; [done|]. split; [done|].
      exists cause. rewrite He. split; [done|]. split; [done|]. auto. }
  destruct (String.eqb i "") eqn:Hi.
  { apply String.eqb_eq in Hi as ->. cbn. intros [= <-].
    split; [done|]. split; [done|]. split; [done|].
    exists cause. rewrite He. split; [done|]. split; [|auto].
    by intros i' r' [= <-]. }
  apply String.eqb_neq in Hi.
  destruct (markError _ _ _ _) as [w2|] eqn:E.
  - unfold markError in E.
    apply queue_update_lookup in E as (i' & r & [= <-] & _ & Hr & ->).
    cbn in Hr |- *. rewrite Hq in Hr. intros [= <-].
    split; [done|]. split; [done|]. split; [done|].
    exists cause. rewrite He, Hq.
    split; [done|]. split.
    + intros i' r' [= <-] _ Hr'. rewrite Hr in Hr'. by injection Hr' as <-.
    + intros H. destruct (H i eq_refl) as [?|Hn]; [done|]. congruence.
  - cbn. intros [= <-]. split; [done|]. split; [done|]. split; [done|].
    exists cause. rewrite He. split; [done|]. split; [|auto].
    intros i' r' [= <-] _ Hr'. exfalso.
    unfold markError, queue_update in E. cbn in E.
    apply String.eqb_neq in Hi. rewrite Hi in E.
    unfold ref_update in E. cbn in E. rewrite Hq, Hr' in E. done.
Qed.

Lemma createAthenaPatient_threw_witness :
  let res :=
    createAthenaPatient Examples.secrets Examples.athena_ok
      (Examples.payload (Some "doc-a") None) 2000 Examples.one_processing in
  topic_book_appointment res.2 = []
  /\ topic_patient_activity res.2 = []
  /\ length (errors res.2) = 1%nat.
Proof.
  pose proof (createAthenaPatient_threw Examples.secrets Examples.athena_ok
                (Examples.payload (Some "doc-a") None) 2000
                Examples.one_processing missing_fields_message eq_refl) as H.
  cbn zeta in H. destruct H as (H1 & H2 & _ & cause & H4 & _).
  cbn zeta. rewrite H1, H2, H4. repeat split.
Defined.

(** X9: when [createAthenaPatient] returns, the message carried the id of an
    existing intake document; that document is [completed] with the patient
    id the AthenaHealth call returned, the patient is recorded under the same
    id, one [PATIENT_CREATED] activity is published, a booking request is
    published exactly when the message carries an appointment id (its type
    defaulting to 15), and no error is logged. *)
Theorem createAthenaPatient_returned secrets athena_post patientData now w res :
  (createAthenaPatient secrets athena_post patientData now w).1 = Returned res ->
  let w' := (createAthenaPatient secrets athena_post patientData now w).2 in
  exists i r,
    PD.id patientData = Some i /\ i <> "" /\ queue w !! i = Some r
    /\ createSuccess res = true
    /\ queue w' = <[i := Intake.complete (createdPatientId res) now r]> (queue w)
    /\ (exists doc, patients w' = <[i := doc]> (patients w)
                    /\ patientAthenaId doc = createdPatientId res
                    /\ patientFields doc = patientData)
    /\ topic_book_appointment w'
       = (topic_book_appointment w
          ++ if JS.truthy (PD.appointmentId patientData)
             then [booking_message patientData (createdPatientId res)]
             else [])%list
    /\ topic_patient_activity w'
       = (topic_patient_activity w
          ++ [{| actPatientId := createdPatientId res;
                 actLastName := PD.lastName patientData;
                 activityType := "PATIENT_CREATED"; actStatus := "success";
                 actSource := None |}])%list
    /\ errors w' = errors w /\ api_tokens w' = api_tokens w.
Proof.
  cbn zeta. unfold createAthenaPatient.
  pose proof (create_try_returned secrets athena_post patientData now w) as Hr.
  destruct (create_try secrets athena_post patientData now w)
    as [[res'|cause] w1].
  - cbn [fst snd] in *. intros [= <-].
    destruct (Hr res' eq_refl) as (i & r & H1 & H2 & H3 & H4 & H5).
    exists i, r. split; [done|]. split; [done|]. split; [done|].
    split; [by rewrite H4|]. done.
  - cbn [fst snd]. destruct (PD.id patientData) as [i|]; [|done].
    destruct (String.eqb i ""); [done|].
    by destruct (markError _ _ _ _).
Qed.

Lemma createAthenaPatient_returned_witness :
  let res :=
    createAthenaPatient Examples.secrets Examples.athena_ok
      (Examples.payload (Some "doc-a") (Some "1990-01-15")) 2000
      Examples.one_processing in
  status_of res.2 "doc-a" = Some "completed"
  /\ length (topic_book_appointment res.2) = 1%nat.
Proof.
  pose proof (createAthenaPatient_returned Examples.secrets Examples.athena_ok
                (Examples.payload (Some "doc-a") (Some "1990-01-15")) 2000
                Examples.one_processing
                {| createSuccess := true; createdPatientId := "P-1001" |}
                eq_refl) as H.
  cbn zeta in H. destruct H as (i & r & Hi & _ & Hr & _ & Hq & _ & Hb & _).
  injection Hi as <-. cbn zeta. unfold status_of. rewrite Hq, Hb.
  rewrite lookup_insert_eq. split; reflexivity.
Defined.

Module ValidationFacts.

Lemma formatDateForAthena_nonempty s :
  s <> "" -> formatDateForAthena (Some s) <> "".
Proof.
  intros Hne. unfold formatDateForAthena.
  rewrite (FormatFacts.truthy_nonempty s Hne). cbn [negb JS.or_empty].
  destruct (JS.split "-" s) as [|p0 [|p1 [|p2 [|p3 ps]]]]; try done.
  change (p1 +:+ "/" +:+ p2 +:+ "/" +:+ p0)
    with (p1 +:+ String "/" (p2 +:+ String "/" p0)).
  apply FormatFacts.append_nonempty_r.
Qed.

Lemma truthy_Some_inv o : JS.truthy o = true -> exists s, o = Some s /\ s <> "".
Proof.
  destruct o as [s|]; [|done]. cbn. destruct (String.eqb_spec s ""); [done|].
  eauto.
Qed.

Lemma eqb_false_of_ne (a b : string) : a <> b -> String.eqb a b = false.
Proof. by intros H; apply String.eqb_neq. Qed.

(** What an empty list of validation errors says of the fields. *)
Lemma validation_errors_nil patientData :
  BlandWebhook.validation_errors patientData = [] ->
  JS.truthy (PD.firstName patientData) = true
  /\ JS.truthy (PD.lastName patientData) = true
  /\ JS.truthy (PD.dateOfBirth patientData) = true
  /\ negb (JS.truthy (PD.email patientData))
     && negb (JS.truthy (PD.phone patientData))
     && negb (JS.truthy (PD.zip patientData)) = false.
Proof.
  unfold BlandWebhook.validation_errors.
  destruct (JS.truthy (PD.firstName patientData)); [|done].
  destruct (JS.truthy (PD.lastName patientData)); [|done].
  destruct (JS.truthy (PD.dateOfBirth patientData)); [|done].
  by destruct (_ && _).
Qed.

Lemma append_if_In k v payload x :
  In x payload -> In x (append_if k v payload).
Proof.
  intros H. unfold append_if. destruct (String.eqb v ""); [done|].
  apply in_or_app. by left.
Qed.

End ValidationFacts.

Section Composition.
Context (secrets : Secrets).
Context (athena_post : string -> list (string * string) -> outcome string).

(** X10: the patient creator's validation accepts what the webhook's validation
    accepted.  For a document built and accepted by the webhook of
    src/functions/bland-webhook and handed over by the intake processor,
    with a credential stored, the creator gets as far as the AthenaHealth
    call, and its outcome is the outcome of that call: it returns the
    patient id the call returned and throws only the error the call
    threw. *)
Theorem accepted_intake_passes_validation rt body vars docId r now w :
  let patientData := BlandWebhook.build_patientData rt body vars in
  BlandWebhook.validation_errors patientData = [] ->
  is_Some (api_tokens w) ->
  docId <> "" ->
  queue w !! docId = Some r ->
  Intake.data r = patientData ->
  exists payload,
    In ("dob", formatDateForAthena (PD.dateOfBirth patientData)) payload
    /\ (createAthenaPatient secrets athena_post (claim_message docId r) now w).1
       = match athena_post
                 (baseUrl secrets +:+ "/v1/" +:+ practiceId secrets +:+ "/patients")
                 payload with
         | Returned athenaPatientId =>
             Returned {| createSuccess := true;
                         createdPatientId := athenaPatientId |}
         | Threw message => Threw message
         end.
Proof.
  cbn zeta. intros Hv [tok Htok] Hne Hr Hd.
  apply ValidationFacts.validation_errors_nil in Hv as (Hf & Hl & Hb & Hc).
  set (pd := BlandWebhook.build_patientData rt body vars) in *.
  assert (Hm : claim_message docId r = PD.with_id (Some docId) pd).
  { unfold claim_message. by rewrite Hd. }
  rewrite Hm. clear Hm.
  unfold createAthenaPatient, create_try. rewrite Htok.
  change (PD.firstName (PD.with_id (Some docId) pd)) with (PD.firstName pd).
  change (PD.lastName (PD.with_id (Some docId) pd)) with (PD.lastName pd).
  change (PD.dateOfBirth (PD.with_id (Some docId) pd)) with (PD.dateOfBirth pd).
  change (PD.email (PD.with_id (Some docId) pd)) with (PD.email pd).
  change (PD.phone (PD.with_id (Some docId) pd)) with (PD.phone pd).
  change (PD.zip (PD.with_id (Some docId) pd)) with (PD.zip pd).
  change (PD.id (PD.with_id (Some docId) pd)) with (Some docId).
  rewrite Hf, Hl. cbn [negb orb].
  destruct (ValidationFacts.truthy_Some_inv _ Hb) as (dob & Hdob & Hdne).
  rewrite Hdob.
  rewrite (ValidationFacts.eqb_false_of_ne _ _
             (ValidationFacts.formatDateForAthena_nonempty dob Hdne)).
  assert (Hc' : negb (JS.truthy (PD.email pd))
                && String.eqb (cleanPhone (PD.phone pd)) ""
                && negb (JS.truthy (PD.zip pd)) = false).
  { destruct (JS.truthy (PD.email pd)); [done|].
    destruct (JS.truthy (PD.zip pd)); [by rewrite andb_false_r|].
    cbn [negb andb] in Hc |- *. rewrite andb_true_r in Hc |- *.
    apply negb_false_iff in Hc.
    apply ValidationFacts.truthy_Some_inv in Hc as (p & Hp & Hpne).
    assert (Hph : PD.phone pd
                  = Some (cleanPhone
                            (JS.or_else (JS.nullable (JS.read vars "phone"))
                               (phone_number body)))) by reflexivity.
    rewrite Hph in Hp |- *. injection Hp as Hp.
    rewrite StringFacts.cleanPhone_stable, Hp.
    by apply ValidationFacts.eqb_false_of_ne. }
  rewrite Hc'. cbv zeta.
  match goal with
  | |- context [athena_post ?u ?p] => exists p; split
  end.
  { repeat apply ValidationFacts.append_if_In. cbn. auto. }
  destruct (athena_post _ _) as [pid|message].
  - cbn [JS.truthy negb]. rewrite (ValidationFacts.eqb_false_of_ne _ _ Hne).
    cbn [negb]. unfold markCompleted, queue_update.
    cbn [JS.or_empty]. rewrite (ValidationFacts.eqb_false_of_ne _ _ Hne).
    unfold ref_update. cbn [patient_intake_queue set_patients]. rewrite Hr.
    cbn [fmap option_fmap option_map]. by destruct (JS.truthy _).
  - rewrite (ValidationFacts.eqb_false_of_ne _ _ Hne).
    unfold markError, queue_update. cbn [JS.or_empty].
    rewrite (ValidationFacts.eqb_false_of_ne _ _ Hne).
    unfold ref_update. cbn [patient_intake_queue add_error]. by rewrite Hr.
Qed.

End Composition.

Lemma accepted_intake_passes_validation_witness :
  (createAthenaPatient Examples.secrets Examples.athena_ok
     Examples.dispatch_message 1500 Examples.dispatch_2).1
  = Returned {| createSuccess := true; createdPatientId := "P-1001" |}.
Proof.
  destruct (accepted_intake_passes_validation Examples.secrets
              Examples.athena_ok (ReferenceEngine.runtime 0)
              Examples.body_complete Examples.vars_complete "doc-a"
              (Intake.claim 1000
                 (Intake.fresh
                    (BlandWebhook.build_patientData (ReferenceEngine.runtime 0)
                       Examples.body_complete
                       Examples.vars_complete) 100 None))
              1500 Examples.dispatch_2)
    as (payload & _ & H).
  - vm_compute. reflexivity.
  - vm_compute. eauto.
  - discriminate.
  - vm_compute. reflexivity.
  - reflexivity.
  - exact H.
Defined.

(** X11: without a stored credential the patient creator never reaches the
    AthenaHealth call: whatever the endpoint would answer, the handler
    throws, publishes nothing and logs one [patient_creation] error saying
    that no token was found; an existing intake document is marked [error]
    with that message. *)
Theorem createAthenaPatient_without_credential secrets post1 post2
    patientData now w :
  api_tokens w = None ->
  let res := createAthenaPatient secrets post1 patientData now w in
  res = createAthenaPatient secrets post2 patientData now w
  /\ (exists message, res.1 = Threw message)
  /\ errors res.2
     = (errors w
        ++ [{| errType := "patient_creation";
               errMessage := "No valid token found. Run token refresh first.";
               errTimestamp := now |}])%list
  /\ topic_book_appointment res.2 = topic_book_appointment w
  /\ topic_patient_activity res.2 = topic_patient_activity w
  /\ forall i r,
       PD.id patientData = Some i -> i <> "" -> queue w !! i = Some r ->
       res.1 = Threw "No valid token found. Run token refresh first."
       /\ queue res.2
          = <[i := Intake.fail "No valid token found. Run token refresh first."
                     now r]> (queue w).
Proof.
  intros Htok. cbn zeta. unfold createAthenaPatient, create_try.
  rewrite Htok. split; [done|].
  destruct (PD.id patientData) as [i|] eqn:Hid.
  2:{ cbn. split; [eauto|]. done. }
  destruct (String.eqb_spec i "") as [->|Hne].
  { cbn. split; [eauto|]. split; [done|]. split; [done|]. split; [done|].
    by intros i r [= <-]. }
  unfold markError, queue_update. cbn [JS.or_empty].
  rewrite (ValidationFacts.eqb_false_of_ne _ _ Hne).
  unfold ref_update. cbn [patient_intake_queue add_error].
  destruct (queue w !! i) as [r|] eqn:Hr; cbn.
  - split; [eauto|]. split; [done|]. split; [done|]. split; [done|].
    intros i' r' [= <-] _ Hr'. rewrite Hr in Hr'. by injection Hr' as <-.
  - split; [eauto|]. split; [done|]. split; [done|]. split; [done|].
    intros i' r' [= <-] _ Hr'. by rewrite Hr in Hr'.
Qed.

Lemma createAthenaPatient_without_credential_witness :
  let w :=
    set_queue {[ "doc-a" := Intake.fresh (Examples.payload None None) 100 None ]}
      empty_world in
  let res :=
    createAthenaPatient Examples.secrets Examples.athena_ok
      (Examples.payload (Some "doc-a") (Some "1990-01-15")) 2000 w in
  res.1 = Threw "No valid token found. Run token refresh first."
  /\ status_of res.2 "doc-a" = Some "error".
Proof.
  cbn zeta.
  pose proof (createAthenaPatient_without_credential Examples.secrets
                Examples.athena_ok Examples.athena_ok
                (Examples.payload (Some "doc-a") (Some "1990-01-15")) 2000
                (set_queue
                   {[ "doc-a" :=
                        Intake.fresh (Examples.payload None None) 100 None ]}
                   empty_world) eq_refl) as H.
  cbn zeta in H. destruct H as (_ & _ & _ & _ & _ & H).
  destruct (H "doc-a" (Intake.fresh (Examples.payload None None) 100 None)
              eq_refl ltac:(discriminate) ltac:(apply lookup_singleton_eq))
    as [H1 H2].
  split; [exact H1|]. unfold status_of. rewrite H2.
  by rewrite lookup_insert_eq.
Defined.

Module QueueFacts.

Lemma filter_nil_of_none {A} (P : A -> Prop) `{!forall x, Decision (P x)}
    (l : list A) :
  (forall x, x ∈ l -> ~ P x) -> filter P l = [].
Proof.
  induction l as [|x l IH]; intros Hnone; [done|].
  rewrite filter_cons_False; [|apply Hnone; by left].
  apply IH. intros y Hy. apply Hnone. by right.
Qed.

Lemma take_all {A} (l : list A) n : (length l <= n)%nat -> take n l = l.
Proof. apply take_ge. Qed.

(** The loop of the reconciler on documents none of which needs a reset. *)
Lemma requeue_docs_idle ago docs w :
  (forall kv, kv ∈ docs ->
     needs_requeue ago kv.2 = false
     /\ (Intake.status kv.2 = "processing" ->
         is_Some (Intake.processingStarted kv.2))) ->
  requeue_docs docs ago w = (Returned tt, w).
Proof.
  induction docs as [|[i r] docs IH]; intros H; [done|].
  destruct (H (i, r)) as [Hn Hs]; [by left|]. cbn [fst snd] in Hn, Hs.
  cbn [requeue_docs]. unfold needs_requeue in Hn.
  destruct (String.eqb_spec (Intake.status r) "error"); [discriminate|].
  assert (Hrest : requeue_docs docs ago w = (Returned tt, w)).
  { apply IH. intros kv Hkv. apply H. by right. }
  destruct (String.eqb_spec (Intake.status r) "processing") as [Hp|]; [|done].
  destruct (Hs Hp) as [t Ht]. rewrite Ht in Hn |- *. cbn in Hn.
  by rewrite Hn.
Qed.

End QueueFacts.

(** X12: a run of the intake processor on a queue with at most ten pending
    documents leaves no pending document behind, and a run that follows it
    with nothing enqueued in between finds nothing: it answers
    [{processed: 0}] and changes nothing. *)
Theorem processIntakeQueue_drains (now : Z) (w : World) :
  (length (filter (fun kv => Intake.status kv.2 = "pending")
             (map_to_list (queue w))) <= 10)%nat ->
  let w' := (processIntakeQueue now w).2 in
  (forall i, status_of w' i <> Some "pending")
  /\ query_pending w' = []
  /\ forall now',
       processIntakeQueue now' w'
       = (Returned {| queueSuccess := None; processed := 0 |}, w').
Proof.
  intros Hlen. cbn zeta.
  set (pending := filter (fun kv => Intake.status kv.2 = "pending")
                    (map_to_list (queue w))) in *.
  assert (Hdocs : query_pending w = pending).
  { unfold query_pending. by apply QueueFacts.take_all. }
  destruct (claim_docs_present now (query_pending w) 0 w) as (w1 & Hrun & Hq & _).
  { intros [i r] H. apply query_pending_elem in H as [H _]. cbn. by rewrite H. }
  assert (Hres : (processIntakeQueue now w).2 = w1).
  { unfold processIntakeQueue, processSnapshot.
    destruct (query_pending w) as [|kv docs'] eqn:E.
    - cbn in Hrun. by injection Hrun as <-.
    - by rewrite Hrun. }
  rewrite Hres.
  assert (Hnone : forall i, status_of w1 i <> Some "pending").
  { intros i. unfold status_of. rewrite Hq.
    destruct (decide (i ∈ (query_pending w).*1)) as [Hin|Hout].
    - by destruct (queue w !! i).
    - destruct (queue w !! i) as [r|] eqn:Hr; [|done]. cbn.
      intros [= Hs]. apply Hout, list_elem_of_fmap. exists (i, r).
      split; [done|]. rewrite Hdocs. unfold pending.
      apply list_elem_of_filter. split; [done|].
      by apply elem_of_map_to_list. }
  assert (Hempty : query_pending w1 = []).
  { unfold query_pending.
    rewrite (QueueFacts.filter_nil_of_none _ (map_to_list (queue w1))); [done|].
    intros [i r] Hin%elem_of_map_to_list Hs. cbn in Hs.
    apply (Hnone i). unfold status_of. by rewrite Hin, <- Hs. }
  split; [exact Hnone|]. split; [exact Hempty|].
  intros now'. unfold processIntakeQueue. by rewrite Hempty.
Qed.

Lemma processIntakeQueue_drains_witness :
  query_pending (processIntakeQueue 1000 Examples.one_pending).2 = [].
Proof.
  apply (processIntakeQueue_drains 1000 Examples.one_pending).
  vm_compute. lia.
Defined.

(** X13: after a pass of the reconciler over a stamped store no document has
    status [error], every document is still there with its payload, and a
    second pass with the same clock reading changes nothing. *)
Theorem reprocessFailedIntakes_settles (now : Z) (w : World) :
  stamped w ->
  let w' := (reprocessFailedIntakes now w).2 in
  (forall i, status_of w' i <> Some "error")
  /\ (forall i r, queue w !! i = Some r ->
        exists r', queue w' !! i = Some r'
                   /\ Intake.data r' = Intake.data r
                   /\ Intake.retryCount r' = Intake.retryCount r)
  /\ reprocessFailedIntakes now w' = (Returned tt, w').
Proof.
  intros Hok. cbn zeta. unfold reprocessFailedIntakes.
  set (ago := (now - 15 * 60 * 1000)%Z).
  destruct (requeue_docs_present ago (query_failed w) w) as (w' & Hrun & Hq).
  { intros [i r] [Hr _]%query_failed_elem. cbn. split; [by rewrite Hr|].
    apply (Hok i r Hr). }
  rewrite Hrun. cbn [snd].
  assert (Hdoc : forall i r', queue w' !! i = Some r' ->
            exists r, queue w !! i = Some r
              /\ r' = if needs_requeue ago r then Intake.requeue r else r).
  { intros i r' Hr'. rewrite Hq in Hr'.
    destruct (queue w !! i) as [r|] eqn:Hr.
    - rewrite (requeued_in_spec _ _ _ _ Hr) in Hr'. exists r. split; [done|].
      destruct (needs_requeue ago r); cbn in Hr'; congruence.
    - by destruct (requeued_in ago (query_failed w) i). }
  split; [|split].
  - intros i. unfold status_of.
    destruct (queue w' !! i) as [r'|] eqn:Hr'; [|done].
    destruct (Hdoc i r' Hr') as (r & Hr & ->). cbn.
    destruct (needs_requeue ago r) eqn:Hn; [done|].
    intros [= Hs]. unfold needs_requeue in Hn. by rewrite Hs in Hn.
  - intros i r Hr. pose proof (Hq i) as Hi.
    rewrite (requeued_in_spec _ _ _ _ Hr), Hr in Hi.
    destruct (needs_requeue ago r); cbn in Hi; eauto.
  - apply QueueFacts.requeue_docs_idle.
    intros [i r'] [Hr' Hs]%query_failed_elem. cbn [fst snd].
    destruct (Hdoc i r' Hr') as (r & Hr & ->).
    destruct (needs_requeue ago r) eqn:Hn.
    + cbn in Hs. by destruct Hs.
    + split; [done|]. apply (Hok i r Hr).
Qed.

Lemma reprocessFailedIntakes_settles_witness :
  status_of (reprocessFailedIntakes 2000000 Examples.claimed).2 "doc-a"
  <> Some "error".
Proof.
  apply (reprocessFailedIntakes_settles 2000000 Examples.claimed
           (reachable_stamped _ claimed_reachable)).
Defined.

Module PersistFacts.

Lemma same_intake_refl r : same_intake r r.
Proof. by repeat split. Qed.

Lemma same_intake_trans r1 r2 r3 :
  same_intake r1 r2 -> same_intake r2 r3 -> same_intake r1 r3.
Proof. intros (? & ? & ?) (? & ? & ?). repeat split; congruence. Qed.

Lemma insert_keeps (q : gmap string Intake.t) newId i r d :
  q !! i = Some r ->
  exists r', <[newId := d]> q !! i = Some r'
             /\ (q !! newId = None -> same_intake r r').
Proof.
  intros Hr. destruct (decide (newId = i)) as [->|Hne].
  - rewrite lookup_insert_eq. exists d. split; [done|]. congruence.
  - rewrite lookup_insert_ne by done. exists r. split; [done|].
    intros _. apply same_intake_refl.
Qed.

(** One run of a handler keeps every document; a run that goes through the
    dispatcher keeps its payload, creation time and retry counter. *)
Lemma exec_keeps o w i r :
  queue w !! i = Some r ->
  exists r', queue (exec o w) !! i = Some r'
             /\ (through_dispatcher o -> enabled o w -> same_intake r r').
Proof.
  intros Hr.
  assert (Hsame : exists r', queue w !! i = Some r'
            /\ (through_dispatcher o -> enabled o w -> same_intake r r')).
  { exists r. split; [done|]. intros _ _. apply same_intake_refl. }
  destruct o; cbn [exec].
  - destruct (blandWebhook_effect rt body now hour newId w)
      as (_ & [->|(pd & _ & ->)]); [done|].
    destruct (insert_keeps (queue w) newId i r (Intake.fresh pd now None) Hr)
      as (r' & H1 & H2). exists r'. split; [done|]. intros _ He. by apply H2.
  - destruct (blandWebhook_handler_effect webhookSecret expected req now w)
      as [->|(j & pd & ->)]; [done|].
    destruct (insert_keeps (queue w) j i r (Intake.fresh pd now (Some 0%Z)) Hr)
      as (r' & H1 & _). exists r'. split; [done|]. by intros [].
  - destruct (blandWebhook_part_000_effect body now newId w)
      as (_ & [->|(pd & _ & ->)]); [done|].
    destruct (insert_keeps (queue w) newId i r (Intake.fresh pd now None) Hr)
      as (r' & H1 & H2). exists r'. split; [done|]. intros _ He. by apply H2.
  - destruct (blandWebhook_part_001_effect body now newId w)
      as (_ & [->|(pd & _ & ->)]); [done|].
    destruct (insert_keeps (queue w) newId i r (Intake.fresh pd now None) Hr)
      as (r' & H1 & H2). exists r'. split; [done|]. intros _ He. by apply H2.
  - unfold processIntakeQueue.
    destruct (processSnapshot_queue (query_pending w) now w i)
      as [->|(r0 & Hr0 & ->)]; [done|].
    rewrite Hr in Hr0. injection Hr0 as <-. eexists. split; [done|].
    intros _ _. by repeat split.
  - destruct (createAthenaPatient_effect secrets athena_post message now w)
      as (_ & Hq).
    destruct (Hq i) as [->|(_ & r0 & Hr0 & [[pid ->]|[msg ->]])]; [done|..];
      rewrite Hr in Hr0; injection Hr0 as <-; (eexists; split; [done|]);
      intros _ _; by repeat split.
  - destruct (bookAppointment_effect secrets athena_put message now w)
      as (_ & Hq).
    destruct (Hq i) as [->|(r0 & conf & Hr0 & ->)]; [done|].
    rewrite Hr in Hr0. injection Hr0 as <-. eexists. split; [done|].
    intros _ _. by repeat split.
  - unfold reprocessFailedIntakes.
    destruct (requeue_docs_queue (now - 15 * 60 * 1000) (query_failed w) w i)
      as [->|(r0 & Hr0 & ->)]; [done|].
    rewrite Hr in Hr0. injection Hr0 as <-. eexists. split; [done|].
    intros _ _. by repeat split.
  - by destruct (refreshAthenaToken_queue fetched now w) as [-> _].
Qed.

End PersistFacts.

(** X14: no handler deletes an intake document: a document found in some
    world of a history is found in the newest world.  When every run of the
    history goes through the dispatcher, the document still carries the
    payload, the creation time and the retry counter it had: the status
    updates never touch them, and no run counts a retry. *)
Theorem intake_documents_persist allowed hist w past w0 i r :
  history allowed hist -> hist = w :: past ->
  w0 ∈ hist -> queue w0 !! i = Some r ->
  exists r', queue w !! i = Some r'
             /\ ((forall o, allowed o -> through_dispatcher o) ->
                 same_intake r r').
Proof.
  intros Hh. revert w past w0 r.
  induction Hh as [|o w1 past1 Hh IH Ha He]; intros w past w0 r Heq Hin Hr.
  - injection Heq as <- <-. apply list_elem_of_singleton in Hin as ->.
    exists r. split; [done|]. intros _. apply PersistFacts.same_intake_refl.
  - injection Heq as <- <-. apply elem_of_cons in Hin as [->|Hin].
    + exists r. split; [done|]. intros _. apply PersistFacts.same_intake_refl.
    + destruct (IH w1 past1 w0 r eq_refl Hin Hr) as (r1 & Hr1 & Hs1).
      destruct (PersistFacts.exec_keeps o w1 i r1 Hr1) as (r2 & Hr2 & Hs2).
      exists r2. split; [done|]. intros Hall.
      eapply PersistFacts.same_intake_trans; [by apply Hs1|].
      apply Hs2; [by apply Hall|done].
Qed.

Lemma intake_documents_persist_witness :
  exists r',
    queue Examples.dispatch_3 !! "doc-a" = Some r'
    /\ same_intake
         (Intake.fresh
            (BlandWebhook.build_patientData (ReferenceEngine.runtime 0)
               Examples.body_complete
               Examples.vars_complete) 100 None) r'.
Proof.
  destruct (intake_documents_persist through_dispatcher _ Examples.dispatch_3 _
              Examples.dispatch_1 "doc-a"
              (Intake.fresh
                 (BlandWebhook.build_patientData (ReferenceEngine.runtime 0)
                    Examples.body_complete
                    Examples.vars_complete) 100 None)
              dispatch_history eq_refl)
    as (r' & Hr' & Hs).
  - apply elem_of_cons. right. apply elem_of_cons. right.
    apply elem_of_cons. by left.
  - vm_compute. reflexivity.
  - exists r'. split; [exact Hr'|]. apply Hs. by intros o Ho.
Defined.

Module FrameFacts.

Lemma ref_update_stores i f w w' :
  ref_update i f w = Some w' -> stores w' = stores w.
Proof. by intros (r & _ & ->)%ref_update_inv. Qed.

Lemma queue_update_stores docId f w w' :
  queue_update docId f w = Some w' -> stores w' = stores w.
Proof. by intros (i & r & _ & _ & _ & ->)%queue_update_lookup. Qed.

Lemma claim_docs_stores now docs : forall c w,
  stores (claim_docs docs now c w).2 = stores w.
Proof.
  induction docs as [|[i r] docs IH]; intros c w; [done|].
  cbn [claim_docs]. destruct (ref_update i _ w) as [w1|] eqn:E; [|done].
  rewrite IH. by apply ref_update_stores in E.
Qed.

Lemma requeue_docs_stores ago docs : forall w,
  stores (requeue_docs docs ago w).2 = stores w.
Proof.
  induction docs as [|[i r] docs IH]; intros w; [done|].
  cbn [requeue_docs].
  destruct (String.eqb (Intake.status r) "error").
  - destruct (ref_update i _ w) as [w1|] eqn:E; [|done].
    rewrite IH. by apply ref_update_stores in E.
  - destruct (String.eqb (Intake.status r) "processing"); [|apply IH].
    destruct (Intake.processingStarted r) as [t|]; [|done].
    destruct (t <? ago)%Z; [|apply IH].
    destruct (ref_update i _ w) as [w1|] eqn:E; [|done].
    rewrite IH. by apply ref_update_stores in E.
Qed.

Lemma prefix_snoc {A} (l : list A) x : l `prefix_of` (l ++ [x])%list.
Proof. by exists [x]. Qed.

End FrameFacts.

(** X15: among the handlers of the transition system every collection has
    its writers.  The credential and the refresh log change only in a run of
    [refreshAthenaToken], the patients collection only in a run of
    [createAthenaPatient], the appointments collection only in a run of
    [bookAppointment], the records of failed and incomplete calls only in a
    run of the webhook of src/functions/bland-webhook, which alone writes
    to [webhook_errors] too; and no run removes or rewrites a logged error:
    the errors collection only grows at its end. *)
Theorem collections_have_single_writers (o : op) (w : World) :
  ((api_tokens (exec o w) = api_tokens w
    /\ token_refresh_log (exec o w) = token_refresh_log w)
   \/ exists fetched now, o = OpRefreshAthenaToken fetched now)
  /\ (patients (exec o w) = patients w
      \/ exists secrets post message now,
           o = OpCreateAthenaPatient secrets post message now)
  /\ (appointments (exec o w) = appointments w
      \/ exists secrets put message now,
           o = OpBookAppointment secrets put message now)
  /\ ((bland_failed_calls (exec o w) = bland_failed_calls w
       /\ bland_incomplete_records (exec o w) = bland_incomplete_records w
       /\ webhook_errors (exec o w) = webhook_errors w)
      \/ exists rt body now hour newId, o = OpWebhook rt body now hour newId)
  /\ errors w `prefix_of` errors (exec o w).
Proof.
  assert (Hall : forall w',
            stores w' = stores w \/
            (exists e, stores (add_error e w) = stores w') ->
            (api_tokens w' = api_tokens w
             /\ token_refresh_log w' = token_refresh_log w)
            /\ patients w' = patients w
            /\ appointments w' = appointments w
            /\ (bland_failed_calls w' = bland_failed_calls w
                /\ bland_incomplete_records w' = bland_incomplete_records w
                /\ webhook_errors w' = webhook_errors w)
            /\ errors w `prefix_of` errors w').
  { intros w' [H|[e H]]; unfold stores in H; cbn in H;
      injection H as H1 H2 H3 H4 H5 H6 H7 H8.
    - rewrite H1, H2, H3, H4, H5, H6, H7, H8. done.
    - rewrite <- H1, <- H2, <- H3, <- H4, <- H5, <- H6, <- H7, <- H8.
      repeat split. apply FrameFacts.prefix_snoc. }
  destruct o; cbn [exec].
  - (* the webhook *)
    split; [left|split; [left|split; [left|split; [right; eauto 10|]]]];
      unfold BlandWebhook.blandWebhook, BlandWebhook.webhook_try;
      (destruct (negb (BlandWebhook.completed body));
       [by destruct (negb (all_defined _))|]);
      (destruct (destructured_variables body); [|done]);
      (destruct (BlandWebhook.validation_errors _);
       [|by destruct (negb (all_defined _))]);
      (destruct (negb (all_defined _)); [done|]);
      by destruct (_ && _)%Z.
  - (* the handler of part_002 *)
    assert (H : stores (BlandWebhookHandler.blandWebhook webhookSecret expected
                          req now w).2 = stores w
                \/ exists e, stores (add_error e w)
                   = stores (BlandWebhookHandler.blandWebhook webhookSecret
                               expected req now w).2).
    { unfold BlandWebhookHandler.blandWebhook, BlandWebhookHandler.failed.
      destruct (_ && _); [by left|].
      destruct (variables _); [right; eauto..|].
      destruct (negb _); [right; eauto|by left]. }
    destruct (Hall _ H) as (H1 & H2 & H3 & H4 & H5). auto 10.
  - assert (H : stores (CleanedWebhook.blandWebhook_part_000 body now newId w).2
                = stores w).
    { unfold CleanedWebhook.blandWebhook_part_000.
      destruct (destructured_variables body); [|done].
      rewrite appointmentData_unbound. by destruct (negb _). }
    destruct (Hall _ (or_introl H)) as (H1 & H2 & H3 & H4 & H5). auto 10.
  - assert (H : stores (CleanedWebhook.blandWebhook_part_001 body now newId w).2
                = stores w).
    { unfold CleanedWebhook.blandWebhook_part_001.
      destruct (destructured_variables body); [|done]. by destruct (negb _). }
    destruct (Hall _ (or_introl H)) as (H1 & H2 & H3 & H4 & H5). auto 10.
  - assert (H : stores (processIntakeQueue now w).2 = stores w
                \/ exists e, stores (add_error e w)
                             = stores (processIntakeQueue now w).2).
    { unfold processIntakeQueue, processSnapshot.
      destruct (query_pending w) as [|kv docs]; [by left|].
      pose proof (FrameFacts.claim_docs_stores now (kv :: docs) 0 w) as Hs.
      destruct (claim_docs (kv :: docs) now 0 w) as [[n|msg] w']; [by left|].
      right. eexists. cbn [snd] in *. unfold stores in *. cbn.
      injection Hs as -> -> -> -> -> -> -> ->. done. }
    destruct (Hall _ H) as (H1 & H2 & H3 & H4 & H5). auto 10.
  - (* the patient creator *)
    set (w' := (createAthenaPatient secrets athena_post message now w).2).
    assert (H : exists p, stores (set_patients p w') = stores w
                \/ exists e, stores (add_error e w)
                             = stores (set_patients p w')).
    { subst w'. unfold createAthenaPatient.
      assert (Ht : exists w1,
                (create_try secrets athena_post message now w).2 = w1
                /\ stores (set_patients (patients w) w1) = stores w).
      { eexists. split; [done|]. unfold create_try.
        destruct (api_tokens w); [|done].
        destruct (_ || _); [done|]. destruct (_ && _); [done|].
        destruct (athena_post _ _); [|done].
        destruct (negb _); [done|].
        destruct (markCompleted _ _ _ _) as [w2|] eqn:E; [|done].
        unfold markCompleted in E.
        apply FrameFacts.queue_update_stores in E. cbn in E.
        unfold stores in *. cbn in E.
        destruct (JS.truthy (PD.appointmentId message)); cbn;
          injection E as -> -> _ -> -> -> -> ->; done. }
      destruct Ht as (w1 & Hw1 & Hs1).
      destruct (create_try secrets athena_post message now w) as [[res|msg] w0].
      - cbn [snd] in *. subst w0. exists (patients w). by left.
      - cbn [snd] in Hw1. subst w0. exists (patients w). right.
        eexists {| errType := "patient_creation"; errMessage := msg;
                   errTimestamp := now |}.
        assert (Hadd : stores (set_patients (patients w) (add_error
                  {| errType := "patient_creation"; errMessage := msg;
                     errTimestamp := now |} w1))
                = stores (add_error
                  {| errType := "patient_creation"; errMessage := msg;
                     errTimestamp := now |} w)).
        { unfold stores in *. cbn in *.
          injection Hs1 as -> -> -> -> -> -> ->. done. }
        destruct (PD.id message) as [i|]; [|by cbn [snd]].
        destruct (String.eqb i ""); [by cbn [snd]|].
        destruct (markError _ _ _ _) as [w2|] eqn:E; [|by cbn [snd]].
        unfold markError in E.
        apply FrameFacts.queue_update_stores in E. cbn [snd].
        rewrite <- Hadd. unfold stores in *. cbn in *.
        injection E as -> -> _ -> -> -> -> ->. done. }
    destruct H as (p & H). destruct (Hall _ H) as (H1 & _ & H3 & H4 & H5).
    split; [by left|]. split; [right; eauto|]. split; [by left|].
    split; [by left|]. done.
  - (* the appointment booker *)
    set (w' := (bookAppointment secrets athena_put message now w).2).
    split; [left|split; [left|split; [right; eauto|split; [left|]]]];
      subst w'; unfold bookAppointment, book_try;
      (destruct (api_tokens w) eqn:Htok; [|cbn; rewrite ?Htok; try done;
         apply FrameFacts.prefix_snoc]);
      (destruct (athena_put _ _); [|cbn; rewrite ?Htok; try done;
         apply FrameFacts.prefix_snoc]);
      (destruct (JS.truthy (originalRecordId message)); [|by cbn; rewrite ?Htok]);
      (destruct (queue_update _ _ _) as [w1|] eqn:E;
        [|cbn; rewrite ?Htok; try done; apply FrameFacts.prefix_snoc]);
      apply FrameFacts.queue_update_stores in E; unfold stores in E;
      injection E as E1 E2 E3 E4 E5 E6 E7 E8; cbn; rewrite ?Htok;
      by rewrite ?E1, ?E2, ?E3, ?E4, ?E5, ?E6, ?E7, ?E8.
  - pose proof (FrameFacts.requeue_docs_stores (now - 15 * 60 * 1000)
                  (query_failed w) w) as H.
    destruct (Hall _ (or_introl H)) as (H1 & H2 & H3 & H4 & H5). auto 10.
  - (* the token manager *)
    split; [right; eauto|].
    unfold refreshAthenaToken, refresh_try.
    destruct fetched as [resp|msg]; cbn.
    + destruct (access_token resp); cbn;
        repeat split; auto using FrameFacts.prefix_snoc.
    + repeat split; auto using FrameFacts.prefix_snoc.
Qed.

Module CreatorFacts.
Section Lands.
Context (secrets : Secrets).
Context (athena_post : string -> list (string * string) -> outcome string).

(** On a message whose intake document exists, the patient creator ends
    with the document completed, or with the document marked with the
    error it rethrows. *)
Lemma creator_lands patientData now w i r :
  PD.id patientData = Some i -> i <> "" -> queue w !! i = Some r ->
  let res := createAthenaPatient secrets athena_post patientData now w in
  (exists athenaPatientId,
     res.1 = Returned {| createSuccess := true;
                         createdPatientId := athenaPatientId |}
     /\ queue res.2 !! i = Some (Intake.complete athenaPatientId now r))
  \/ (exists message,
        res.1 = Threw message
        /\ queue res.2 !! i = Some (Intake.fail message now r)).
Proof.
  intros Hid Hne Hr. cbn zeta. unfold createAthenaPatient.
  pose proof (create_try_threw secrets athena_post patientData now w) as Ht.
  pose proof (create_try_returned secrets athena_post patientData now w) as Hret.
  destruct (create_try secrets athena_post patientData now w)
    as [[res|cause] w1].
  - left. destruct (Hret res eq_refl) as (i' & r' & Hi' & _ & Hr' & Hres & Hq & _).
    cbn [fst snd] in *. rewrite Hid in Hi'. injection Hi' as <-.
    rewrite Hr in Hr'. injection Hr' as <-.
    exists (createdPatientId res). rewrite Hq, lookup_insert_eq.
    split; [by rewrite Hres|done].
  - right. destruct (Ht cause eq_refl) as (Hq & _). cbn [fst snd] in Hq.
    rewrite Hid. rewrite (ValidationFacts.eqb_false_of_ne _ _ Hne).
    unfold markError, queue_update. cbn [JS.or_empty].
    rewrite (ValidationFacts.eqb_false_of_ne _ _ Hne).
    unfold ref_update. cbn [patient_intake_queue add_error].
    rewrite Hq, Hr. cbn. exists cause. by rewrite lookup_insert_eq.
Qed.

End Lands.
End CreatorFacts.

(** X16: the webhook of src/functions/bland-webhook accepts exactly the calls
    of status [completed] or [success] that carry [call_id] and
    [pathway_id], whose [variables] are not [null] and whose data pass its
    validation.  An accepted call is stored as a pending document under the
    new id and announced on [patient-activity]; the intake processor is
    triggered only when the hour is between 8 and 18, and nothing is
    published to [create-patient]. *)
Theorem blandWebhook_accepts rt body now hour newId w :
  let res := BlandWebhook.blandWebhook rt body now hour newId w in
  (accepted res.1 = true <->
   (status body = JS.Val "completed" \/ status body = JS.Val "success")
   /\ JS.defined (call_id body) = true
   /\ JS.defined (pathway_id body) = true
   /\ exists variables,
        destructured_variables body = Some variables
        /\ BlandWebhook.validation_errors
             (BlandWebhook.build_patientData rt body variables) = [])
  /\ (forall variables,
        destructured_variables body = Some variables ->
        let patientData := BlandWebhook.build_patientData rt body variables in
        accepted res.1 = true ->
        res.1 = {| code := 200;
                   json := Accepted "Patient intake received" newId None |}
        /\ queue res.2 = <[newId := Intake.fresh patientData now None]> (queue w)
        /\ topic_process_patient_queue res.2
           = (topic_process_patient_queue w
              ++ if ((8 <=? hour) && (hour <=? 18))%Z
                 then [{| trigger := "bland_webhook"; urgent := true;
                          recordId := None |}]
                 else [])%list
        /\ topic_patient_activity res.2
           = (topic_patient_activity w
              ++ [{| actPatientId := newId;
                     actLastName := PD.lastName patientData;
                     activityType := "INTAKE_RECEIVED"; actStatus := "pending";
                     actSource := Some "bland_ai" |}])%list
        /\ topic_create_patient res.2 = topic_create_patient w
        /\ stores res.2 = stores w).
Proof.
  cbn zeta. unfold BlandWebhook.blandWebhook, BlandWebhook.webhook_try.
  assert (Hcompleted : BlandWebhook.completed body = true <->
            status body = JS.Val "completed" \/ status body = JS.Val "success").
  { unfold BlandWebhook.completed. destruct (status body) as [| |s].
    - split; [done|]. by intros [?|?].
    - split; [done|]. by intros [?|?].
    - rewrite orb_true_iff. split.
      + intros [H|H]; apply String.eqb_eq in H; subst; tauto.
      + intros [[= ->]|[= ->]]; tauto. }
  destruct (BlandWebhook.completed body) eqn:Hc; cbn [negb].
  2:{ assert (Hno : ~ (status body = JS.Val "completed"
                        \/ status body = JS.Val "success")).
      { intros H. apply Hcompleted in H. done. }
      destruct (negb (all_defined _)); cbn [fst snd accepted json].
      all: split; [split; [done|tauto]|done]. }
  destruct (destructured_variables body) as [vars|] eqn:Hvars.
  2:{ cbn [fst snd accepted json]. split; [|done].
      split; [done|]. by intros (_ & _ & _ & ? & ? & _). }
  assert (Hdef : all_defined [call_id body; pathway_id body] = true <->
            JS.defined (call_id body) = true
            /\ JS.defined (pathway_id body) = true).
  { unfold all_defined. cbn [forallb]. rewrite andb_true_r.
    apply andb_true_iff. }
  destruct (BlandWebhook.validation_errors _) as [|e es] eqn:Hv.
  2:{ split; [|by destruct (negb (all_defined _))].
      split; [by destruct (negb (all_defined _))|].
      intros (_ & _ & _ & vars' & [= <-] & Hv'). by rewrite Hv in Hv'. }
  destruct (all_defined _) eqn:Hd; cbn [negb].
  2:{ cbn [fst snd accepted json]. split; [|done]. split; [done|].
      intros (_ & H1 & H2 & _).
      assert (false = true) by (apply Hdef; by split). done. }
  split.
  - split; [|done]. intros _. split; [by apply Hcompleted|].
    destruct (proj1 Hdef eq_refl) as [H1 H2]. split; [done|]. split; [done|].
    exists vars. by split.
  - intros vars' [= <-] _.
    destruct (_ && _)%Z; cbn; rewrite ?app_nil_r; done.
Qed.

Lemma blandWebhook_accepts_witness :
  topic_process_patient_queue
    (BlandWebhook.blandWebhook (ReferenceEngine.runtime 0)
       Examples.body_complete 100 20 "doc-a" empty_world).2 = [].
Proof.
  apply (proj2 (blandWebhook_accepts (ReferenceEngine.runtime 0)
                  Examples.body_complete 100 20 "doc-a" empty_world)
           Examples.vars_complete eq_refl).
  vm_compute. reflexivity.
Defined.

(** X17: the handler of part_002 checks the signature only when the request
    carries one and a secret is configured.  A request without signature
    header, or one signed as expected, is handled as if no secret were
    configured; a request with another signature is answered 401 and
    nothing is written. *)
Theorem blandWebhook_signature webhookSecret expectedSignature req now w :
  let unsigned :=
    {| BlandWebhookHandler.body := BlandWebhookHandler.body req;
       BlandWebhookHandler.x_bland_signature := None |} in
  let res :=
    BlandWebhookHandler.blandWebhook webhookSecret expectedSignature req now w in
  (BlandWebhookHandler.x_bland_signature req = None
   \/ BlandWebhookHandler.x_bland_signature req = Some expectedSignature ->
   res = BlandWebhookHandler.blandWebhook None "" unsigned now w)
  /\ (forall signature,
        BlandWebhookHandler.x_bland_signature req = Some signature ->
        signature <> "" -> signature <> expectedSignature ->
        JS.truthy webhookSecret = true ->
        res = ({| code := 401; json := Failure "Invalid signature" None |}, w)).
Proof.
  cbn zeta. unfold BlandWebhookHandler.blandWebhook. split.
  - intros [H|H]; rewrite H; cbn [JS.truthy JS.or_empty andb
      BlandWebhookHandler.body BlandWebhookHandler.x_bland_signature].
    + done.
    + rewrite String.eqb_refl. cbn [negb]. by rewrite andb_false_r.
  - intros signature H Hne Hdiff Hsecret. rewrite H, Hsecret.
    cbn [JS.or_empty]. rewrite (FormatFacts.truthy_nonempty _ Hne).
    by rewrite (ValidationFacts.eqb_false_of_ne _ _ Hdiff).
Qed.

Lemma blandWebhook_signature_witness :
  BlandWebhookHandler.blandWebhook (Some "key") "abc"
    {| BlandWebhookHandler.body := Examples.body_complete;
       BlandWebhookHandler.x_bland_signature := Some "abd" |} 500
    Examples.direct_0
  = ({| code := 401; json := Failure "Invalid signature" None |},
     Examples.direct_0).
Proof.
  apply (proj2 (blandWebhook_signature (Some "key") "abc"
                  {| BlandWebhookHandler.body := Examples.body_complete;
                     BlandWebhookHandler.x_bland_signature := Some "abd" |}
                  500 Examples.direct_0) "abd");
    [reflexivity|discriminate|discriminate|reflexivity].
Defined.

(** X18: a request the handler of part_002 accepts leaves a pending document
    under the queue id of the answer and one message on [create-patient]
    carrying that id; a run of the patient creator on this message, with
    the store as the handler left it, takes the document from [pending]
    straight to [completed] or to [error]. *)
Theorem direct_message_lands webhookSecret expectedSignature req now w :
  let res :=
    BlandWebhookHandler.blandWebhook webhookSecret expectedSignature req now w in
  accepted res.1 = true ->
  exists queueId patientData,
    res.1 = {| code := 200;
               json := Accepted "Patient creation queued successfully"
                         queueId None |}
    /\ PD.id patientData = Some queueId
    /\ queue res.2
       = <[queueId := Intake.fresh patientData now (Some 0%Z)]> (queue w)
    /\ topic_create_patient res.2
       = (topic_create_patient w ++ [patientData])%list
    /\ forall secrets athena_post now',
         let done :=
           createAthenaPatient secrets athena_post patientData now' res.2 in
         (exists athenaPatientId,
            done.1 = Returned {| createSuccess := true;
                                 createdPatientId := athenaPatientId |}
            /\ status_of done.2 queueId = Some "completed")
         \/ (exists message,
               done.1 = Threw message
               /\ status_of done.2 queueId = Some "error").
Proof.
  cbn zeta. unfold BlandWebhookHandler.blandWebhook, BlandWebhookHandler.failed.
  destruct (_ && _); [done|].
  destruct (variables (BlandWebhookHandler.body req)) as [| |vars];
    [done..|].
  destruct (negb _); [done|]. intros _.
  set (queueId := JS.template (call_id (BlandWebhookHandler.body req))
                  +:+ "_" +:+ pretty now).
  set (pd := BlandWebhookHandler.build_patientData _ vars queueId now).
  exists queueId, pd. split; [done|]. split; [done|]. split; [done|].
  split; [done|]. intros secrets athena_post now'. cbv zeta.
  set (w1 := publish_create_patient pd _).
  assert (Hne : queueId <> "").
  { subst queueId.
    change (JS.template (call_id (BlandWebhookHandler.body req))
            +:+ "_" +:+ pretty now)
      with (JS.template (call_id (BlandWebhookHandler.body req))
            +:+ String "_" (pretty now)).
    apply FormatFacts.append_nonempty_r. }
  assert (Hr : queue w1 !! queueId = Some (Intake.fresh pd now (Some 0%Z))).
  { subst w1. cbn. by rewrite lookup_insert_eq. }
  destruct (CreatorFacts.creator_lands secrets athena_post pd now' w1 queueId _
              eq_refl Hne Hr) as [(pid & H1 & H2)|(m & H1 & H2)].
  - left. exists pid. split; [done|]. unfold status_of. cbn [snd].
    by rewrite H2.
  - right. exists m. split; [done|]. unfold status_of. cbn [snd].
    by rewrite H2.
Qed.

Lemma direct_message_lands_witness :
  exists queueId patientData,
    PD.id patientData = Some queueId
    /\ topic_create_patient Examples.direct_1 = [patientData].
Proof.
  destruct (direct_message_lands None "" Examples.direct_request 500
              Examples.direct_0 eq_refl)
    as (queueId & pd & _ & Hid & _ & Ht & _).
  exists queueId, pd. split; [exact Hid|exact Ht].
Defined.

(** X19: the two receivers of cleaned data store the same document: the
    handler of part_001 writes to the intake queue and to the other
    collections exactly what the handler of part_000 writes.  It answers 200
    exactly when [variables] is not [null] and every field the document
    reads from the request is there, [null] included: a [null]
    [selected_appointment_id] is stored and answered with
    [appointmentFound] false.  It then, unlike part_000, publishes the
    trigger that names the stored document.  Otherwise it answers 500 with
    the message of the error, and nothing is written. *)
Theorem cleaned_webhooks_agree body now newId w :
  let old := CleanedWebhook.blandWebhook_part_000 body now newId w in
  let new := CleanedWebhook.blandWebhook_part_001 body now newId w in
  queue new.2 = queue old.2
  /\ stores new.2 = stores old.2
  /\ topic_create_patient new.2 = topic_create_patient old.2
  /\ topic_process_patient_queue old.2 = topic_process_patient_queue w
  /\ (accepted new.1 = CleanedWebhook.accepted_by_firestore body)
  /\ (code new.1 = 200%Z <->
      variables body <> JS.Null
      /\ forall variables,
           destructured_variables body = Some variables ->
           forall field,
             field ∈ CleanedWebhook.fields_read body variables ->
             field <> JS.Undefined)
  /\ (forall variables,
        destructured_variables body = Some variables ->
        CleanedWebhook.accepted_by_firestore body = true ->
        let patientData := CleanedWebhook.build_patientData body variables in
        new.1 = {| code := 200;
                   json := Accepted "Patient intake processed" newId
                             (Some (JS.truthy
                                      (JS.nullable
                                         (JS.read variables
                                            "selected_appointment_id")))) |}
        /\ queue new.2
           = <[newId := Intake.fresh patientData now None]> (queue w)
        /\ topic_process_patient_queue new.2
           = (topic_process_patient_queue w
              ++ [{| trigger := "bland_webhook"; urgent := true;
                     recordId := Some newId |}])%list)
  /\ (CleanedWebhook.accepted_by_firestore body = false ->
      new = ({| code := 500;
                json := Failure
                          match variables body with
                          | JS.Null => cannot_read "null" "first_name"
                          | _ => UNDEFINED_VALUE
                          end None |}, w)).
Proof.
  cbn zeta.
  assert (Hfields : forall fields : list (JS.value string),
            all_defined fields = true <->
            forall field, field ∈ fields -> field <> JS.Undefined).
  { intros fields. unfold all_defined. rewrite forallb_forall. split.
    - intros H field Hin ->. apply list_elem_of_In in Hin.
      by apply H in Hin.
    - intros H field Hin. apply list_elem_of_In in Hin.
      specialize (H field Hin). by destruct field. }
  unfold CleanedWebhook.blandWebhook_part_000,
    CleanedWebhook.blandWebhook_part_001,
    CleanedWebhook.accepted_by_firestore, destructured_variables.
  destruct (variables body) as [| |vars] eqn:Hvars.
  - rewrite appointmentData_unbound.
    destruct (all_defined _) eqn:Hd; cbn [negb fst snd code json accepted].
    + do 5 (split; [done|]). split.
      * split; [|done]. intros _. split; [done|].
        intros ? [= <-]. by apply Hfields.
      * split; [|done]. by intros ? [= <-] _.
    + do 5 (split; [done|]). split; [|done]. split; [done|].
      intros [_ H]. specialize (H ∅ eq_refl). apply Hfields in H.
      by rewrite Hd in H.
  - cbn [fst snd code json accepted]. do 5 (split; [done|]).
    split; [|done]. split; [done|]. by intros [? _].
  - rewrite appointmentData_unbound.
    destruct (all_defined _) eqn:Hd; cbn [negb fst snd code json accepted].
    + do 5 (split; [done|]). split.
      * split; [|done]. intros _. split; [done|].
        intros ? [= <-]. by apply Hfields.
      * split; [|done]. by intros ? [= <-] _.
    + do 5 (split; [done|]). split; [|done]. split; [done|].
      intros [_ H]. specialize (H vars eq_refl). apply Hfields in H.
      by rewrite Hd in H.
Qed.

Lemma cleaned_webhooks_agree_witness :
  (CleanedWebhook.blandWebhook_part_001 Examples.body_no_appointment 100
     "doc-a" empty_world).1
  = {| code := 200;
       json := Accepted "Patient intake processed" "doc-a" (Some false) |}.
Proof.
  apply (proj1 (proj1 (proj2 (proj2 (proj2 (proj2 (proj2 (proj2
           (cleaned_webhooks_agree Examples.body_no_appointment 100 "doc-a"
              empty_world)))))))
           Examples.vars_no_appointment eq_refl eq_refl)).
Defined.

Module RefreshFacts.

Lemma refresh_step fetched now w :
  let w' := (refreshAthenaToken fetched now w).2 in
  credentials_stored w'
  = (credentials_stored w + if stores_credential (fetched, now) then 1 else 0)%Z
  /\ length (token_refresh_log w')
     = (length (token_refresh_log w)
        + if stores_credential (fetched, now) then 1 else 0)%nat
  /\ length (errors w')
     = (length (errors w)
        + if stores_credential (fetched, now) then 0 else 1)%nat.
Proof.
  cbn zeta. unfold refreshAthenaToken, refresh_try, stores_credential,
    credentials_stored.
  destruct fetched as [resp|msg]; cbn [fst].
  - destruct (access_token resp); cbn; rewrite ?length_app; cbn.
    all: destruct (api_tokens w); repeat split; lia.
  - cbn. rewrite ?length_app. cbn. destruct (api_tokens w); repeat split; lia.
Qed.

End RefreshFacts.

(** X20: [refreshCount] counts the credentials stored.  Over any sequence of
    runs of [refreshAthenaToken], each run in which the provider's answer
    carries [access_token] (be it [null]) stores a credential, raises the
    count by one and adds one entry to the refresh log; each other run
    leaves the count alone and logs one error. *)
Theorem refreshCount_counts (runs : list (outcome TokenResponse * Z))
    (w : World) :
  let stored :=
    length (filter (fun run => stores_credential run = true) runs) in
  let w' := refresh_all runs w in
  credentials_stored w' = (credentials_stored w + Z.of_nat stored)%Z
  /\ length (token_refresh_log w')
     = (length (token_refresh_log w) + stored)%nat
  /\ length (errors w')
     = (length (errors w) + (length runs - stored))%nat.
Proof.
  cbn zeta. revert w.
  induction runs as [|[fetched now] runs IH]; intros w.
  - cbn. repeat split; lia.
  - cbn [refresh_all].
    destruct (IH (refreshAthenaToken fetched now w).2) as (H1 & H2 & H3).
    destruct (RefreshFacts.refresh_step fetched now w) as (S1 & S2 & S3).
    cbn zeta in S1, S2, S3. rewrite H1, H2, H3, S1, S2, S3.
    pose proof (length_filter (fun run => stores_credential run = true) runs)
      as Hle.
    destruct (stores_credential (fetched, now)) eqn:Hg.
    + rewrite filter_cons_True by done. cbn [length]. repeat split; lia.
    + rewrite filter_cons_False by (by rewrite Hg). cbn [length].
      repeat split; lia.
Qed.

(** X21: the HTTP entry of the token manager answers 200 exactly when the
    provider answered and its answer carries [access_token], be it [null].
    The credential it then stores carries that token ([null] for [null])
    and expires ten minutes before the provider's lifetime is over: already
    at creation when that lifetime is under ten minutes.  It answers 500
    with the message of the failure otherwise, and the stored credential is
    as before. *)
Theorem refreshTokenHttp_status (fetched : outcome TokenResponse) (now : Z)
    (w : World) :
  let res := refreshTokenHttp fetched now w in
  res.2 = (refreshAthenaToken fetched now w).2
  /\ (refreshCode res.1 = 200%Z \/ refreshCode res.1 = 500%Z)
  /\ (refreshCode res.1 = 200%Z <->
      exists tokenResponse,
        fetched = Returned tokenResponse
        /\ access_token tokenResponse <> JS.Undefined)
  /\ (forall tokenResponse,
        fetched = Returned tokenResponse ->
        access_token tokenResponse <> JS.Undefined ->
        exists tokenData,
          api_tokens res.2 = Some tokenData
          /\ token tokenData = JS.nullable (access_token tokenResponse)
          /\ (expiresAt tokenData
              = now + lifetime tokenResponse * 1000 - 600000)%Z
          /\ ((lifetime tokenResponse < 600)%Z ->
              (expiresAt tokenData < now)%Z)
          /\ refreshJson res.1
             = RefreshOk {| refreshSuccess := true;
                            refreshExpiresAt := expiresAt tokenData;
                            refreshMessage := "Token refreshed successfully" |})
  /\ (refreshCode res.1 = 500%Z ->
      api_tokens res.2 = api_tokens w
      /\ exists message,
           refreshJson res.1
           = RefreshFailed message (JSDate.toISOString now)
           /\ (refreshAthenaToken fetched now w).1 = Threw message).
Proof.
  cbn zeta. unfold refreshTokenHttp, refreshAthenaToken, refresh_try, lifetime.
  destruct fetched as [resp|msg]; cbn [fst].
  - destruct (access_token resp) as [| |tok] eqn:Htok; cbn.
    + split; [done|]. split; [by right|]. split.
      { split; [done|]. intros (resp' & [= <-] & H). by rewrite Htok in H. }
      split.
      * intros resp' [= <-] H. by rewrite Htok in H.
      * intros _. split; [done|]. eauto.
    + split; [done|]. split; [by left|]. split.
      { split; [|done]. intros _. exists resp. by rewrite Htok. }
      split; [|done].
      intros resp' [= <-] _. rewrite Htok. eexists. split; [done|]. cbn.
      split; [done|]. split; [lia|]. split; [lia|done].
    + split; [done|]. split; [by left|]. split.
      { split; [|done]. intros _. exists resp. by rewrite Htok. }
      split; [|done].
      intros resp' [= <-] _. rewrite Htok. eexists. split; [done|]. cbn.
      split; [done|]. split; [lia|]. split; [lia|done].
  - cbn. split; [done|]. split; [by right|]. split.
    { split; [done|]. by intros (resp' & ? & _). }
    split; [done|]. intros _. split; [done|]. eauto.
Qed.

Lemma refreshTokenHttp_status_witness :
  exists tokenData,
    api_tokens (refreshTokenHttp (Returned Examples.token_response) 0
                  empty_world).2 = Some tokenData
    /\ expiresAt tokenData = 3000000%Z.
Proof.
  destruct (proj1 (proj2 (proj2 (proj2
              (refreshTokenHttp_status (Returned Examples.token_response) 0
                 empty_world))))
              Examples.token_response eq_refl ltac:(discriminate))
    as (tokenData & H1 & _ & H3 & _).
  exists tokenData. split; [exact H1|]. rewrite H3. reflexivity.
Defined.

Section BookerOutcome.
Context (secrets : Secrets).
Context (athena_put : string -> list (string * string) -> outcome string).


End BookerOutcome.


Module AthenaBookerFacts.
Import AthenaBooker.

Lemma span_digits_all s : JSMore.all_digits (JSMore.span JS.is_digit s).1 = true.
Proof.
  induction s as [|c s IH]; [done|]. cbn [JSMore.span].
  destruct (JS.is_digit c) eqn:E; [|done].
  destruct (JSMore.span JS.is_digit s) as [a b]. cbn in *. by rewrite E, IH.
Qed.

Lemma span_digits_id s :
  JSMore.all_digits s = true -> (JSMore.span JS.is_digit s).1 = s.
Proof.
  induction s as [|c s IH]; [done|]. cbn. intros [Hc Hs]%andb_true_iff.
  rewrite Hc. specialize (IH Hs).
  destruct (JSMore.span JS.is_digit s) as [a b]. cbn in *. by rewrite IH.
Qed.

Lemma match_digit_run_Some s m :
  match_digit_run s = Some m ->
  m <> "" /\ JSMore.all_digits m = true /\ has_digit s = true.
Proof.
  revert m. induction s as [|c s IH]; intros m; [done|].
  cbn [match_digit_run has_digit].
  destruct (JS.is_digit c) eqn:E.
  - intros [= <-].
    split; [|split; [apply (span_digits_all (String c s))|done]].
    cbn [JSMore.span]. rewrite E. by destruct (JSMore.span JS.is_digit s).
  - intros H. destruct (IH m H) as (H1 & H2 & H3). by rewrite H3.
Qed.

Lemma match_digit_run_None s : match_digit_run s = None -> has_digit s = false.
Proof.
  induction s as [|c s IH]; [done|]. cbn [match_digit_run has_digit].
  destruct (JS.is_digit c); [done|]. exact IH.
Qed.

Lemma match_digit_run_digits m :
  m <> "" -> JSMore.all_digits m = true -> match_digit_run m = Some m.
Proof.
  destruct m as [|c m]; [done|]. intros _ H. cbn [match_digit_run].
  pose proof H as H'. cbn in H'. apply andb_true_iff in H' as [-> _].
  by rewrite (span_digits_id _ H).
Qed.

End AthenaBookerFacts.

Module AppointmentTypeFacts.
Import AthenaBooker AthenaBookerFacts.

Lemma match_digit_run_no_digit s :
  has_digit s = false -> match_digit_run s = None.
Proof.
  induction s as [|c s IH]; [done|]. cbn [match_digit_run has_digit].
  destruct (JS.is_digit c); [done|]. exact IH.
Qed.

Lemma appointment_type_cases bookingData :
  let t := appointment_type bookingData in
  t <> ""
  /\ ((JSMore.all_digits t = true /\ match_digit_run t = Some t)
      \/ (has_digit t = false /\ appointmentTypeId bookingData = Some t)).
Proof.
  cbn zeta. unfold appointment_type.
  set (a := JS.or_empty (JS.or_else (appointmentTypeId bookingData) (Some "15"))).
  assert (Ha : a <> ""
               /\ (a = "15" \/ appointmentTypeId bookingData = Some a)).
  { subst a. destruct (appointmentTypeId bookingData) as [x|]; cbn.
    - destruct (String.eqb_spec x "") as [->|Hx]; cbn.
      + split; [done|]. by left.
      + unfold JS.or_else. rewrite (FormatFacts.truthy_nonempty x Hx). cbn.
        split; [done|]. by right.
    - split; [done|]. by left. }
  destruct Ha as [Hne Ha].
  destruct (match_digit_run a) as [m|] eqn:Hm.
  - destruct (match_digit_run_Some a m Hm) as (H1 & H2 & _).
    split; [done|]. left. split; [done|]. by apply match_digit_run_digits.
  - split; [done|]. right. split; [by apply match_digit_run_None|].
    destruct Ha as [->|Ha]; [done|done].
Qed.

End AppointmentTypeFacts.

(** X23: the appointment type [bookAthenaAppointment] sends is never empty:
    it is 15 when the message names none, the first number found in the
    type of the message when there is one, and the type of the message as
    it stands when it holds no digit.  Extracting again changes nothing. *)
Theorem appointment_type_normal (bookingData : AthenaBooker.BookingData) :
  let t := AthenaBooker.appointment_type bookingData in
  t <> ""
  /\ (JSMore.all_digits t = true
      \/ (AthenaBooker.has_digit t = false
          /\ AthenaBooker.appointmentTypeId bookingData = Some t))
  /\ (JS.truthy (AthenaBooker.appointmentTypeId bookingData) = false ->
      t = "15")
  /\ (forall digits rest c,
        JSMore.all_digits digits = true -> digits <> "" ->
        JS.is_digit c = false ->
        AthenaBooker.appointmentTypeId bookingData
        = Some (digits +:+ String c rest) ->
        t = digits)
  /\ AthenaBooker.appointment_type
       {| AthenaBooker.patientId := AthenaBooker.patientId bookingData;
          AthenaBooker.appointmentId := AthenaBooker.appointmentId bookingData;
          AthenaBooker.appointmentTypeId := Some t;
          AthenaBooker.originalRecordId := AthenaBooker.originalRecordId bookingData |}
     = t.
Proof.
  cbn zeta.
  destruct (AppointmentTypeFacts.appointment_type_cases bookingData)
    as [Hne Hcases]. cbn zeta in Hne, Hcases.
  split; [done|]. split; [tauto|]. split; [|split].
  - unfold AthenaBooker.appointment_type.
    destruct (AthenaBooker.appointmentTypeId bookingData) as [x|]; [|done].
    destruct (String.eqb_spec x "") as [->|Hx]; [done|].
    intros H. by rewrite (FormatFacts.truthy_nonempty x Hx) in H.
  - intros digits rest c Hd Hdne Hc Hx. unfold AthenaBooker.appointment_type.
    rewrite Hx.
    assert (Hrun : forall d, JSMore.all_digits d = true ->
              (JSMore.span JS.is_digit (d +:+ String c rest)).1 = d).
    { induction d as [|a d IHd]; intros Hall.
      - change ("" +:+ String c rest) with (String c rest).
        cbn [JSMore.span]. by rewrite Hc.
      - cbn in Hall. apply andb_true_iff in Hall as [Ha Hall].
        rewrite DateFacts.append_cons. cbn [JSMore.span]. rewrite Ha.
        specialize (IHd Hall).
        destruct (JSMore.span JS.is_digit (d +:+ String c rest)).
        cbn in *. by rewrite IHd. }
    destruct digits as [|a d]; [done|].
    assert (Htr : JS.truthy (Some (String a d +:+ String c rest)) = true)
      by (by rewrite DateFacts.append_cons).
    unfold JS.or_else. rewrite Htr. cbn [JS.or_empty].
    pose proof (Hrun (String a d) Hd) as Hspan.
    rewrite DateFacts.append_cons in Hspan |- *.
    cbn [AthenaBooker.match_digit_run].
    cbn in Hd. apply andb_true_iff in Hd as [Ha _]. rewrite Ha.
    exact Hspan.
  - set (t := AthenaBooker.appointment_type bookingData) in *.
    unfold AthenaBooker.appointment_type at 1. cbn [AthenaBooker.appointmentTypeId].
    unfold JS.or_else. rewrite (FormatFacts.truthy_nonempty t Hne).
    cbn [JS.or_empty].
    destruct Hcases as [[_ ->]|[Hn _]]; [done|].
    by rewrite (AppointmentTypeFacts.match_digit_run_no_digit t Hn).
Qed.

Lemma appointment_type_normal_witness :
  AthenaBooker.appointment_type
    {| AthenaBooker.patientId := Some "P-1001";
       AthenaBooker.appointmentId := Some "12345";
       AthenaBooker.appointmentTypeId := Some "6 - New Patient";
       AthenaBooker.originalRecordId := None |} = "6".
Proof.
  apply (proj1 (proj2 (proj2 (proj2
           (appointment_type_normal
              {| AthenaBooker.patientId := Some "P-1001";
                 AthenaBooker.appointmentId := Some "12345";
                 AthenaBooker.appointmentTypeId := Some "6 - New Patient";
                 AthenaBooker.originalRecordId := None |}))))
           "6" "- New Patient" " "%char); done.
Defined.

Section AthenaBookerOutcome.
Import AthenaBooker.
Context (secrets : Secrets).
Context (athena_put : string -> list (string * string) -> outcome string).

Lemma book_try_threw bookingData now newId s message :
  (book_try secrets athena_put bookingData now newId s).1 = Threw message ->
  (book_try secrets athena_put bookingData now newId s).2 = s.
Proof.
  unfold book_try. destruct (api_tokens (world s)); [|done].
  destruct (_ <=? _)%Z; [done|].
  destruct (patientId bookingData); [|done].
  destruct (athena_put _ _); [|done].
  by destruct (appointmentId bookingData).
Qed.

(** X24: [bookAthenaAppointment] never writes to the intake queue, the
    credential or a topic: of the collections of the intake workflow it only
    appends to the errors.  When it throws it has logged exactly one
    [appointment_booking] error with the message of the failure and added
    nothing to the appointment log.  It rethrows that failure and marks the
    appointment document [error] only when the document named by the
    message exists; when the message names a document that does not exist,
    which is the case until a booking for it has succeeded, the error it
    throws is the one of the failed update. *)
Theorem bookAthenaAppointment_threw bookingData now newId s message :
  let res := bookAthenaAppointment secrets athena_put bookingData now newId s in
  (world res.2 = world s
   \/ exists cause,
        world res.2
        = add_error {| errType := "appointment_booking"; errMessage := cause;
                       errTimestamp := now |} (world s))
  /\ (res.1 = Threw message ->
      exists cause,
        world res.2
        = add_error {| errType := "appointment_booking"; errMessage := cause;
                       errTimestamp := now |} (world s)
        /\ appointment_log res.2 = appointment_log s
        /\ (JS.truthy (originalRecordId bookingData) = false ->
            message = cause
            /\ appointments_by_id res.2 = appointments_by_id s)
        /\ (forall i d,
              originalRecordId bookingData = Some i -> i <> "" ->
              appointments_by_id s !! i = Some d ->
              message = cause
              /\ appointments_by_id res.2
                 = <[i := mark_failed cause now d]> (appointments_by_id s))
        /\ (forall i,
              originalRecordId bookingData = Some i -> i <> "" ->
              appointments_by_id s !! i = None ->
              message = NOT_FOUND
              /\ appointments_by_id res.2 = appointments_by_id s)).
Proof.
  cbn zeta. unfold bookAthenaAppointment.
  pose proof (book_try_threw bookingData now newId s) as Ht.
  destruct (book_try secrets athena_put bookingData now newId s)
    as [[r|cause] s1] eqn:Htry.
  - split; [|done]. left. cbn [snd].
    unfold book_try in Htry.
    destruct (api_tokens (world s)); [|done].
    destruct (_ <=? _)%Z; [done|].
    destruct (patientId bookingData); [|done].
    destruct (athena_put _ _); [|done].
    destruct (appointmentId bookingData); [|done].
    by injection Htry as _ <-.
  - cbn [fst snd] in Ht. rewrite (Ht cause eq_refl). clear Ht Htry s1.
    destruct (originalRecordId bookingData) as [i|] eqn:Hrec; cbn [JS.truthy].
    2:{ cbn. split; [right; eauto|]. intros [= <-]. exists cause.
        split; [done|]. split; [done|]. split; [done|]. split; done. }
    destruct (String.eqb_spec i "") as [->|Hne]; cbn [negb JS.or_empty].
    { cbn. split; [right; eauto|]. intros [= <-]. exists cause.
      split; [done|]. split; [done|]. split; [done|].
      split; [by intros ? ? [= <-]|by intros ? [= <-]]. }
    cbn [appointments_by_id world appointment_log].
    destruct (appointments_by_id s !! i) as [d|] eqn:Hd; cbn [fst snd world
      appointments_by_id appointment_log].
    + split; [right; eauto|]. intros [= <-]. exists cause.
      split; [done|]. split; [done|]. split; [done|]. split.
      * intros i' d' [= <-] _ Hd'. rewrite Hd in Hd'. by injection Hd' as <-.
      * intros i' [= <-] _ Hd'. by rewrite Hd in Hd'.
    + split; [right; eauto|]. intros [= <-]. exists cause.
      split; [done|]. split; [done|]. split; [done|]. split.
      * intros i' d' [= <-] _ Hd'. by rewrite Hd in Hd'.
      * by intros i' [= <-] _ _.
Qed.

(** X25: [bookAthenaAppointment] checks the expiry of the credential before
    anything else: with a credential that expires at or before the reading
    of the clock, the AthenaHealth endpoint is not called, whatever it would
    answer, no appointment is stored, and the failure logged is that the
    token expired. *)
Theorem bookAthenaAppointment_expired bookingData now newId s tokenData :
  api_tokens (world s) = Some tokenData ->
  (expiresAt tokenData <= now)%Z ->
  let res := bookAthenaAppointment secrets athena_put bookingData now newId s in
  (forall athena_put',
     bookAthenaAppointment secrets athena_put' bookingData now newId s = res)
  /\ (exists message, res.1 = Threw message)
  /\ world res.2
     = add_error {| errType := "appointment_booking";
                    errMessage := "Token expired. Please refresh token.";
                    errTimestamp := now |} (world s)
  /\ appointment_log res.2 = appointment_log s
  /\ forall i, docStatus <$> appointments_by_id res.2 !! i <> Some "booked"
               \/ docStatus <$> appointments_by_id s !! i = Some "booked".
Proof.
  intros Htok Hexp. cbn zeta. unfold bookAthenaAppointment, book_try.
  rewrite Htok. apply Z.leb_le in Hexp. rewrite Hexp.
  split; [done|].
  destruct (JS.truthy (originalRecordId bookingData)).
  - cbn [appointments_by_id]. destruct (appointments_by_id s !! _) as [d|] eqn:Hd.
    + cbn. split; [eauto|]. split; [done|]. split; [done|]. intros i.
      destruct (decide (JS.or_empty (originalRecordId bookingData) = i)) as [->|Hne].
      * left. by rewrite lookup_insert_eq.
      * rewrite lookup_insert_ne by done.
        destruct (appointments_by_id s !! i) as [d'|]; [|by left]. cbn.
        destruct (String.eqb_spec (docStatus d') "booked") as [->|Hs];
          [by right|left; congruence].
    + cbn. split; [eauto|]. split; [done|]. split; [done|]. intros i.
      destruct (appointments_by_id s !! i) as [d'|]; [|by left]. cbn.
      destruct (String.eqb_spec (docStatus d') "booked") as [->|Hs];
        [by right|left; congruence].
  - cbn. split; [eauto|]. split; [done|]. split; [done|]. intros i.
    destruct (appointments_by_id s !! i) as [d'|]; [|by left]. cbn.
    destruct (String.eqb_spec (docStatus d') "booked") as [->|Hs];
      [by right|left; congruence].
Qed.

(** X26: when [bookAthenaAppointment] returns, the AthenaHealth call
    succeeded and the message carried a patient and an appointment id.  The
    appointment is stored as [booked], with the type sent, under the record
    id of the message, or under a new id when the message has none; a
    document that was there keeps the error fields of an earlier failure.
    One entry is added to the appointment log and the collections of the
    intake workflow are untouched: the intake document is not marked as
    booked. *)
Theorem bookAthenaAppointment_returned bookingData now newId s r :
  let res := bookAthenaAppointment secrets athena_put bookingData now newId s in
  res.1 = Returned r ->
  exists patient appointment answer,
    patientId bookingData = Some patient
    /\ appointmentId bookingData = Some appointment
    /\ bookedAppointmentId r = appointment
    /\ athena_put
         (baseUrl secrets +:+ "/v1/" +:+ practiceId secrets
          +:+ "/appointments/" +:+ appointment)
         [("patientid", patient); ("departmentid", departmentId secrets);
          ("appointmenttypeid", appointment_type bookingData)]
       = Returned answer
    /\ world res.2 = world s
    /\ appointment_log res.2
       = (appointment_log s
          ++ [(patient, appointment, appointment_type bookingData, now)])%list
    /\ let key :=
         if JS.truthy (originalRecordId bookingData)
         then JS.or_empty (originalRecordId bookingData) else newId in
       exists doc,
         appointments_by_id res.2 = <[key := doc]> (appointments_by_id s)
         /\ docStatus doc = "booked"
         /\ docAppointmentTypeId doc = appointment_type bookingData
         /\ athenaPatientId doc = patient
         /\ response doc = answer
         /\ (JS.truthy (originalRecordId bookingData) = true ->
             docError doc = appointments_by_id s !! key ≫= docError).
Proof.
  cbn zeta. unfold bookAthenaAppointment, book_try.
  destruct (api_tokens (world s)) as [tok|].
  2:{ destruct (JS.truthy _); [|done]. cbn.
      by destruct (appointments_by_id s !! _). }
  destruct (_ <=? _)%Z.
  { destruct (JS.truthy _); [|done]. cbn.
    by destruct (appointments_by_id s !! _). }
  destruct (patientId bookingData) as [patient|].
  2:{ destruct (JS.truthy _); [|done]. cbn.
      by destruct (appointments_by_id s !! _). }
  destruct (appointmentId bookingData) as [appointment|] eqn:Happ;
    cbn [default]; destruct (athena_put _ _) as [answer|msg] eqn:Hput.
  - cbn [fst snd]. intros [= <-]. exists patient, appointment, answer.
    split; [done|]. split; [done|]. split; [done|]. split; [done|].
    split; [done|]. split; [done|]. cbn zeta. eexists. split; [done|].
    cbn. split; [done|]. split; [done|]. split; [done|]. split; [done|].
    by intros ->.
  - destruct (JS.truthy _); [|done]. cbn.
    by destruct (appointments_by_id s !! _).
  - destruct (JS.truthy _); [|done]. cbn.
    by destruct (appointments_by_id s !! _).
  - destruct (JS.truthy _); [|done]. cbn.
    by destruct (appointments_by_id s !! _).
Qed.

End AthenaBookerOutcome.

Lemma bookAthenaAppointment_threw_witness :
  let res :=
    AthenaBooker.bookAthenaAppointment Examples.secrets
      AthenaBooker.athena_not_found AthenaBooker.example_booking 1000 "apt-1"
      AthenaBooker.example_store in
  res.1 = Threw NOT_FOUND
  /\ AthenaBooker.appointments_by_id res.2 = ∅
  /\ length (errors (AthenaBooker.world res.2)) = 1%nat.
Proof.
  cbn zeta.
  destruct (proj2 (bookAthenaAppointment_threw Examples.secrets
                     AthenaBooker.athena_not_found AthenaBooker.example_booking
                     1000 "apt-1" AthenaBooker.example_store NOT_FOUND)
              eq_refl) as (cause & Hw & _ & _ & _ & Hmissing).
  destruct (Hmissing "doc-a" eq_refl ltac:(discriminate) eq_refl) as [_ Hdocs].
  split; [reflexivity|]. split; [exact Hdocs|]. rewrite Hw. reflexivity.
Defined.

Lemma bookAthenaAppointment_expired_witness :
  AthenaBooker.appointment_log
    (AthenaBooker.bookAthenaAppointment Examples.secrets Examples.athena_ok
       AthenaBooker.example_booking 3000000 "apt-1"
       AthenaBooker.example_store).2 = [].
Proof.
  apply (bookAthenaAppointment_expired Examples.secrets Examples.athena_ok
           AthenaBooker.example_booking 3000000 "apt-1"
           AthenaBooker.example_store Examples.credential);
    [reflexivity|reflexivity].
Defined.

Lemma bookAthenaAppointment_returned_witness :
  AthenaBooker.appointment_log
    (AthenaBooker.bookAthenaAppointment Examples.secrets Examples.athena_ok
       AthenaBooker.example_booking 1000 "apt-1"
       AthenaBooker.example_store).2
  = [("P-1001", "12345", "6", 1000%Z)].
Proof.
  destruct (bookAthenaAppointment_returned Examples.secrets Examples.athena_ok
              AthenaBooker.example_booking 1000 "apt-1"
              AthenaBooker.example_store
              {| AthenaBooker.bookingSuccess := true;
                 AthenaBooker.bookedAppointmentId := "12345";
                 AthenaBooker.bookingMessage :=
                   "Appointment booked successfully" |} eq_refl)
    as (patient & appointment & answer & Hp & Ha & _ & _ & _ & Hlog & _).
  rewrite Hlog. injection Hp as <-. injection Ha as <-. reflexivity.
Defined.

(** X27: [logPatientActivity] fails on every message the patient creator or
    the webhook publishes to [patient-activity]: such a message carries none
    of the call fields of the summary, so the write of the summary is
    refused.  The run throws, the summary collection is as before, and the
    log has one more entry whenever the message carries a last name; a
    redelivery adds the entry again. *)
Theorem logPatientActivity_published (m : ActivityMsg) (now : Z)
    (s : ActivityLogger.Store) :
  let res := ActivityLogger.logPatientActivity (ActivityLogger.of_message m) now s in
  (exists message, res.1 = Threw message)
  /\ ActivityLogger.patient_summary res.2 = ActivityLogger.patient_summary s
  /\ (forall name, actLastName m = Some name ->
        exists entry,
          ActivityLogger.patient_activity_log res.2
          = (ActivityLogger.patient_activity_log s ++ [entry])%list
          /\ ActivityLogger.logPatientId entry = actPatientId m
          /\ ActivityLogger.logActivityType entry = activityType m
          /\ ActivityLogger.logTimestamp entry = now)
  /\ (actLastName m = None -> res.2 = s)
  /\ forall times,
       ActivityLogger.patient_summary
         (ActivityLogger.deliveries (ActivityLogger.of_message m) times s)
       = ActivityLogger.patient_summary s
       /\ (is_Some (actLastName m) ->
           length (ActivityLogger.patient_activity_log
                     (ActivityLogger.deliveries (ActivityLogger.of_message m)
                        times s))
           = (length (ActivityLogger.patient_activity_log s)
              + length times)%nat).
Proof.
  cbn zeta.
  assert (Hone : forall now s,
    let res := ActivityLogger.logPatientActivity
                 (ActivityLogger.of_message m) now s in
    (exists message, res.1 = Threw message)
    /\ ActivityLogger.patient_summary res.2 = ActivityLogger.patient_summary s
    /\ (forall name, actLastName m = Some name ->
          exists entry,
            ActivityLogger.patient_activity_log res.2
            = (ActivityLogger.patient_activity_log s ++ [entry])%list
            /\ ActivityLogger.logPatientId entry = actPatientId m
            /\ ActivityLogger.logActivityType entry = activityType m
            /\ ActivityLogger.logTimestamp entry = now)
    /\ (actLastName m = None -> res.2 = s)).
  { intros now0 s0. cbn zeta.
    unfold ActivityLogger.logPatientActivity, ActivityLogger.of_message.
    cbn [ActivityLogger.patientId ActivityLogger.lastName
         ActivityLogger.activityType ActivityLogger.status
         ActivityLogger.callLength ActivityLogger.lastNodeId
         ActivityLogger.patientRecordCreated ActivityLogger.bookedAppt].
    destruct (actLastName m) as [name|].
    - destruct (String.eqb (actPatientId m) ""); cbn;
        (split; [eauto|]); (split; [done|]); (split; [|done]);
        intros name' [= <-]; eexists; (split; [done|]); done.
    - cbn. split; [eauto|]. split; [done|]. split; [done|]. done. }
  destruct (Hone now s) as (H1 & H2 & H3 & H4).
  split; [exact H1|]. split; [exact H2|]. split; [exact H3|].
  split; [exact H4|].
  intros times. revert s H1 H2 H3 H4.
  induction times as [|t times IH]; intros s _ _ _ _.
  - cbn. split; [done|]. intros _. lia.
  - cbn [ActivityLogger.deliveries].
    destruct (Hone t s) as (G1 & G2 & G3 & G4).
    destruct (Hone now (ActivityLogger.logPatientActivity
                          (ActivityLogger.of_message m) t s).2)
      as (K1 & K2 & K3 & K4).
    destruct (IH _ K1 K2 K3 K4) as [I1 I2]. split; [by rewrite I1|].
    intros [name Hname]. rewrite (I2 (ex_intro _ name Hname)).
    destruct (G3 name Hname) as (entry & -> & _).
    rewrite length_app. cbn [length]. lia.
Qed.

Lemma logPatientActivity_published_witness :
  length (ActivityLogger.patient_activity_log
            (ActivityLogger.deliveries
               (ActivityLogger.of_message
                  {| actPatientId := "P-1001"; actLastName := Some "Patient";
                     activityType := "PATIENT_CREATED";
                     actStatus := "success"; actSource := None |})
               [10; 20]%Z
               {| ActivityLogger.patient_activity_log := [];
                  ActivityLogger.patient_summary := ∅ |})) = 2%nat.
Proof.
  apply (proj2 (proj2 (proj2 (proj2 (proj2
           (logPatientActivity_published
              {| actPatientId := "P-1001"; actLastName := Some "Patient";
                 activityType := "PATIENT_CREATED"; actStatus := "success";
                 actSource := None |} 0
              {| ActivityLogger.patient_activity_log := [];
                 ActivityLogger.patient_summary := ∅ |}))))
           [10; 20]%Z)).
  by exists "Patient".
Defined.

(** X28: on a message that carries every field, with a patient id that is
    not empty, [logPatientActivity] returns, adds one entry to the log and
    writes the summary of that patient alone.  The total of the summary
    counts deliveries: after the message was delivered once per reading of
    the clock in [times], the total has grown by their number. *)
Theorem logPatientActivity_counts (data : ActivityLogger.ActivityData)
    (times : list Z) (s : ActivityLogger.Store)
    (patient name activity st length node created booked : string) :
  ActivityLogger.patientId data = Some patient -> patient <> "" ->
  ActivityLogger.lastName data = Some name ->
  ActivityLogger.activityType data = Some activity ->
  ActivityLogger.status data = Some st ->
  ActivityLogger.callLength data = Some length ->
  ActivityLogger.lastNodeId data = Some node ->
  ActivityLogger.patientRecordCreated data = Some created ->
  ActivityLogger.bookedAppt data = Some booked ->
  (forall now, (ActivityLogger.logPatientActivity data now s).1 = Returned tt)
  /\ let s' := ActivityLogger.deliveries data times s in
     ActivityLogger.total_of s' patient
     = (ActivityLogger.total_of s patient + Z.of_nat (List.length times))%Z
     /\ List.length (ActivityLogger.patient_activity_log s')
        = (List.length (ActivityLogger.patient_activity_log s)
           + List.length times)%nat
     /\ forall other, other <> patient ->
          ActivityLogger.patient_summary s' !! other
          = ActivityLogger.patient_summary s !! other.
Proof.
  intros Hp Hne Hn Ha Hs Hc Hl Hr Hb.
  assert (Hrun : forall now s0,
    let s1 := (ActivityLogger.logPatientActivity data now s0).2 in
    (ActivityLogger.logPatientActivity data now s0).1 = Returned tt
    /\ ActivityLogger.total_of s1 patient
       = (ActivityLogger.total_of s0 patient + 1)%Z
    /\ List.length (ActivityLogger.patient_activity_log s1)
       = S (List.length (ActivityLogger.patient_activity_log s0))
    /\ forall other, other <> patient ->
         ActivityLogger.patient_summary s1 !! other
         = ActivityLogger.patient_summary s0 !! other).
  { intros now s0. cbn zeta. unfold ActivityLogger.logPatientActivity.
    rewrite Hp, Hn, Ha, Hs, Hc, Hl, Hr, Hb.
    rewrite (ValidationFacts.eqb_false_of_ne _ _ Hne).
    cbn [ActivityLogger.patient_summary ActivityLogger.patient_activity_log
         fst snd].
    split; [done|]. unfold ActivityLogger.total_of.
    cbn [ActivityLogger.patient_summary]. rewrite lookup_insert_eq.
    cbn [ActivityLogger.totalActivities].
    split; [by destruct (ActivityLogger.patient_summary s0 !! patient)|].
    split; [rewrite length_app; cbn; lia|].
    intros other Ho. by rewrite lookup_insert_ne. }
  split; [intros now; apply Hrun|].
  cbn zeta. revert s. induction times as [|t times IH]; intros s.
  - cbn. split; [lia|]. split; [lia|done].
  - cbn [ActivityLogger.deliveries].
    destruct (Hrun t s) as (_ & Htot & Hlen & Hother).
    destruct (IH (ActivityLogger.logPatientActivity data t s).2)
      as (I1 & I2 & I3).
    rewrite I1, I2, Htot, Hlen.
    split; [cbn [List.length]; lia|]. split; [cbn [List.length]; lia|].
    intros other Ho. by rewrite (I3 other Ho), (Hother other Ho).
Qed.

Lemma logPatientActivity_counts_witness :
  let data :=
    {| ActivityLogger.patientId := Some "P-1001";
       ActivityLogger.lastName := Some "Patient";
       ActivityLogger.activityType := Some "APPOINTMENT_BOOKED";
       ActivityLogger.appointmentId := Some "12345";
       ActivityLogger.appointmentDateTime := None;
       ActivityLogger.status := Some "success";
       ActivityLogger.callLength := Some "95";
       ActivityLogger.lastNodeId := Some "node-7";
       ActivityLogger.patientRecordCreated := Some "true";
       ActivityLogger.bookedAppt := Some "true" |} in
  ActivityLogger.total_of
    (ActivityLogger.deliveries data [10; 20; 30]%Z
       {| ActivityLogger.patient_activity_log := [];
          ActivityLogger.patient_summary := ∅ |}) "P-1001" = 3%Z.
Proof.
  cbn zeta.
  apply (proj2 (logPatientActivity_counts
                  {| ActivityLogger.patientId := Some "P-1001";
                     ActivityLogger.lastName := Some "Patient";
                     ActivityLogger.activityType := Some "APPOINTMENT_BOOKED";
                     ActivityLogger.appointmentId := Some "12345";
                     ActivityLogger.appointmentDateTime := None;
                     ActivityLogger.status := Some "success";
                     ActivityLogger.callLength := Some "95";
                     ActivityLogger.lastNodeId := Some "node-7";
                     ActivityLogger.patientRecordCreated := Some "true";
                     ActivityLogger.bookedAppt := Some "true" |}
                  [10; 20; 30]%Z
                  {| ActivityLogger.patient_activity_log := [];
                     ActivityLogger.patient_summary := ∅ |}
                  "P-1001" "Patient" "APPOINTMENT_BOOKED" "success" "95"
                  "node-7" "true" "true"
                  eq_refl ltac:(discriminate) eq_refl eq_refl eq_refl eq_refl
                  eq_refl eq_refl eq_refl)).
Defined.

Module MatcherFacts.
Import Matcher.

(** The loop, for any state it is entered in. *)
Lemma best_match_spec preferred appointments : forall bestMatch minDiff result,
  best_match appointments preferred bestMatch minDiff = Returned result ->
  (forall apt, apt ∈ appointments -> is_Some (starttime apt))
  /\ ((result = bestMatch
       /\ forall apt d, apt ∈ appointments -> diff_of preferred apt = Some d ->
            exists m, minDiff = Some m /\ (m <= d)%Z)
      \/ exists before apt after d,
           appointments = (before ++ apt :: after)%list
           /\ result = Some apt
           /\ diff_of preferred apt = Some d
           /\ (forall m, minDiff = Some m -> (d < m)%Z)
           /\ (forall a d', a ∈ before -> diff_of preferred a = Some d' ->
                 (d < d')%Z)
           /\ (forall a d', a ∈ after -> diff_of preferred a = Some d' ->
                 (d <= d')%Z)).
Proof.
  induction appointments as [|apt rest IH]; intros bestMatch minDiff result.
  - cbn. intros [= <-]. split; [by intros ? ?%elem_of_nil|].
    left. split; [done|]. by intros ? ? ?%elem_of_nil.
  - cbn [best_match]. destruct (starttime apt) as [aptTime|] eqn:Hst; [|done].
    assert (Hskip :
      best_match rest preferred bestMatch minDiff = Returned result ->
      (forall d, diff_of preferred apt = Some d ->
         exists m, minDiff = Some m /\ (m <= d)%Z) ->
      (forall a, a ∈ apt :: rest -> is_Some (starttime a))
      /\ ((result = bestMatch
           /\ forall a d, a ∈ apt :: rest -> diff_of preferred a = Some d ->
                exists m, minDiff = Some m /\ (m <= d)%Z)
          \/ exists before a after d,
               apt :: rest = (before ++ a :: after)%list
               /\ result = Some a
               /\ diff_of preferred a = Some d
               /\ (forall m, minDiff = Some m -> (d < m)%Z)
               /\ (forall a' d', a' ∈ before -> diff_of preferred a' = Some d' ->
                     (d < d')%Z)
               /\ (forall a' d', a' ∈ after -> diff_of preferred a' = Some d' ->
                     (d <= d')%Z))).
    { intros Hrun Hapt. destruct (IH _ _ _ Hrun) as [Hall Hcases].
      split.
      { intros a [->|Ha]%elem_of_cons; [by rewrite Hst|by apply Hall]. }
      destruct Hcases as [[-> Hge]|(before & a & after & d & -> & -> & Hd & Hlt & Hb & Ha)].
      - left. split; [done|]. intros a d [->|Ha]%elem_of_cons Hd; eauto.
      - right. exists (apt :: before), a, after, d.
        split; [done|]. split; [done|]. split; [done|]. split; [done|].
        split; [|done]. intros a' d' [->|Ha']%elem_of_cons Hd'; [|eauto].
        destruct (Hapt d' Hd') as (m & Hm & Hle). specialize (Hlt m Hm). lia. }
    destruct (diff_of preferred apt) as [diff|] eqn:Hdiff.
    2:{ intros Hrun. apply Hskip; [done|]. by intros d [=]. }
    destruct (match minDiff with Some m => (diff <? m)%Z | None => true end)
      eqn:Hcmp.
    2:{ intros Hrun. apply Hskip; [done|]. intros d [= <-].
        destruct minDiff as [m|]; [|done]. exists m. split; [done|].
        apply Z.ltb_ge in Hcmp. lia. }
    intros Hrun. destruct (IH _ _ _ Hrun) as [Hall Hcases]. split.
    { intros a [->|Ha]%elem_of_cons; [by rewrite Hst|by apply Hall]. }
    right.
    assert (Hm : forall m, minDiff = Some m -> (diff < m)%Z).
    { intros m ->. by apply Z.ltb_lt. }
    destruct Hcases as [[-> Hge]|(before & a & after & d & -> & -> & Hd & Hlt & Hb & Ha)].
    + exists [], apt, rest, diff. split; [done|]. split; [done|].
      split; [done|]. split; [done|]. split; [by intros ? ? ?%elem_of_nil|].
      intros a d' Ha Hd'. destruct (Hge a d' Ha Hd') as (m & [= <-] & Hle). lia.
    + specialize (Hlt diff eq_refl).
      exists (apt :: before), a, after, d. split; [done|]. split; [done|].
      split; [done|]. split; [intros m Hmm; specialize (Hm m Hmm); lia|].
      split; [|done]. intros a' d' [->|Ha']%elem_of_cons Hd'; [|eauto].
      rewrite Hdiff in Hd'. injection Hd' as <-. lia.
Qed.

End MatcherFacts.

Section MatcherSpec.
Import Matcher.
Context (secrets : Secrets).
Context (athena_get :
           string -> list (string * string) ->
           outcome (option (list Appointment))).

(** X29: [findMatchingAppointment] returns the first of the offered
    appointments whose start time is closest to the preferred time.  When it
    returns, a credential was stored, the endpoint answered, and every
    offered appointment carries a start time.  With time strings short
    enough for their numbers to be exact, it returns [null] exactly when no
    distance can be computed: the preferred time or every start time fails
    to parse, or nothing is offered.  Otherwise the appointment returned is
    one of those offered, every appointment offered before it is strictly
    farther from the preferred time, and none offered after it is closer. *)
Theorem findMatchingAppointment_closest preferredDate preferredTime w result :
  findMatchingAppointment secrets athena_get preferredDate preferredTime w
  = Returned result ->
  exists answer,
    is_Some (api_tokens w)
    /\ athena_get
         (baseUrl secrets +:+ "/v1/" +:+ practiceId secrets
          +:+ "/appointments/open")
         [("departmentid", departmentId secrets);
          ("startdate", athenaDate preferredDate);
          ("enddate", athenaDate preferredDate)]
       = Returned answer
    /\ let appointments := default [] answer in
       let distance := diff_of (minutes preferredTime) in
       (forall apt, apt ∈ appointments -> is_Some (starttime apt))
       /\ (short preferredTime = true ->
           (forall apt time, apt ∈ appointments -> starttime apt = Some time ->
              short time = true) ->
        (result = None <->
         forall apt, apt ∈ appointments -> distance apt = None)
        /\ forall apt, result = Some apt ->
             exists before after d,
               appointments = (before ++ apt :: after)%list
               /\ distance apt = Some d
               /\ (forall a d', a ∈ before -> distance a = Some d' ->
                     (d < d')%Z)
               /\ (forall a d', a ∈ after -> distance a = Some d' ->
                     (d <= d')%Z)).
Proof.
  unfold findMatchingAppointment.
  destruct (api_tokens w) as [tok|]; [|done].
  destruct (athena_get _ _) as [answer|msg] eqn:Hget; [|done].
  intros Hrun. exists answer. split; [eauto|]. split; [done|]. cbn zeta.
  destruct (MatcherFacts.best_match_spec _ _ _ _ _ Hrun) as [Hall Hcases].
  split; [exact Hall|]. intros _ _.
  destruct Hcases as [[-> Hnone]|(before & apt & after & d & Heq & -> & Hd & _ & Hb & Ha)].
  - split; [|done]. split; [|done]. intros _ apt Hapt.
    destruct (diff_of (minutes preferredTime) apt) as [d|] eqn:Hd; [|done].
    by destruct (Hnone apt d Hapt Hd) as (m & ? & _).
  - split.
    + split; [done|]. intros Hnone. exfalso.
      assert (Hin : apt ∈ default [] answer).
      { rewrite Heq. apply elem_of_app. right. by left. }
      by rewrite (Hnone apt Hin) in Hd.
    + intros apt' [= <-]. exists before, after, d. done.
Qed.

End MatcherSpec.

Lemma findMatchingAppointment_closest_witness :
  exists before after,
    Matcher.example_slots
    = (before
       ++ {| Matcher.appointmentid := "2"; Matcher.starttime := Some "10:30";
             Matcher.appointmenttypeid := "6" |} :: after)%list.
Proof.
  destruct (findMatchingAppointment_closest Examples.secrets
              Matcher.athena_slots "2024-03-15" "11:00" Examples.direct_0
              (Some {| Matcher.appointmentid := "2";
                       Matcher.starttime := Some "10:30";
                       Matcher.appointmenttypeid := "6" |})
              eq_refl)
    as (answer & _ & Hget & H).
  injection Hget as <-. cbn zeta in H.
  destruct H as (_ & H). specialize (H eq_refl). destruct H as (_ & H).
  { intros apt time Hapt. cbn in Hapt.
    repeat (apply elem_of_cons in Hapt as [->|Hapt];
            [by intros [= <-]|]).
    by apply elem_of_nil in Hapt. }
  destruct (H _ eq_refl) as (before & after & d & Heq & _).
  exists before, after. exact Heq.
Defined.

(** X30: the health check reports the credential valid exactly when one is
    stored that expires 30 seconds or more after the reading of the clock:
    the remaining time is rounded to minutes before it is compared with
    zero.  Whenever it reports the credential valid, a run of
    [bookAthenaAppointment] at the same reading of the clock passes its own
    expiry check: on a message with a patient and an appointment id it
    returns as soon as the AthenaHealth call does. *)
Theorem oauth_status_threshold (now : Z) (s : AthenaBooker.Store) :
  let oauth := (HealthCheck.oauth_status now (AthenaBooker.world s)).1 in
  (oauth = true <->
   exists data, api_tokens (AthenaBooker.world s) = Some data
                /\ (now + 30000 <= expiresAt data)%Z)
  /\ (oauth = true ->
      forall secrets athena_put bookingData newId patient appointment answer,
        AthenaBooker.patientId bookingData = Some patient ->
        AthenaBooker.appointmentId bookingData = Some appointment ->
        athena_put
          (baseUrl secrets +:+ "/v1/" +:+ practiceId secrets
           +:+ "/appointments/" +:+ appointment)
          [("patientid", patient); ("departmentid", departmentId secrets);
           ("appointmenttypeid", AthenaBooker.appointment_type bookingData)]
        = Returned answer ->
        (AthenaBooker.bookAthenaAppointment secrets athena_put bookingData
           now newId s).1
        = Returned {| AthenaBooker.bookingSuccess := true;
                      AthenaBooker.bookedAppointmentId := appointment;
                      AthenaBooker.bookingMessage :=
                        "Appointment booked successfully" |}).
Proof.
  cbn zeta.
  assert (Hiff : (HealthCheck.oauth_status now (AthenaBooker.world s)).1 = true
            <-> exists data, api_tokens (AthenaBooker.world s) = Some data
                  /\ (now + 30000 <= expiresAt data)%Z).
  { unfold HealthCheck.oauth_status, HealthCheck.round_minutes.
    destruct (api_tokens (AthenaBooker.world s)) as [data|].
    - destruct (Z.ltb_spec 0 ((2 * (expiresAt data - now) + 60000) / 120000))
        as [Hpos|Hneg]; cbn [fst].
      + split; [|done]. intros _. exists data. split; [done|].
        destruct (Z.le_gt_cases (now + 30000) (expiresAt data)) as [|Hlt];
          [done|].
        exfalso. apply (Z.lt_irrefl 0). eapply Z.lt_le_trans; [exact Hpos|].
        apply Z.lt_succ_r. apply Z.div_lt_upper_bound; lia.
      + split; [done|]. intros (data' & [= <-] & Hle). exfalso.
        assert (1 <= (2 * (expiresAt data - now) + 60000) / 120000)%Z; [|lia].
        apply Z.div_le_lower_bound; lia.
    - cbn. split; [done|]. by intros (data & ? & _). }
  split; [exact Hiff|]. intros Hoauth.
  apply Hiff in Hoauth as (data & Htok & Hle).
  intros secrets athena_put bookingData newId patient appointment answer
    Hp Ha Hput.
  unfold AthenaBooker.bookAthenaAppointment, AthenaBooker.book_try.
  rewrite Htok.
  destruct (Z.leb_spec (expiresAt data) now) as [Hexp|_]; [lia|].
  rewrite Hp, Ha.
  change (default "undefined" (Some appointment)) with appointment.
  by rewrite Hput.
Qed.

Lemma oauth_status_threshold_witness :
  (AthenaBooker.bookAthenaAppointment Examples.secrets Examples.athena_ok
     AthenaBooker.example_booking 2970000 "apt-1"
     AthenaBooker.example_store).1
  = Returned {| AthenaBooker.bookingSuccess := true;
                AthenaBooker.bookedAppointmentId := "12345";
                AthenaBooker.bookingMessage :=
                  "Appointment booked successfully" |}.
Proof.
  exact (proj2 (oauth_status_threshold 2970000 AthenaBooker.example_store)
           eq_refl Examples.secrets Examples.athena_ok
           AthenaBooker.example_booking "apt-1" "P-1001" "12345" "P-1001"
           eq_refl eq_refl eq_refl).
Defined.
